(** * CartoonGAN trainer ([train.py]): a shallow embedding and its properties

    The trainer is a sequential Python program whose interesting behaviour
    is its control flow and its effects: what it logs, which figures it
    opens and closes, which files and checkpoints it writes, which
    variables an optimizer step touches, and where an exception cuts a run
    short.  The embedding therefore runs every method in a state-and-error
    monad over an explicit [World]; the neural networks, the optimizer's
    numerics and the image codecs are collaborators passed in as a type
    class.

    Numbers: configuration integers are [Z]; pixel and loss values are
    rationals ([Q]) standing for the runtime's float32 values; the
    adversarial losses, which need [exp] and [ln], are stated over [R]. *)

From Stdlib Require Import ZArith QArith Qminmax Qabs Lia Lqa Ascii Reals Lra.
From Stdlib.Strings Require Import Byte.
From stdpp Require Import gmap strings list fin_maps pretty.

Open Scope Z_scope.

(** ** Tensors *)

(** An image is a height x width x channels array of pixel values; a batch
    stacks images along axis 0. *)
Definition Image : Type := list (list (list Q)).
Definition Batch : Type := list Image.

(** The values of the graph's variables, by variable name. *)
Abbreviation Store := (gmap string (list Q)).

(** ** Figures of the plotting library *)

Record Axes := mkAxes {
  ax_rows : Z;
  ax_cols : Z;
  ax_num : Z;
  ax_image : option Image;
  ax_on : bool
}.

Record Figure := mkFigure {
  figsize : Q * Q;
  fig_axes : list Axes
}.

(** ** The world a run acts on *)

(** The steps of a run that later statements count. *)
Inductive event : Type :=
| TrainOp                                   (* the training op ran once *)
| CheckpointSaved (dir name : string)       (* the generator was saved *)
| FigureSaved (path : string).              (* savefig wrote a figure *)

Record World := mkWorld {
  logs : list string;
  figs : list (nat * Figure);
  dirs : gset string;
  image_files : gmap string Figure;
  text_files : gmap string string;
  ckpts : gmap (string * string) Store;
  vars : Store;
  ds_pos : nat;
  batch_losses : list Q;
  trace : list event
}.

(** [logs]: records sent to the logger, oldest first.  [figs]: pyplot's open
    figures, the active one last.  [dirs]: the directories that exist.
    [image_files]: figures written by savefig, by path.  [text_files]: text
    files, by path.  [ckpts]: checkpoints, by directory and name.  [vars]:
    the session's graph variables, those an optimizer creates for itself
    included.  [ds_pos]: batches already drawn from the iterator.
    [batch_losses]: the losses the training loop collects.  [trace]: the
    counted steps, oldest first. *)

Definition set_logs (f : list string → list string) (w : World) : World :=
  mkWorld (f (logs w)) (figs w) (dirs w) (image_files w) (text_files w)
          (ckpts w) (vars w) (ds_pos w)
          (batch_losses w) (trace w).
Definition set_figs (f : list (nat * Figure) → list (nat * Figure))
    (w : World) : World :=
  mkWorld (logs w) (f (figs w)) (dirs w) (image_files w) (text_files w)
          (ckpts w) (vars w) (ds_pos w)
          (batch_losses w) (trace w).
Definition set_dirs (f : gset string → gset string) (w : World) : World :=
  mkWorld (logs w) (figs w) (f (dirs w)) (image_files w) (text_files w)
          (ckpts w) (vars w) (ds_pos w)
          (batch_losses w) (trace w).
Definition set_image_files (f : gmap string Figure → gmap string Figure)
    (w : World) : World :=
  mkWorld (logs w) (figs w) (dirs w) (f (image_files w)) (text_files w)
          (ckpts w) (vars w) (ds_pos w)
          (batch_losses w) (trace w).
Definition set_text_files (f : gmap string string → gmap string string)
    (w : World) : World :=
  mkWorld (logs w) (figs w) (dirs w) (image_files w) (f (text_files w))
          (ckpts w) (vars w) (ds_pos w)
          (batch_losses w) (trace w).
Definition set_ckpts (f : gmap (string * string) Store → gmap (string * string) Store)
    (w : World) : World :=
  mkWorld (logs w) (figs w) (dirs w) (image_files w) (text_files w)
          (f (ckpts w)) (vars w) (ds_pos w)
          (batch_losses w) (trace w).
Definition set_vars (f : Store → Store) (w : World) : World :=
  mkWorld (logs w) (figs w) (dirs w) (image_files w) (text_files w)
          (ckpts w) (f (vars w)) (ds_pos w)
          (batch_losses w) (trace w).
Definition set_ds_pos (f : nat → nat) (w : World) : World :=
  mkWorld (logs w) (figs w) (dirs w) (image_files w) (text_files w)
          (ckpts w) (vars w) (f (ds_pos w))
          (batch_losses w) (trace w).
Definition set_batch_losses (f : list Q → list Q) (w : World) : World :=
  mkWorld (logs w) (figs w) (dirs w) (image_files w) (text_files w)
          (ckpts w) (vars w) (ds_pos w)
          (f (batch_losses w)) (trace w).
Definition set_trace (f : list event → list event) (w : World) : World :=
  mkWorld (logs w) (figs w) (dirs w) (image_files w) (text_files w)
          (ckpts w) (vars w) (ds_pos w)
          (batch_losses w) (f (trace w)).

(** ** Exceptions and the run monad *)

Inductive exn : Type :=
| ValueError (msg : string)
| KeyError (key : string)
| TypeError (msg : string)
| IndexError (msg : string)
| ZeroDivisionError
| FileNotFoundError (path : string)
| InvalidArgumentError (msg : string)
| OutOfRangeError.

Inductive result (A : Type) : Type :=
| Ok (a : A)
| Raise (e : exn).
Arguments Ok {A} a.
Arguments Raise {A} e.

(** A statement maps the world to an outcome and the world it leaves
    behind; what was done before an exception stays done. *)
Definition Run (A : Type) : Type := World → result A * World.

#[global] Instance Run_ret : MRet Run := λ A a w, (Ok a, w).
#[global] Instance Run_bind : MBind Run := λ A B k m w,
  match m w with
  | (Ok a, w') => k a w'
  | (Raise e, w') => (Raise e, w')
  end.

Definition raise {A} (e : exn) : Run A := λ w, (Raise e, w).
Definition get {A} (f : World → A) : Run A := λ w, (Ok (f w), w).
Definition modify (f : World → World) : Run unit := λ w, (Ok tt, f w).

(** [try: body / except ValueError: handler]. *)
Definition try_except_ValueError {A} (body handler : Run A) : Run A := λ w,
  match body w with
  | (Raise (ValueError _), w') => handler w'
  | r => r
  end.

(** [for x in xs: body x]. *)
Fixpoint for_each {A} (xs : list A) (body : A → Run unit) : Run unit :=
  match xs with
  | [] => mret tt
  | x :: xs' => body x ;; for_each xs' body
  end.

(** [range(n)]: empty when [n <= 0]. *)
Definition range (n : Z) : list Z := seqZ 0 n.

(** [a // b] and [a % b] on Python integers: floor division, the remainder
    taking the divisor's sign, [ZeroDivisionError] on a zero divisor. *)
Definition py_floordiv (a b : Z) : Run Z :=
  if decide (b = 0) then raise ZeroDivisionError else mret (a / b).
Definition py_mod (a b : Z) : Run Z :=
  if decide (b = 0) then raise ZeroDivisionError else mret (a mod b).

(** [int(a / b)] on Python integers: true division, then truncation towards
    zero.  The quotient of two integers below 2^53 in magnitude is rounded
    correctly, so the truncated float is the truncated exact quotient. *)
Definition py_int_truediv (a b : Z) : Run Z :=
  if decide (b = 0) then raise ZeroDivisionError else mret (Z.quot a b).

(** [self.logger.info(msg)]. *)
Definition logger_info (msg : string) : Run unit :=
  modify (set_logs (λ l, l ++ [msg])).

(** ** pyplot *)

Definition new_fignum (fs : list (nat * Figure)) : nat :=
  S (foldr Nat.max 0%nat (fst <$> fs)).

(** [plt.figure(figsize=...)]: a new figure, numbered one above the highest
    open one, becomes the active figure. *)
Definition plt_figure (size : Q * Q) : Run nat := λ w,
  let n := new_fignum (figs w) in
  (Ok n, set_figs (λ fs, fs ++ [(n, mkFigure size [])]) w).

Definition update_fig (n : nat) (f : Figure → Figure)
    (fs : list (nat * Figure)) : list (nat * Figure) :=
  (λ p : nat * Figure, if decide (p.1 = n) then (p.1, f p.2) else p) <$> fs.

(** [fig.add_subplot(rows, cols, num)]: the position must lie in the grid,
    [1 <= num <= rows*cols], else [ValueError]. *)
Definition fig_add_subplot (fig : nat) (rows cols num : Z) : Run unit :=
  if decide (rows ≤ 0 ∨ cols ≤ 0) then
    raise (ValueError "Number of rows and columns must be positive integers")
  else if decide (num < 1 ∨ rows * cols < num) then
    raise (ValueError ("num must be 1 <= num <= " +:+ pretty (rows * cols)
                        +:+ ", not " +:+ pretty num))
  else
    modify (set_figs (update_fig fig (λ f,
      mkFigure (figsize f) (fig_axes f ++ [mkAxes rows cols num None true])))).

Definition default_figsize : Q * Q := (32 # 5, 24 # 5)%Q.

(** The active figure and its current axes; pyplot makes them when there
    is none. *)
Definition on_current_axes (f : Axes → Axes) (fs : list (nat * Figure))
    : list (nat * Figure) :=
  let fs := match fs with
            | [] => [(new_fignum [], mkFigure default_figsize [])]
            | _ => fs
            end in
  match reverse fs with
  | [] => fs
  | (n, fg) :: before =>
      let axs := match fig_axes fg with
                 | [] => [mkAxes 1 1 1 None true]
                 | axs => axs
                 end in
      match reverse axs with
      | [] => fs
      | a :: axs' =>
          reverse before ++ [(n, mkFigure (figsize fg) (reverse axs' ++ [f a]))]
      end
  end.

(** [plt.imshow(img)] and [plt.axis("off")]. *)
Definition plt_imshow (img : Image) : Run unit :=
  modify (set_figs (on_current_axes (λ a,
    mkAxes (ax_rows a) (ax_cols a) (ax_num a) (Some img) (ax_on a)))).
Definition plt_axis_off : Run unit :=
  modify (set_figs (on_current_axes (λ a,
    mkAxes (ax_rows a) (ax_cols a) (ax_num a) (ax_image a) false))).

(** [plt.savefig(path)]: writes the active figure.  The model takes the
    call to succeed and to write at the path as it is given, which is what
    the library does for a path with a supported extension whose directory
    exists; the library appends an extension to a name that has none and
    raises for an extension it does not know or a directory that is not
    there. *)
Definition plt_savefig (path : string) : Run unit := λ w,
  let fg := match last (figs w) with
            | Some (_, fg) => fg
            | None => mkFigure default_figsize []
            end in
  (Ok tt, set_trace (λ tr, tr ++ [FigureSaved path])
            (set_image_files (insert path fg) w)).

(** [plt.close(fig)]: the figure leaves pyplot's registry. *)
Definition plt_close (fig : nat) : Run unit :=
  modify (set_figs (filter (λ p : nat * Figure, p.1 ≠ fig))).

(** ** os *)

Definition os_path_exists (path : string) : Run bool :=
  get (λ w, bool_decide (path ∈ dirs w ∨ is_Some (image_files w !! path)
                         ∨ is_Some (text_files w !! path))).

Definition os_makedirs (path : string) : Run unit :=
  modify (set_dirs (λ d, {[path]} ∪ d)).

Definition starts_with_slash (s : string) : bool :=
  match s with
  | String c _ => bool_decide (c = "/"%char)
  | EmptyString => false
  end.

Fixpoint ends_with_slash (s : string) : bool :=
  match s with
  | EmptyString => false
  | String c EmptyString => bool_decide (c = "/"%char)
  | String _ s' => ends_with_slash s'
  end.

(** [os.path.join(a, b)] on a POSIX system. *)
Definition os_path_join (a b : string) : string :=
  if starts_with_slash b then b
  else if bool_decide (a = EmptyString) || ends_with_slash a then a +:+ b
  else a +:+ "/" +:+ b.

(** ** Trainer._save_generated_images *)

(** [batch_x.shape[0]]. *)
Definition shape0 (batch_x : Batch) : Z := Z.of_nat (length batch_x).

(** [batch_size // num_images_per_row if batch_size >= num_images_per_row
    else 1]. *)
Definition num_rows_of (batch_size num_images_per_row : Z) : Run Z :=
  if decide (num_images_per_row ≤ batch_size)
  then py_floordiv batch_size num_images_per_row
  else mret 1.

(** The body of the loop over the batch: one grid cell per image. *)
Definition draw_cell (fig : nat) (num_rows num_images_per_row : Z)
    (batch_x : Batch) (i : Z) : Run unit :=
  fig_add_subplot fig num_rows num_images_per_row (i + 1) ;;
  plt_imshow (default [] (batch_x !! Z.to_nat i)) ;;
  plt_axis_off.

Definition _save_generated_images (batch_x : Batch) (directory : string)
    (image_name : option string) (num_images_per_row : Z) : Run unit :=
  let batch_size := shape0 batch_x in
  let fig_width := 8%Q in
  num_rows ← num_rows_of batch_size num_images_per_row;
  let fig_height := 6%Q in
  fig ← plt_figure (fig_width, fig_height);
  for_each (range batch_size) (draw_cell fig num_rows num_images_per_row batch_x) ;;
  match image_name with
  | Some image_name =>
      ex ← os_path_exists directory;
      (if negb ex then os_makedirs directory else mret tt) ;;
      plt_savefig (os_path_join directory image_name)
  | None => mret tt
  end ;;
  plt_close fig.

(** The defaults of the optional parameters. *)
Definition save_generated_images (batch_x : Batch) (image_name : option string)
    : Run unit :=
  _save_generated_images batch_x "result" image_name 8.

(** ** Values handed to [str.format] and [file.write] *)

Inductive pyval : Type :=
| PyInt (z : Z)
| PyFloat (q : Q)                 (* a float, also numpy's float32 scalar *)
| PyStr (s : string)
| PyTimedelta (seconds : Q).

Definition tab : string := String "009"%char EmptyString.
Definition newline : string := String "010"%char EmptyString.

(** A computation that can raise but touches nothing. *)
Definition lift {A} (r : result A) : Run A := λ w, (r, w).

(** [a + b]: numbers add, strings concatenate; a number and a string do
    not mix. *)
Definition py_add (a b : pyval) : result pyval :=
  match a, b with
  | PyInt x, PyInt y => Ok (PyInt (x + y))
  | PyInt x, PyFloat y => Ok (PyFloat (inject_Z x + y))
  | PyFloat x, PyInt y => Ok (PyFloat (x + inject_Z y))
  | PyFloat x, PyFloat y => Ok (PyFloat (x + y))
  | PyStr x, PyStr y => Ok (PyStr (x +:+ y))
  | PyTimedelta x, PyTimedelta y => Ok (PyTimedelta (x + y))
  | _, _ => Raise (TypeError "unsupported operand type(s) for +")
  end.

(** *** [str.format] *)

(** A format string is literal text and replacement fields [{name:spec}];
    [{{] and [}}] stand for the braces themselves. *)
Inductive piece : Type :=
| Lit (text : string)
| Field (name spec : string).

Inductive scan_mode : Type :=
| InText (text : string)
| InName (name : string)
| InSpec (name spec : string).

Definition snoc_char (s : string) (c : ascii) : string := s +:+ String c EmptyString.

Fixpoint parse_format (s : string) (m : scan_mode) : result (list piece) :=
  match s, m with
  | EmptyString, InText text => Ok [Lit text]
  | EmptyString, _ => Raise (ValueError "expected '}' before end of string")
  | String c s', InText text =>
      if bool_decide (c = "{"%char) then
        match s' with
        | String "{"%char s'' => parse_format s'' (InText (snoc_char text c))
        | _ => match parse_format s' (InName EmptyString) with
               | Ok ps => Ok (Lit text :: ps)
               | Raise e => Raise e
               end
        end
      else if bool_decide (c = "}"%char) then
        match s' with
        | String "}"%char s'' => parse_format s'' (InText (snoc_char text c))
        | _ => Raise (ValueError "Single '}' encountered in format string")
        end
      else parse_format s' (InText (snoc_char text c))
  | String c s', InName name =>
      if bool_decide (c = "}"%char) then
        match parse_format s' (InText EmptyString) with
        | Ok ps => Ok (Field name EmptyString :: ps)
        | Raise e => Raise e
        end
      else if bool_decide (c = ":"%char) then parse_format s' (InSpec name EmptyString)
      else parse_format s' (InName (snoc_char name c))
  | String c s', InSpec name spec =>
      if bool_decide (c = "}"%char) then
        match parse_format s' (InText EmptyString) with
        | Ok ps => Ok (Field name spec :: ps)
        | Raise e => Raise e
        end
      else parse_format s' (InSpec name (snoc_char spec c))
  end.

(** A field name made of digits is a position. *)
Fixpoint digits_value (s : string) (acc : nat) : option nat :=
  match s with
  | EmptyString => Some acc
  | String c s' =>
      let n := nat_of_ascii c in
      if bool_decide (48 ≤ n ∧ n ≤ 57)%nat
      then digits_value s' (10 * acc + (n - 48))%nat
      else None
  end.

Definition lookup_kwarg (kwargs : list (string * pyval)) (name : string)
    : option pyval :=
  match list_find (λ kv : string * pyval, kv.1 = name) kwargs with
  | Some (_, (_, v)) => Some v
  | None => None
  end.

(** Fields are filled from left to right, and the first one that is not
    there raises: [IndexError] for a position, [KeyError] for a keyword.
    [render] is the built-in [format(value, spec)]. *)
Fixpoint fill_fields (render : pyval → string → string) (ps : list piece)
    (auto : nat) (args : list pyval) (kwargs : list (string * pyval))
    : result string :=
  match ps with
  | [] => Ok EmptyString
  | Lit text :: ps' =>
      match fill_fields render ps' auto args kwargs with
      | Ok s => Ok (text +:+ s)
      | Raise e => Raise e
      end
  | Field name spec :: ps' =>
      let found :=
        if bool_decide (name = EmptyString) then
          match args !! auto with
          | Some v => Ok (v, S auto)
          | None => Raise (IndexError "Replacement index out of range")
          end
        else match digits_value name 0 with
             | Some i =>
                 match args !! i with
                 | Some v => Ok (v, auto)
                 | None => Raise (IndexError "Replacement index out of range")
                 end
             | None =>
                 match lookup_kwarg kwargs name with
                 | Some v => Ok (v, auto)
                 | None => Raise (KeyError name)
                 end
             end in
      match found with
      | Raise e => Raise e
      | Ok (v, auto') =>
          match fill_fields render ps' auto' args kwargs with
          | Ok s => Ok (render v spec +:+ s)
          | Raise e => Raise e
          end
      end
  end.

(** [template.format(...)] with positional and keyword arguments. *)
Definition str_format (render : pyval → string → string) (template : string)
    (args : list pyval) (kwargs : list (string * pyval)) : result string :=
  match parse_format template (InText EmptyString) with
  | Ok ps => fill_fields render ps 0 args kwargs
  | Raise e => Raise e
  end.

(** *** Text files opened for appending *)

(** The part of a path before its last [/]. *)
Fixpoint dirname_go (s : string) (seen last_dir : string) : string :=
  match s with
  | EmptyString => last_dir
  | String c s' =>
      if bool_decide (c = "/"%char)
      then dirname_go s' (snoc_char seen c) seen
      else dirname_go s' (snoc_char seen c) last_dir
  end.
Definition os_path_dirname (path : string) : string := dirname_go path EmptyString EmptyString.

(** [open(path, "a")]: the file is created empty when it is not there; its
    directory has to exist. *)
Definition open_append (path : string) : Run string := λ w,
  let parent := os_path_dirname path in
  if bool_decide (parent = EmptyString ∨ parent ∈ dirs w) then
    (Ok path,
     set_text_files (λ fs, match fs !! path with
                           | Some _ => fs
                           | None => <[path := EmptyString]> fs
                           end) w)
  else (Raise (FileNotFoundError path), w).

(** [f.write(...)]: exactly one argument, a string, which goes to the end
    of the file. *)
Definition file_write (f : string) (args : list pyval) : Run unit :=
  match args with
  | [PyStr s] =>
      modify (set_text_files (λ fs, <[f := default EmptyString (fs !! f) +:+ s]> fs))
  | [_] => raise (TypeError "write() argument must be str")
  | _ => raise (TypeError "write() takes exactly one argument")
  end.

(** ** Tensor operations *)

(** Apply a scalar function to every value of an image. *)
Definition image_map {A B} (f : A → B) (img : list (list (list A)))
    : list (list (list B)) :=
  (λ row : list (list A), (λ px : list A, f <$> px) <$> row) <$> img.

(** All values of an image, of a batch. *)
Definition pixels {A} (img : list (list (list A))) : list A := concat (concat img).
Definition flatten (x : Batch) : list Q := concat (pixels <$> x).

(** The image is a regular [h] x [w] x [c] array. *)
Definition has_shape {A} (img : list (list (list A))) (h w c : nat) : Prop :=
  length img = h
  ∧ Forall (λ row, length row = w ∧ Forall (λ px, length px = c) row) img.

(** Every value of the image lies between [lo] and [hi]. *)
Definition in_range (lo hi : Q) (img : Image) : Prop :=
  Forall (λ v, lo <= v ∧ v <= hi)%Q (pixels img).

(** [tf.cast(img, tf.float32) / 127.5 - 1]. *)
Definition normalize (v : Q) : Q := (v / (255 # 2) - 1)%Q.

(** [np.clip(x, lo, hi)], that is [minimum(hi, maximum(x, lo))]. *)
Definition clip (lo hi v : Q) : Q := Qmin hi (Qmax v lo).
Definition np_clip (x : Batch) (lo hi : Q) : Batch := image_map (clip lo hi) <$> x.

(** [np.concatenate(arrays, axis=0)]: an empty list of arrays is an error. *)
Definition np_concatenate (arrays : list Batch) : result Batch :=
  match arrays with
  | [] => Raise (ValueError "need at least one array to concatenate")
  | _ => Ok (concat arrays)
  end.

(** [a - b], [tf.abs] and [tf.reduce_mean] on flat tensors. *)
Definition tf_sub (a b : list Q) : list Q := zip_with Qminus a b.
Definition tf_abs (a : list Q) : list Q := Qabs <$> a.
Definition reduce_sum (a : list Q) : Q := foldr Qplus 0%Q a.
Definition reduce_mean (a : list Q) : Q :=
  (reduce_sum a / inject_Z (Z.of_nat (length a)))%Q.

(** [tf.ones_like] and [tf.zeros_like]. *)
Definition ones_like (x : list Q) : list Q := (λ _, 1%Q) <$> x.
Definition zeros_like (x : list Q) : list Q := (λ _, 0%Q) <$> x.

(** ** The optimizer's variables *)

(** [AdamOptimizer.minimize(loss, var_list)] creates graph variables of its
    own: two accumulators for every variable of [var_list], named after
    it, and the optimizer's two beta powers, whose names are given by
    [powers].  They are global variables like the networks' and belong to
    no network's list of variables to save. *)
Definition adam_m_slot (v : string) : string := v +:+ "/Adam".
Definition adam_v_slot (v : string) : string := v +:+ "/Adam_1".

Definition optimizer_vars (powers : string * string) (var_list : list string)
    : list string :=
  [powers.1; powers.2] ++ (var_list ≫= λ v, [adam_m_slot v; adam_v_slot v]).

(** The optimizer's default decay rates, 0.9 and 0.999. *)
Definition beta1 : Q := 9 # 10.
Definition beta2 : Q := 999 # 1000.

(** What the variables initializer gives the optimizer's variables: the
    accumulators start at zero, in the shape of their variable, and the
    beta powers at the decay rates. *)
Definition optimizer_initial_vars (powers : string * string)
    (var_list : list string) (model : Store) : Store :=
  <[powers.1 := [beta1]]>
    (<[powers.2 := [beta2]]>
       (foldr (λ v acc,
                 <[adam_m_slot v := zeros_like (default [] (model !! v))]>
                   (<[adam_v_slot v := zeros_like (default [] (model !! v))]> acc))
              ∅ var_list)).

(** ** Collaborators *)

(** A decoded image file: height x width x channels of 8-bit values. *)
Definition RawImage : Type := list (list (list byte)).

Definition byte_value (b : byte) : Q := inject_Z (Z.of_N (Byte.to_N b)).

(** What the trainer consumes and does not define: the file system's
    listing, the image codec and resampler, the shuffle order, the
    networks, the optimizer's update rule (the values it computes for a
    variable and for the variable's two accumulators, from the loss and
    the current variables), the initial values of the networks' variables,
    the clock and the rendering of values in messages. *)
Class Collaborators := {
  glob : string → list string;
  decode_jpeg : string → RawImage;
  resize_images : RawImage → Z → Z → Image;
  shuffle : Z → nat → list Image → list Image;     (* buffer size, pass *)
  generator : Store → Batch → Batch;
  to_save_vars : list string;
  vgg_build_graph : Store → Batch → list Q;
  vgg_vars : list string;
  initial_vars : Store;
  adam_update : Q → string * string → (Store → Q) → Store → string → list Q;
  adam_m : (Store → Q) → Store → string → list Q;
  adam_v : (Store → Q) → Store → string → list Q;
  utcnow : World → Q;
  format_value : pyval → string → string
}.

(** What the trainer relies on from its collaborators: decoding with
    [channels=3] gives a regular 3-channel image, resizing gives the
    requested size with the channels kept and values that stay within the
    8-bit range, shuffling reorders, and the generator returns one image
    per input image. *)
Class CollaboratorsSpec `{Collaborators} : Prop := {
  decode_jpeg_shape : ∀ file, ∃ h w,
    (0 < h)%nat ∧ (0 < w)%nat ∧ has_shape (decode_jpeg file) h w 3;
  resize_images_shape : ∀ x h w c s,
    has_shape x h w c → (0 < h)%nat → (0 < w)%nat → 0 < s →
    has_shape (resize_images x s s) (Z.to_nat s) (Z.to_nat s) c;
  resize_images_range : ∀ x s,
    in_range 0 255 (resize_images x s s);
  shuffle_perm : ∀ buffer epoch l, shuffle buffer epoch l ≡ₚ l;
  generator_batch : ∀ vs x, length (generator vs x) = length x
}.

(** ** The trainer's configuration *)

(** The fields [Trainer.__init__] stores; the logger is the world's [logs]. *)
Record Trainer := mkTrainer {
  dataset_name : string;
  source_domain : string;
  target_domain : string;
  input_size : Z;
  batch_size : Z;
  sample_size : Z;
  logdir : string;
  save_dir : string;
  pass_vgg : bool;
  pretrain_learning_rate : Q;
  pretrain_num_steps : Z;
  pretrain_reporting_steps : Z;
  pretrain_generator_name : string
}.

(** ** The image pipeline *)

Section Pipeline.
Context `{Collaborators}.

(** [ds.map(f)], [ds.shuffle(buffer)], [ds.repeat()] and [ds.batch(n)]:
    a finite dataset is the list of its elements; shuffling gives one
    order per pass; repeating walks pass after pass and never ends unless
    there is nothing to repeat; batching groups consecutive elements. *)
Definition ds_map {A B} (f : A → B) (ds : list A) : list B := f <$> ds.

Definition ds_shuffle (buffer : Z) (ds : list Image) : nat → list Image :=
  λ epoch, shuffle buffer epoch ds.

Definition ds_repeat (size : nat) (passes : nat → list Image)
    : nat → option Image :=
  λ i, if decide (size = 0%nat) then None
       else passes (i `div` size)%nat !! (i `mod` size)%nat.

Definition ds_batch (batch_size : Z) (elems : nat → option Image)
    : nat → option Batch :=
  λ k, mapM elems (seq (k * Z.to_nat batch_size) (Z.to_nat batch_size)).

Definition image_processing (self : Trainer) (filename : string) : Image :=
  let x := decode_jpeg filename in
  let img := resize_images x (input_size self) (input_size self) in
  image_map normalize img.

(** The dataset [get_dataset] builds from the files it found. *)
Definition dataset_of (self : Trainer) (files : list string) (batch_size : Z)
    : nat → option Batch :=
  let ds := files in
  ds_batch batch_size
    (ds_repeat (length ds)
       (ds_shuffle 10000 (ds_map (image_processing self) ds))).

Definition dataset_files (dataset_name domain _type : string) : list string :=
  glob (os_path_join (os_path_join (os_path_join "datasets" dataset_name)
                        (_type +:+ domain)) "*").

(** [get_dataset]: an empty list of files makes a float32 tensor, which
    [tf.read_file] rejects with [TypeError] when [ds.map] traces
    [image_processing], so no dataset is built over an empty folder. *)
Definition get_dataset (self : Trainer) (dataset_name domain _type : string)
    (batch_size : Z) : Run (nat → option Batch) :=
  let files := dataset_files dataset_name domain _type in
  logger_info (pretty (length files) +:+ " domain" +:+ domain
               +:+ " images available in " +:+ _type +:+ domain
               +:+ " folder.") ;;
  if decide (files = [])
  then raise (TypeError "Input 'filename' of 'ReadFile' Op has type float32 that does not match expected type of string.")
  else mret (dataset_of self files batch_size).

(** [ds_iter.initializer.run()]: the pipeline is instantiated, which
    rejects a batch size that is not positive, and the iterator starts at
    the first batch. *)
Definition initializer_run (batch_size : Z) : Run unit :=
  if decide (batch_size ≤ 0)
  then raise (InvalidArgumentError "Batch size must be greater than zero.")
  else modify (set_ds_pos (λ _, 0%nat)).

(** [sess.run(input_images)]: the next batch of the iterator. *)
Definition next_batch (ds : nat → option Batch) : Run Batch := λ w,
  match ds (ds_pos w) with
  | Some b => (Ok b, set_ds_pos S w)
  | None => (Raise OutOfRangeError, w)
  end.
End Pipeline.

(** ** Pretraining *)

Section Pretraining.
Context `{Collaborators} (self : Trainer).

(** Modelled from the spec: [Generator.save] and [Generator.load], which
    [generator.py] defines.  The generator's parameter set is persisted to
    a checkpoint identified by (save directory, checkpoint name); loading
    restores it, and when no checkpoint is present loading fails with the
    [ValueError] that [pretrain_generator] catches. *)
Definition g_save (save_dir name : string) : Run unit :=
  modify (λ w,
    set_trace (λ tr, tr ++ [CheckpointSaved save_dir name])
      (set_ckpts (insert (save_dir, name)
         (filter (λ kv : string * list Q, kv.1 ∈ to_save_vars) (vars w))) w)).

(** Modelled from the spec: [Generator.load] (see above); it restores the
    variables of the generator's list from the checkpoint of that name. *)
Definition g_load (save_dir name : string) : Run unit := λ w,
  match ckpts w !! (save_dir, name) with
  | Some saved =>
      (Ok tt, set_vars (λ vs,
         filter (λ kv : string * list Q, kv.1 ∈ to_save_vars) saved ∪ vs) w)
  | None => (Raise (ValueError "Can't load save_path when it is None."), w)
  end.

(** The content loss of the graph, as a function of the variables and the
    input batch. *)
Definition content_loss (vs : Store) (input_images : Batch) : Q :=
  let generated_images := generator vs input_images in
  if pass_vgg self then
    let input_content := vgg_build_graph vs input_images in
    let generated_content := vgg_build_graph vs generated_images in
    reduce_mean (tf_abs (tf_sub input_content generated_content))
  else
    reduce_mean (tf_abs (tf_sub (flatten input_images) (flatten generated_images))).

(** One run of [opt.minimize(loss, var_list=var_list)]: every variable of
    [var_list] and its two accumulators get the values the optimizer
    computes for them, and the optimizer multiplies its beta powers by the
    decay rates. *)
Definition minimize (learning_rate : Q) (powers : string * string)
    (loss : Store → Q) (var_list : list string) : Run unit :=
  modify (λ w,
    let vs := vars w in
    set_trace (λ tr, tr ++ [TrainOp])
      (set_vars (λ _,
         <[powers.1 := Qmult beta1 <$> default [] (vs !! powers.1)]>
           (<[powers.2 := Qmult beta2 <$> default [] (vs !! powers.2)]>
              (foldr (λ v acc,
                        <[v := adam_update learning_rate powers loss vs v]>
                          (<[adam_m_slot v := adam_m loss vs v]>
                             (<[adam_v_slot v := adam_v loss vs v]> acc)))
                     vs var_list))) w)).

(** The beta powers of the optimizer of pretraining, the first optimizer
    of its graph. *)
Definition pretrain_powers : string * string := ("beta1_power", "beta2_power").

(** [tf.global_variables_initializer()] for the graph of pretraining: the
    networks' variables and the optimizer's. *)
Definition initial_values : Store :=
  optimizer_initial_vars pretrain_powers to_save_vars initial_vars ∪ initial_vars.

(** [sess.run([train_op, content_loss])]: one batch is drawn, the loss is
    evaluated on it and the optimizer steps. *)
Definition run_train_op (ds : nat → option Batch) : Run Q :=
  input_images ← next_batch ds;
  vs ← get vars;
  minimize (pretrain_learning_rate self) pretrain_powers
           (λ vs, content_loss vs input_images) to_save_vars ;;
  mret (content_loss vs input_images).

(** The files of the source domain's training folder. *)
Definition source_files : list string :=
  dataset_files (dataset_name self) (source_domain self) "train".

(** Lines 113-143: the graph is built. *)
Definition build_graph : Run ((nat → option Batch) * Q) :=
  logger_info ("Pretraining generator with " +:+ pretty (pretrain_num_steps self)
               +:+ " steps, batch size: " +:+ pretty (batch_size self) +:+ "...") ;;
  logger_info ("Building " +:+ dataset_name self +:+ " with domain "
               +:+ source_domain self +:+ "...") ;;
  ds ← get_dataset self (dataset_name self) (source_domain self) "train"
                   (batch_size self);
  logger_info "Initializing generator..." ;;
  (if pass_vgg self
   then logger_info "Initializing VGG for computing content loss..."
   else logger_info "Defining content loss without VGG...") ;;
  logger_info "Setting up optimizer to update generator's parameters..." ;;
  logger_info "Start training..." ;;
  start ← get utcnow;
  mret (ds, start).

(** Lines 146-147: all variables take their initial values and the
    iterator is initialized. *)
Definition session_start : Run unit :=
  modify (set_vars (λ _, initial_values)) ;;
  initializer_run (batch_size self).

(** Lines 149-154. *)
Definition restore_checkpoint : Run unit :=
  logger_info "Loading previous checkpoints..." ;;
  try_except_ValueError
    (g_load (save_dir self) (pretrain_generator_name self) ;;
     logger_info ("Successfully loaded " +:+ pretrain_generator_name self +:+ "..."))
    (logger_info (pretrain_generator_name self
                  +:+ " checkpoints not found, start from scratch...")).

(** Lines 156-159. *)
Definition draw_real_batches (ds : nat → option Batch) : Run (list Batch) :=
  logger_info ("Sampling " +:+ pretty (sample_size self)
               +:+ " images for tracking generator's performance...") ;;
  n ← py_int_truediv (sample_size self) (batch_size self);
  mapM (λ _, next_batch ds) (range n).

(** Lines 161-164. *)
Definition export_sample (real_batches : list Batch) : Run unit :=
  x ← lift (np_concatenate real_batches);
  save_generated_images (np_clip x 0 1) (Some "sample_images.png").

(** Lines 185-186: the record for the loss log. *)
Definition write_loss_record (step : Z) (batch_loss : Q) : Run unit :=
  f ← open_append "result/batch_losses.tsv";
  line_end ← lift (py_add (PyFloat batch_loss) (PyStr newline));
  file_write f [PyInt step; PyStr tab; line_end].

(** Lines 171-186: the report of a reporting step. *)
Definition report (start : Q) (real_batches : list Batch) (step : Z)
    (batch_loss : Q) : Run unit :=
  fake_batches ← mapM (λ real_batch,
                    get (λ w, generator (vars w) real_batch)) real_batches;
  g_save (save_dir self) (pretrain_generator_name self) ;;
  x ← lift (np_concatenate fake_batches);
  save_generated_images (np_clip x 0 1)
    (Some ("generated_images_at_step_" +:+ pretty step +:+ ".png")) ;;
  now ← get utcnow;
  msg ← lift (str_format format_value
           "[Step {step}] batch_loss: {:.3f}, {} elapsed"
           [PyFloat batch_loss; PyTimedelta (now - start)] []);
  logger_info msg ;;
  write_loss_record step batch_loss.

(** [step and step % self.pretrain_reporting_steps == 0]. *)
Definition is_reporting_step (step : Z) : Run bool :=
  if decide (step = 0) then mret false
  else r ← py_mod step (pretrain_reporting_steps self);
       mret (bool_decide (r = 0)).

(** Lines 167-186: the body of the training loop. *)
Definition train_step (ds : nat → option Batch) (start : Q)
    (real_batches : list Batch) (step : Z) : Run unit :=
  batch_loss ← run_train_op ds;
  modify (set_batch_losses (λ l, l ++ [batch_loss])) ;;
  reporting ← is_reporting_step step;
  if reporting : bool then report start real_batches step batch_loss
  else mret tt.

Definition training_loop (ds : nat → option Batch) (start : Q)
    (real_batches : list Batch) : Run unit :=
  for_each (range (pretrain_num_steps self)) (train_step ds start real_batches).

(** Lines 156-186: what the session does once the checkpoint was looked
    for. *)
Definition sample_and_train (ds : nat → option Batch) (start : Q) : Run unit :=
  real_batches ← draw_real_batches ds;
  export_sample real_batches ;;
  training_loop ds start real_batches.

Definition pretrain_generator : Run unit :=
  '(ds, start) ← build_graph;
  session_start ;;
  restore_checkpoint ;;
  sample_and_train ds start.
End Pretraining.

(** ** Small concrete inputs *)

(** A world in which nothing has happened yet. *)
Definition world0 : World :=
  mkWorld [] [] ∅ ∅ ∅ ∅ ∅ 0%nat [] [].

(** A 1x1 image with the given grey level, and batches of them. *)
Definition grey (q : Q) : Image := [[[q; q; q]]].
Definition grey_batch (n : nat) : Batch := replicate n (grey (1 # 2)).

(** ** The losses of the adversarial phase *)

(** [train_gan] builds its losses from the generator, the discriminator and
    the feature extractor; the graph is a function of the input batches.
    Values are real numbers here, since the cross-entropy needs [exp] and
    [ln]. *)
Module Gan.
Section Losses.
Local Open Scope R_scope.
Context {T : Type}.
Variables (g : T → T) (d_build_graph : T → list R) (vgg : T → list R).

Definition reduce_sum (xs : list R) : R := foldr Rplus 0 xs.

(** [tf.reduce_mean] of a tensor, and of a scalar. *)
Definition reduce_mean (xs : list R) : R := reduce_sum xs / INR (length xs).
Definition reduce_mean_scalar (x : R) : R := x.

Definition ones_like (xs : list R) : list R := (λ _, 1) <$> xs.
Definition zeros_like (xs : list R) : list R := (λ _, 0) <$> xs.

(** [tf.nn.sigmoid_cross_entropy_with_logits], in the numerically stable
    form the library computes: [max(x, 0) - x * z + log(1 + exp(-abs(x)))]. *)
Definition sigmoid_cross_entropy_with_logits (z x : R) : R :=
  Rmax x 0 - x * z + ln (1 + exp (- Rabs x)).

(** [tf.losses.sigmoid_cross_entropy(labels, logits)] with unit weights:
    the sum of the element losses over their number, 0 for no element. *)
Definition sigmoid_cross_entropy (labels logits : list R) : R :=
  let losses := zip_with sigmoid_cross_entropy_with_logits labels logits in
  if decide (length losses = 0%nat) then 0
  else reduce_sum losses / INR (length losses).

(** Lines 204-227. *)
Definition content_loss (input_a : T) : R :=
  let generated_b := g input_a in
  let v_real_out := vgg input_a in
  let v_fake_out := vgg generated_b in
  reduce_mean (Rabs <$> zip_with Rminus v_real_out v_fake_out).

Definition d_loss (input_a input_b input_b_smooth : T) : R :=
  let generated_b := g input_a in
  let d_real_out := d_build_graph input_b in
  let d_fake_out := d_build_graph generated_b in
  let d_smooth_out := d_build_graph input_b_smooth in
  let d_real_loss :=
    reduce_mean_scalar (sigmoid_cross_entropy (ones_like d_real_out) d_real_out) in
  let d_fake_loss :=
    reduce_mean_scalar (sigmoid_cross_entropy (zeros_like d_fake_out) d_fake_out) in
  let d_smooth_loss :=
    reduce_mean_scalar (sigmoid_cross_entropy (zeros_like d_smooth_out) d_smooth_out) in
  d_real_loss + d_fake_loss + d_smooth_loss.

Definition g_adversarial_loss (input_a : T) : R :=
  let generated_b := g input_a in
  let d_fake_out := d_build_graph generated_b in
  reduce_mean_scalar (sigmoid_cross_entropy (ones_like d_fake_out) d_fake_out).

Definition g_loss (input_a : T) : R :=
  g_adversarial_loss input_a + 10 * content_loss input_a.

(** The losses as the specification words them: the cross-entropy of the
    discriminator's sigmoid output against a label, averaged over the
    batch, and the mean absolute difference of two embeddings. *)
Definition sigmoid (x : R) : R := 1 / (1 + exp (- x)).

Definition cross_entropy (label p : R) : R :=
  - (label * ln p + (1 - label) * ln (1 - p)).

Definition mean_sigmoid_cross_entropy (label : R) (logits : list R) : R :=
  reduce_mean ((λ x, cross_entropy label (sigmoid x)) <$> logits).

Definition mean_absolute_difference (a b : list R) : R :=
  reduce_mean (zip_with (λ x y, Rabs (x - y)) a b).
End Losses.
End Gan.

(** ** A toy instance *)

(** Nearest-neighbour resampling, the simplest resizer. *)
Definition resize_nearest (x : RawImage) (new_h new_w : Z) : Image :=
  let h := length x in
  (λ i : nat,
     let row := default [] (x !! ((i * h) `div` Z.to_nat new_h)%nat) in
     let w := length row in
     (λ j : nat,
        byte_value <$> default [] (row !! ((j * w) `div` Z.to_nat new_w)%nat))
       <$> seq 0 (Z.to_nat new_w))
    <$> seq 0 (Z.to_nat new_h).

Definition toy_weight (name : string) (vs : Store) : Q :=
  default 1%Q (vs !! name ≫= head).

(** Four image files per domain; a one-weight generator and feature
    extractor; an optimizer that moves a variable against the loss. *)
Definition toy_collaborators : Collaborators := {|
  glob := λ _, ["1.jpg"; "2.jpg"; "3.jpg"; "4.jpg"];
  decode_jpeg := λ _, [[[x00; x80; xff]; [x10; x20; x30]]];
  resize_images := resize_nearest;
  shuffle := λ _ _ l, reverse l;
  generator := λ vs x, image_map (Qmult (toy_weight "generator/w" vs)) <$> x;
  to_save_vars := ["generator/w"];
  vgg_build_graph := λ vs x, Qmult (toy_weight "vgg/w" vs) <$> flatten x;
  vgg_vars := ["vgg/w"];
  initial_vars := {["generator/w" := [(1 # 2)%Q]; "vgg/w" := [1%Q]]};
  adam_update := λ lr powers loss vs v,
    (λ x, Qred (x - lr * loss vs))%Q <$> default [] (vs !! v);
  adam_m := λ loss vs v,
    (λ m, Qred (beta1 * m + (1 - beta1) * loss vs))%Q
      <$> default [] (vs !! adam_m_slot v);
  adam_v := λ loss vs v,
    (λ a, Qred (beta2 * a + (1 - beta2) * (loss vs * loss vs)))%Q
      <$> default [] (vs !! adam_v_slot v);
  utcnow := λ w, inject_Z (Z.of_nat (length (trace w)));
  format_value := λ v spec,
    match v with
    | PyInt z => pretty z
    | PyStr s => s
    | _ => "?"
    end
|}.

(** The end-to-end scenario: batch size 2, 4 pretraining steps, a report
    every 2 steps, 4 sample images. *)
Definition toy_trainer : Trainer := {|
  dataset_name := "toy";
  source_domain := "A";
  target_domain := "B";
  input_size := 2;
  batch_size := 2;
  sample_size := 4;
  logdir := "runs";
  save_dir := "ckpts";
  pass_vgg := false;
  pretrain_learning_rate := (1 # 100000)%Q;
  pretrain_num_steps := 4;
  pretrain_reporting_steps := 2;
  pretrain_generator_name := "pretrain_generator"
|}.

(** ** Descriptions of outcomes *)

(** The cell [draw_cell] adds for image [i], and the error of a position
    outside the grid. *)
Definition cell (rows cols : Z) (batch_x : Batch) (i : Z) : Axes :=
  mkAxes rows cols (i + 1) (Some (default [] (batch_x !! Z.to_nat i))) false.

Definition subplot_error (rows cols num : Z) : exn :=
  ValueError ("num must be 1 <= num <= " +:+ pretty (rows * cols)
              +:+ ", not " +:+ pretty num).

(** The number of rows for a batch of [b] images, 8 to a row. *)
Definition rows_for (b : Z) : Z := if decide (8 ≤ b) then b / 8 else 1.

(** The batch fills the grid it asks for: at most one row of 8, or whole
    rows. *)
Definition fits_grid (b : Z) : Prop := b ≤ 8 ∨ b mod 8 = 0.

#[global] Instance fits_grid_dec b : Decision (fits_grid b).
Proof. unfold fits_grid. apply _. Defined.

(** The figure of a batch that fits, and the world after it was exported. *)
Definition grid_figure (batch_x : Batch) : Figure :=
  mkFigure (8%Q, 6%Q)
    (cell (rows_for (shape0 batch_x)) 8 batch_x <$> range (shape0 batch_x)).

Definition after_export (batch_x : Batch) (directory : string)
    (image_name : option string) (w : World) : World :=
  match image_name with
  | None => w
  | Some name =>
      set_trace (λ tr, tr ++ [FigureSaved (os_path_join directory name)])
       (set_image_files (insert (os_path_join directory name) (grid_figure batch_x))
        (if bool_decide (directory ∈ dirs w ∨ is_Some (image_files w !! directory)
                         ∨ is_Some (text_files w !! directory))
         then w else set_dirs (λ d, {[directory]} ∪ d) w))
  end.

(** The record [get_dataset] logs, and its error over an empty folder. *)
Definition dataset_log `{Collaborators} (dataset_name domain _type : string)
    : string :=
  pretty (length (dataset_files dataset_name domain _type)) +:+ " domain"
  +:+ domain +:+ " images available in " +:+ _type +:+ domain +:+ " folder.".

Definition read_file_error : exn :=
  TypeError "Input 'filename' of 'ReadFile' Op has type float32 that does not match expected type of string.".

(** What [image_processing] returns for any file. *)
Definition processed (self : Trainer) (img : Image) : Prop :=
  has_shape img (Z.to_nat (input_size self)) (Z.to_nat (input_size self)) 3
  ∧ in_range (-1) 1 img.

(** A statement that, from every world, returns a value satisfying [V],
    adds [tr] to the trace and leaves the text files alone; and one that,
    from every world, raises [e] after adding [tr]. *)
Definition returns {A} (m : Run A) (V : A → Prop) (tr : list event) : Prop :=
  ∀ w, ∃ a w', m w = (Ok a, w') ∧ V a
               ∧ trace w' = trace w ++ tr ∧ text_files w' = text_files w.

Definition raises {A} (m : Run A) (e : exn) (tr : list event) : Prop :=
  ∀ w, ∃ w', m w = (Raise e, w')
             ∧ trace w' = trace w ++ tr ∧ text_files w' = text_files w.

(** The variables a training op can write: those of the list the
    optimizer was given, and the optimizer's own. *)
Definition training_vars (powers : string * string) (var_list : list string)
    : list string :=
  var_list ++ optimizer_vars powers var_list.

(** A statement that never changes a variable outside [keep]. *)
Definition keeps_vars_outside {A} (keep : list string) (m : Run A) : Prop :=
  ∀ w v, v ∉ keep → vars (m w).2 !! v = vars w !! v.

(** The number of images a list of batches holds. *)
Definition images_of (batches : list Batch) : Z :=
  Z.of_nat (length (concat batches)).

(** ** Trainer.__init__ and main *)

(** What [Logger.setLevel] can be handed: an integer level, a level name,
    or some other object, such as the function [logging.info]. *)
Inductive level_arg : Type :=
| LevelInt (n : Z)
| LevelName (name : string)
| LevelFunction (name : string).

Definition level_names : list (string * Z) :=
  [("CRITICAL", 50); ("FATAL", 50); ("ERROR", 40); ("WARN", 30);
   ("WARNING", 30); ("INFO", 20); ("DEBUG", 10); ("NOTSET", 0)].

(** [logging._checkLevel]: an integer is taken as it is, a string has to
    be a level name, anything else is a [TypeError]. *)
Definition logging_checkLevel (level : level_arg) : result Z :=
  match level with
  | LevelInt n => Ok n
  | LevelName name =>
      match list_find (λ p : string * Z, p.1 = name) level_names with
      | Some (_, (_, n)) => Ok n
      | None => Raise (ValueError ("Unknown level: " +:+ name))
      end
  | LevelFunction _ => Raise (TypeError "Level not an integer or a valid string")
  end.

(** [logger.setLevel(level)]. *)
Definition logger_setLevel (level : level_arg) : Run unit :=
  lift (logging_checkLevel level) ;; mret tt.

(** [self.logger.warning(msg)]. *)
Definition logger_warning (msg : string) : Run unit :=
  modify (set_logs (λ l, l ++ [msg])).

(** The progress wrapper a trainer holds: [_tqdm], which returns its first
    argument, or the library's [tqdm]. *)
Inductive progress : Type := PassThrough | TqdmBar.

(** [_tqdm(res, ...)]. *)
Definition _tqdm {A} (res : A) : A := res.

(** The module's surroundings: [os.name] and whether importing [tqdm]
    failed. *)
Record Runtime := mkRuntime {
  os_name : string;
  __no_tqdm__ : bool
}.

(** A constructed trainer: the stored configuration and what [__init__]
    derives. *)
Record TrainerObject := mkTrainerObject {
  config : Trainer;
  ascii_ : bool;
  logger : string;
  tqdm : progress
}.

(** [Trainer.__init__]; [logger] is [None] or the name of the logger
    passed in. *)
Definition Trainer_init (rt : Runtime) (cfg : Trainer) (show_progress : bool)
    (logger : option string) : Run TrainerObject :=
  let ascii := bool_decide (os_name rt = "nt") in
  the_logger ← match logger with
               | Some l => mret l
               | None =>
                   let root := "root" in
                   logger_setLevel (LevelFunction "info") ;;
                   logger_warning
                     "You are using the root logger, which has bad a format." ;;
                   logger_warning "Please consider passing a better logger." ;;
                   mret root
               end;
  let the_tqdm := if negb show_progress || __no_tqdm__ rt
                  then PassThrough else TqdmBar in
  mret (mkTrainerObject cfg ascii the_logger the_tqdm).

(** ** Folding loops and explicit iterator positions *)

(** [for x in xs: s = body(x, s)]. *)
Fixpoint for_fold {A S} (xs : list A) (body : A → S → Run S) (s : S) : Run S :=
  match xs with
  | [] => mret s
  | x :: xs' => s' ← body x s; for_fold xs' body s'
  end.

(** The batch of a dataset at a position kept outside the world. *)
Definition fetch_at (ds : nat → option Batch) (pos : nat) : result Batch :=
  match ds pos with
  | Some b => Ok b
  | None => Raise OutOfRangeError
  end.

(** ** Adversarial training *)

(** What [train_gan] consumes besides the collaborators of pretraining:
    the discriminator, whose weights are shared by its three calls, its
    list of variables, and the library's cross-entropy on labels and
    logits. *)
Class GanCollaborators `{Collaborators} := {
  d_build_graph : Store → Batch → list Q;
  d_to_save_vars : list string;
  sigmoid_cross_entropy : list Q → list Q → Q
}.

Section Adversarial.
Context `{GanCollaborators} (self : Trainer).

Definition ckpt_name : string := "generater_adv_training".

(** The beta powers of the two optimizers: the generator's is made first,
    the discriminator's gets the names made unique. *)
Definition g_powers : string * string := ("beta1_power", "beta2_power").
Definition d_powers : string * string := ("beta1_power_1", "beta2_power_1").

(** [tf.global_variables_initializer()] for the graph of [train_gan]. *)
Definition gan_initial_values : Store :=
  optimizer_initial_vars g_powers to_save_vars initial_vars
  ∪ optimizer_initial_vars d_powers d_to_save_vars initial_vars
  ∪ initial_vars.

(** Lines 204-227: the losses of the graph, as functions of the variables
    and the input batches. *)
Definition gan_content_loss (vs : Store) (input_a : Batch) : Q :=
  let generated_b := generator vs input_a in
  let v_real_out := vgg_build_graph vs input_a in
  let v_fake_out := vgg_build_graph vs generated_b in
  reduce_mean (tf_abs (tf_sub v_real_out v_fake_out)).

Definition gan_d_loss (vs : Store) (input_a input_b input_b_smooth : Batch) : Q :=
  let generated_b := generator vs input_a in
  let d_real_out := d_build_graph vs input_b in
  let d_fake_out := d_build_graph vs generated_b in
  let d_smooth_out := d_build_graph vs input_b_smooth in
  let d_real_loss := sigmoid_cross_entropy (ones_like d_real_out) d_real_out in
  let d_fake_loss := sigmoid_cross_entropy (zeros_like d_fake_out) d_fake_out in
  let d_smooth_loss :=
    sigmoid_cross_entropy (zeros_like d_smooth_out) d_smooth_out in
  (d_real_loss + d_fake_loss + d_smooth_loss)%Q.

Definition gan_g_adversarial_loss (vs : Store) (input_a : Batch) : Q :=
  let generated_b := generator vs input_a in
  let d_fake_out := d_build_graph vs generated_b in
  sigmoid_cross_entropy (ones_like d_fake_out) d_fake_out.

Definition gan_g_loss (vs : Store) (input_a : Batch) : Q :=
  (gan_g_adversarial_loss vs input_a + 10 * gan_content_loss vs input_a)%Q.

(** [sess.run([d_train_op, d_loss])]: the discriminator's loss reads all
    three inputs, so one batch is drawn from each iterator. *)
Definition run_d_train_op (ds_a ds_b ds_b_smooth : nat → option Batch)
    (pos : nat * nat) : Run (Q * (nat * nat)) :=
  input_a ← next_batch ds_a;
  input_b ← lift (fetch_at ds_b pos.1);
  input_b_smooth ← lift (fetch_at ds_b_smooth pos.2);
  vs ← get vars;
  minimize (1 # 10000) d_powers
    (λ vs, gan_d_loss vs input_a input_b input_b_smooth) d_to_save_vars ;;
  mret (gan_d_loss vs input_a input_b input_b_smooth, (S pos.1, S pos.2)).

(** [sess.run([g_train_op, g_loss, content_loss, g_adversarial_loss])]:
    the generator's losses read the source input only. *)
Definition run_g_train_op (ds_a : nat → option Batch) : Run (Q * Q * Q) :=
  input_a ← next_batch ds_a;
  vs ← get vars;
  minimize (1 # 10000) g_powers (λ vs, gan_g_loss vs input_a) to_save_vars ;;
  mret (gan_g_loss vs input_a, gan_content_loss vs input_a,
        gan_g_adversarial_loss vs input_a).

(** Lines 271-282: the report of a reporting step. *)
Definition gan_report (start : Q) (real_batches : list Batch) (step : Z)
    (d_batch_loss g_batch_loss g_content_loss g_adv_loss : Q) : Run unit :=
  fake_batches ← mapM (λ real_batch,
                    get (λ w, generator (vars w) real_batch)) real_batches;
  g_save (save_dir self) ckpt_name ;;
  x ← lift (np_concatenate fake_batches);
  save_generated_images (np_clip x 0 1)
    (Some ("gan_images_at_step_" +:+ pretty step +:+ ".png")) ;;
  let res := "Finish step {} with d_batch_loss: {:.2f}, g_batch_loss: {:.2f}, g_content_loss: {:.2f}, g_adv_loss: {:.2f}, time elapsed: {}" in
  now ← get utcnow;
  msg ← lift (str_format format_value res
           [PyInt step; PyFloat d_batch_loss; PyFloat g_batch_loss;
            PyFloat g_content_loss; PyFloat g_adv_loss;
            PyTimedelta (now - start)] []);
  logger_info msg.

(** Lines 261-282: the body of the loop; the positions of the target and
    smoothed-target iterators are passed along. *)
Definition gan_step (ds_a ds_b ds_b_smooth : nat → option Batch) (start : Q)
    (real_batches : list Batch) (reporting_steps : Z) (step : Z)
    (pos : nat * nat) : Run (nat * nat) :=
  '(d_batch_loss, pos') ← run_d_train_op ds_a ds_b ds_b_smooth pos;
  '(g_batch_loss, g_content_loss, g_adv_loss) ← run_g_train_op ds_a;
  reporting ← (if decide (step = 0) then mret false
               else r ← py_mod step reporting_steps;
                    mret (bool_decide (r = 0)));
  (if reporting : bool
   then gan_report start real_batches step
          d_batch_loss g_batch_loss g_content_loss g_adv_loss
   else mret tt) ;;
  mret pos'.

Definition gan_loop (ds_a ds_b ds_b_smooth : nat → option Batch) (start : Q)
    (real_batches : list Batch) (num_steps reporting_steps : Z)
    (pos : nat * nat) : Run (nat * nat) :=
  for_fold (range num_steps)
    (gan_step ds_a ds_b ds_b_smooth start real_batches reporting_steps) pos.

(** Lines 248-282: the fixed sample and the loop. *)
Definition gan_sample_and_train (ds_a ds_b ds_b_smooth : nat → option Batch)
    (start : Q) : Run unit :=
  let sample_size := 32 in
  logger_info ("Pick " +:+ pretty sample_size
               +:+ " input images for tracking generator's performance...") ;;
  n ← py_int_truediv sample_size (batch_size self);
  real_batches ← mapM (λ _, next_batch ds_a) (range n);
  x ← lift (np_concatenate real_batches);
  save_generated_images (np_clip x 0 1) (Some "sampled_images.png") ;;
  let num_steps := 5000 in
  let reporting_steps := 100 in
  gan_loop ds_a ds_b ds_b_smooth start real_batches num_steps reporting_steps
           (0%nat, 0%nat) ;;
  mret tt.

Definition train_gan : Run unit :=
  logger_info "Building data sets for both source / target domains..." ;;
  ds_a ← get_dataset self (dataset_name self) (source_domain self) "train"
                     (batch_size self);
  ds_b ← get_dataset self (dataset_name self) (target_domain self) "train"
                     (batch_size self);
  ds_b_smooth ← get_dataset self (dataset_name self)
                  (target_domain self +:+ "_smooth") "train" (batch_size self);
  logger_info "Building generator..." ;;
  logger_info "Building discriminator..." ;;
  logger_info "Define content loss using VGG..." ;;
  logger_info "Define generator/discriminator losses..." ;;
  logger_info "Define optimizers..." ;;
  start ← get utcnow;
  modify (set_vars (λ _, gan_initial_values)) ;;
  initializer_run (batch_size self) ;;
  initializer_run (batch_size self) ;;
  initializer_run (batch_size self) ;;
  logger_info "Initializing generator using pre-trained weights..." ;;
  g_load (save_dir self) "pretrain_generator_with_vgg" ;;
  gan_sample_and_train ds_a ds_b ds_b_smooth start.
End Adversarial.

(** [main]: a trainer is constructed and pretraining runs; adversarial
    training is not called. *)
Definition main `{Collaborators} (rt : Runtime) (cfg : Trainer)
    (show_progress : bool) (logger : option string) : Run unit :=
  t ← Trainer_init rt cfg show_progress logger;
  pretrain_generator (config t).

(** A discriminator and cross-entropy for the toy instance. *)
Definition toy_gan_collaborators : @GanCollaborators toy_collaborators := {|
  d_build_graph := λ vs x, Qmult (toy_weight "discriminator/w" vs) <$> flatten x;
  d_to_save_vars := ["discriminator/w"];
  sigmoid_cross_entropy := λ labels logits,
    reduce_mean (tf_abs (tf_sub labels logits))
|}.

(** ** Descriptions for any row width *)

(** The number of rows for [b] images, [k] to a row, and whether the
    images fill the grid of that many rows. *)
Definition rows_of (k b : Z) : Z := if decide (k ≤ b) then b / k else 1.

Definition fits_row (k b : Z) : Prop := b ≤ k ∨ b mod k = 0.

Definition grid_of (k : Z) (batch_x : Batch) : Figure :=
  mkFigure (8%Q, 6%Q)
    (cell (rows_of k (shape0 batch_x)) k batch_x <$> range (shape0 batch_x)).

(** Letters, digits and the underscore; a plain name is a non-empty string
    of them, so it holds no separator and no dot. *)
Definition is_name_char (c : ascii) : bool :=
  let n := nat_of_ascii c in
  bool_decide ((48 ≤ n ∧ n ≤ 57) ∨ (65 ≤ n ∧ n ≤ 90) ∨ (97 ≤ n ∧ n ≤ 122)
               ∨ n = 95)%nat.

Fixpoint name_chars (s : string) : bool :=
  match s with
  | EmptyString => true
  | String c s' => is_name_char c && name_chars s'
  end.

Definition plain_name (s : string) : Prop :=
  s ≠ EmptyString ∧ name_chars s = true.

(** The path exists, as a directory or as a file. *)
Definition path_exists (path : string) (w : World) : Prop :=
  path ∈ dirs w ∨ is_Some (image_files w !! path) ∨ is_Some (text_files w !! path).

(** A statement that leaves a projection of the world as it was. *)
Definition preserves {A X} (f : World → X) (m : Run A) : Prop :=
  ∀ w, f (m w).2 = f w.

(** The number of checkpoint saves a trace records. *)
Definition is_checkpoint_save (e : event) : bool :=
  match e with
  | CheckpointSaved _ _ => true
  | _ => false
  end.

Definition checkpoint_saves (w : World) : nat :=
  length (filter (λ e, is_checkpoint_save e = true) (trace w)).

(** ** More toy inputs *)

(** The toy trainer with another batch size, sample size, number of steps
    and reporting interval. *)
Definition toy_config (batch sample steps interval : Z) : Trainer :=
  mkTrainer "toy" "A" "B" 2 batch sample "runs" "ckpts" false (1 # 100000)
            steps interval "pretrain_generator".

(** The toy collaborators over folders that hold no file. *)
Definition toy_empty_collaborators : Collaborators := {|
  glob := λ _, [];
  decode_jpeg := @decode_jpeg toy_collaborators;
  resize_images := @resize_images toy_collaborators;
  shuffle := @shuffle toy_collaborators;
  generator := @generator toy_collaborators;
  to_save_vars := @to_save_vars toy_collaborators;
  vgg_build_graph := @vgg_build_graph toy_collaborators;
  vgg_vars := @vgg_vars toy_collaborators;
  initial_vars := @initial_vars toy_collaborators;
  adam_update := @adam_update toy_collaborators;
  adam_m := @adam_m toy_collaborators;
  adam_v := @adam_v toy_collaborators;
  utcnow := @utcnow toy_collaborators;
  format_value := @format_value toy_collaborators
|}.

(** What a run can leave behind for later runs: the text files, the
    number of checkpoint saves and the checkpoint store. *)
Definition footprint (w : World)
    : gmap string string * nat * gmap (string * string) Store :=
  (text_files w, checkpoint_saves w, ckpts w).

(** A statement that either leaves the footprint as it was, or raises
    after exactly one checkpoint save and no write to a text file. *)
Definition saves_once_then_fails {A} (m : Run A) : Prop :=
  ∀ w, footprint (m w).2 = footprint w
       ∨ (∃ e, (m w).1 = Raise e)
         ∧ text_files (m w).2 = text_files w
         ∧ checkpoint_saves (m w).2 = S (checkpoint_saves w).

(** A statement that raises from every world. *)
Definition always_raises {A} (m : Run A) : Prop :=
  ∀ w, ∃ e, (m w).1 = Raise e.

(** The three folders adversarial training reads hold files. *)
Definition gan_folders_nonempty `{Collaborators} (self : Trainer) : Prop :=
  dataset_files (dataset_name self) (source_domain self) "train" ≠ []
  ∧ dataset_files (dataset_name self) (target_domain self) "train" ≠ []
  ∧ dataset_files (dataset_name self) (target_domain self +:+ "_smooth") "train"
    ≠ [].

(** The trace of one step of the adversarial loop: the two training ops,
    and on a reporting step the save and the export. *)
Definition gan_step_trace (save_dir : string) (reporting_steps step : Z)
    : list event :=
  [TrainOp; TrainOp]
  ++ (if bool_decide (step ≠ 0 ∧ step mod reporting_steps = 0)
      then [CheckpointSaved save_dir "generater_adv_training";
            FigureSaved ("result/gan_images_at_step_" +:+ pretty step +:+ ".png")]
      else []).

(** A world that holds the checkpoint adversarial training starts from. *)
Definition world_pretrained : World :=
  set_ckpts (insert ("ckpts", "pretrain_generator_with_vgg")
               ({["generator/w" := [(3 # 4)%Q]]} : Store)) world0.

(** The number of training ops a trace records. *)
Definition is_train_op (e : event) : bool :=
  match e with
  | TrainOp => true
  | _ => false
  end.

Definition train_ops (tr : list event) : nat :=
  length (filter (λ e, is_train_op e = true) tr).

(** * Properties *)

(** Reduce the projections of a world that was built by the setters. *)
Ltac world_fields :=
  cbn [figs logs dirs image_files text_files ckpts vars ds_pos
       batch_losses trace].

(** ** The run monad *)

Lemma bind_ok {A B} (m : Run A) (k : A → Run B) w a w' :
  m w = (Ok a, w') → (m ≫= k) w = k a w'.
Proof. intros H. unfold mbind, Run_bind. by rewrite H. Qed.

Lemma bind_raise {A B} (m : Run A) (k : A → Run B) w e w' :
  m w = (Raise e, w') → (m ≫= k) w = (Raise e, w').
Proof. intros H. unfold mbind, Run_bind. by rewrite H. Qed.

Lemma for_each_app {A} (xs ys : list A) (body : A → Run unit) w w' :
  for_each xs body w = (Ok tt, w') →
  for_each (xs ++ ys) body w = for_each ys body w'.
Proof.
  revert w. induction xs as [|x xs IH]; intros w H; simpl in *.
  - by inversion H.
  - unfold mbind, Run_bind in *. destruct (body x w) as [[[]|e] w1]; [|done].
    by apply IH.
Qed.

(** ** The figure registry *)

Lemma new_fignum_fresh fs : new_fignum fs ∉ (fst <$> fs).
Proof.
  assert (Hle : ∀ n, n ∈ (fst <$> fs) → (n < new_fignum fs)%nat).
  { unfold new_fignum. induction fs as [|[m f] fs IH]; intros n Hn.
    - by apply elem_of_nil in Hn.
    - rewrite fmap_cons in Hn |- *. cbn [foldr fst].
      apply elem_of_cons in Hn as [->|Hn]; [cbn [fst]; lia|].
      specialize (IH n Hn). lia. }
  intros Hin. specialize (Hle _ Hin). lia.
Qed.

Lemma update_fig_other n f (base : list (nat * Figure)) :
  n ∉ (fst <$> base) → update_fig n f base = base.
Proof.
  induction base as [|[m g] base IH]; intros Hn; [done|].
  rewrite fmap_cons in Hn. apply not_elem_of_cons in Hn as [Hne Hn].
  unfold update_fig in *. rewrite fmap_cons. cbn [fst snd] in *.
  rewrite decide_False by done. by rewrite IH.
Qed.

Lemma update_fig_last n f base fg :
  n ∉ (fst <$> base) →
  update_fig n f (base ++ [(n, fg)]) = base ++ [(n, f fg)].
Proof.
  intros Hn. pose proof (update_fig_other n f base Hn) as Hb.
  unfold update_fig in *. rewrite fmap_app, Hb. cbn.
  by rewrite decide_True.
Qed.

Lemma on_current_axes_last g base n sz axs a :
  on_current_axes g (base ++ [(n, mkFigure sz (axs ++ [a]))])
  = base ++ [(n, mkFigure sz (axs ++ [g a]))].
Proof.
  unfold on_current_axes.
  destruct (base ++ [(n, mkFigure sz (axs ++ [a]))]) as [|p l] eqn:E.
  { by destruct base. }
  rewrite <- E. rewrite reverse_snoc. simpl.
  destruct (axs ++ [a]) as [|a0 l0] eqn:E2.
  { by destruct axs. }
  rewrite <- E2. rewrite reverse_snoc. by rewrite !reverse_involutive.
Qed.

Lemma close_other n (base : list (nat * Figure)) :
  n ∉ (fst <$> base) → filter (λ p : nat * Figure, p.1 ≠ n) base = base.
Proof.
  induction base as [|[m g] base IH]; intros Hn; [done|].
  rewrite fmap_cons in Hn. apply not_elem_of_cons in Hn as [Hne Hn].
  rewrite filter_cons_True by (cbn; auto). by rewrite IH.
Qed.

Lemma close_last n (base : list (nat * Figure)) fg :
  n ∉ (fst <$> base) →
  filter (λ p : nat * Figure, p.1 ≠ n) (base ++ [(n, fg)]) = base.
Proof.
  intros Hn. rewrite filter_app, close_other by done.
  rewrite filter_cons_False by (cbn; auto).
  by rewrite filter_nil, app_nil_r.
Qed.

(** ** Drawing the grid *)



Lemma draw_cell_ok n rows cols batch_x i base sz axs w :
  figs w = base ++ [(n, mkFigure sz axs)] →
  n ∉ (fst <$> base) →
  0 < rows → 0 < cols → 0 ≤ i → i + 1 ≤ rows * cols →
  draw_cell n rows cols batch_x i w
  = (Ok tt, set_figs (λ _, base ++ [(n, mkFigure sz (axs ++ [cell rows cols batch_x i]))]) w).
Proof.
  intros Hf Hn Hr Hc Hi Hle. unfold draw_cell, fig_add_subplot.
  rewrite decide_False by lia. rewrite decide_False by lia.
  unfold plt_imshow, plt_axis_off, modify, mbind, Run_bind, set_figs.
  world_fields.
  rewrite Hf, update_fig_last by done. cbn [figsize fig_axes].
  by rewrite !on_current_axes_last.
Qed.

Lemma draw_cell_fail n rows cols batch_x i w :
  0 < rows → 0 < cols → rows * cols < i + 1 →
  draw_cell n rows cols batch_x i w = (Raise (subplot_error rows cols (i + 1)), w).
Proof.
  intros Hr Hc Hlt. unfold draw_cell, fig_add_subplot.
  rewrite decide_False by lia. by rewrite decide_True by lia.
Qed.

Lemma draw_cells_ok n rows cols batch_x base sz (len : nat) :
  n ∉ (fst <$> base) → 0 < rows → 0 < cols →
  ∀ k axs w,
    figs w = base ++ [(n, mkFigure sz axs)] →
    0 ≤ k → k + Z.of_nat len ≤ rows * cols →
    for_each (seqZ k (Z.of_nat len)) (draw_cell n rows cols batch_x) w
    = (Ok tt, set_figs (λ _, base ++
         [(n, mkFigure sz (axs ++ (cell rows cols batch_x <$> seqZ k (Z.of_nat len))))]) w).
Proof.
  intros Hn Hr Hc. induction len as [|len IH]; intros k axs w Hf Hk Hle.
  - cbn. rewrite app_nil_r, <- Hf. by destruct w.
  - rewrite seqZ_cons by lia. cbn [for_each].
    erewrite bind_ok; [|by apply draw_cell_ok; eauto; lia].
    replace (Z.pred (Z.of_nat (S len))) with (Z.of_nat len) by lia.
    rewrite (IH (Z.succ k) (axs ++ [cell rows cols batch_x k])); [|done|lia|lia].
    rewrite fmap_cons, <- app_assoc. done.
Qed.

Lemma draw_cells_fail n rows cols batch_x base sz w (b : Z) :
  n ∉ (fst <$> base) → 0 < rows → 0 < cols →
  figs w = base ++ [(n, mkFigure sz [])] →
  rows * cols < b →
  for_each (range b) (draw_cell n rows cols batch_x) w
  = (Raise (subplot_error rows cols (rows * cols + 1)),
     set_figs (λ _, base ++
       [(n, mkFigure sz (cell rows cols batch_x <$> range (rows * cols)))]) w).
Proof.
  intros Hn Hr Hc Hf Hb. unfold range.
  replace b with (rows * cols + (b - rows * cols)) at 1 by lia.
  rewrite seqZ_app by lia.
  erewrite for_each_app; last first.
  { replace (rows * cols) with (Z.of_nat (Z.to_nat (rows * cols))) at 1 by lia.
    eapply draw_cells_ok; eauto; lia. }
  rewrite Z2Nat.id by lia. rewrite Z.add_0_l, seqZ_cons by lia. cbn [for_each app].
  erewrite bind_raise; [done|]. apply draw_cell_fail; lia.
Qed.

(** ** What [_save_generated_images] leaves behind *)





Lemma num_rows_of_8 b w : num_rows_of b 8 w = (Ok (rows_for b), w).
Proof.
  unfold num_rows_of, rows_for, py_floordiv. case_decide; [|done].
  by rewrite decide_False.
Qed.

Lemma rows_for_pos b : 0 < rows_for b.
Proof.
  unfold rows_for. case_decide; [|lia].
  apply Z.div_str_pos. lia.
Qed.

Lemma fits_grid_cells b : fits_grid b ↔ b ≤ rows_for b * 8.
Proof.
  unfold fits_grid, rows_for. case_decide as H8.
  - pose proof (Z.div_mod b 8 ltac:(lia)) as Hdm.
    pose proof (Z.mod_pos_bound b 8 ltac:(lia)) as Hm. lia.
  - lia.
Qed.

Lemma save_generated_images_fits batch_x directory image_name w :
  fits_grid (shape0 batch_x) →
  _save_generated_images batch_x directory image_name 8 w
  = (Ok tt, after_export batch_x directory image_name w).
Proof.
  intros Hfit. apply fits_grid_cells in Hfit.
  pose proof (rows_for_pos (shape0 batch_x)) as Hrows.
  unfold _save_generated_images.
  erewrite bind_ok; [|apply num_rows_of_8].
  erewrite bind_ok; [|reflexivity].
  pose proof (new_fignum_fresh (figs w)) as Hfresh.
  set (n := new_fignum (figs w)) in *.
  erewrite bind_ok; last first.
  { unfold range.
    replace (shape0 batch_x) with (Z.of_nat (length batch_x)) at 1 2 by done.
    eapply (draw_cells_ok n _ 8 batch_x (figs w) (8%Q, 6%Q));
      eauto; lia. }
  cbn [app]. unfold after_export.
  destruct image_name as [name|].
  - unfold os_path_exists, get, os_makedirs, plt_savefig, plt_close, modify,
      mbind, Run_bind, mret, Run_ret, set_figs, set_dirs, set_image_files, set_trace.
    world_fields.
    case_bool_decide; cbn [negb];
      world_fields;
      rewrite last_snoc, close_last by done; destruct w; reflexivity.
  - unfold plt_close, modify, mbind, Run_bind, mret, Run_ret, set_figs.
    world_fields.
    rewrite close_last by done. by destruct w.
Qed.

Lemma save_generated_images_overflow batch_x directory image_name w :
  ¬ fits_grid (shape0 batch_x) →
  _save_generated_images batch_x directory image_name 8 w
  = (Raise (subplot_error (rows_for (shape0 batch_x)) 8
                          (rows_for (shape0 batch_x) * 8 + 1)),
     set_figs (λ fs, fs ++ [(new_fignum fs,
        mkFigure (8%Q, 6%Q) (cell (rows_for (shape0 batch_x)) 8 batch_x
                               <$> range (rows_for (shape0 batch_x) * 8)))]) w).
Proof.
  intros Hfit. rewrite fits_grid_cells in Hfit.
  pose proof (rows_for_pos (shape0 batch_x)) as Hrows.
  unfold _save_generated_images.
  erewrite bind_ok; [|apply num_rows_of_8].
  erewrite bind_ok; [|reflexivity].
  erewrite bind_raise; [reflexivity|].
  erewrite draw_cells_fail; [reflexivity| apply new_fignum_fresh | done | done | | ].
  - reflexivity.
  - lia.
Qed.

(** ** The diagnostic export and its figure *)

(** C8: for a batch of 1, 7, 8 or 16 images, [_save_generated_images]
    (8 images per row) returns normally with no value, and the figure it
    opened is closed again: pyplot's registry of open figures is what it
    was before the call.  When a file name is given, the figure was saved
    before it was closed, with one cell per image. *)
Theorem save_generated_images_closes_figure
    (batch_x : Batch) (directory : string) (image_name : option string) (w : World) :
  shape0 batch_x = 1 ∨ shape0 batch_x = 7 ∨ shape0 batch_x = 8 ∨ shape0 batch_x = 16 →
  ∃ w', _save_generated_images batch_x directory image_name 8 w = (Ok tt, w')
        ∧ figs w' = figs w
        ∧ (∀ name, image_name = Some name →
             ∃ fg, image_files w' !! os_path_join directory name = Some fg
                   ∧ length (fig_axes fg) = length batch_x).
Proof.
  intros Hb. exists (after_export batch_x directory image_name w).
  split; [|split].
  - apply save_generated_images_fits. unfold fits_grid.
    destruct Hb as [->|[->|[->| ->]]]; vm_compute; first [by left | by right].
  - unfold after_export. destruct image_name; [|done].
    by case_bool_decide.
  - intros name ->. exists (grid_figure batch_x). split.
    + unfold after_export. world_fields. apply lookup_insert_eq.
    + unfold grid_figure, range, shape0. cbn [fig_axes].
      rewrite length_fmap, length_seqZ. lia.
Qed.

Lemma save_generated_images_closes_figure_witness :
  ∃ w', _save_generated_images (grey_batch 16) "result" (Some "sample_images.png") 8 world0
        = (Ok tt, w')
        ∧ figs w' = figs world0
        ∧ (∀ name, Some "sample_images.png" = Some name →
             ∃ fg, image_files w' !! os_path_join "result" name = Some fg
                   ∧ length (fig_axes fg) = length (grey_batch 16)).
Proof.
  apply save_generated_images_closes_figure.
  right; right; right. reflexivity.
Defined.

(** C9: for a batch of 9 to 15 images the grid has [num_rows = 1], that is
    8 cells; the call for position 9 raises, the exception leaves
    [_save_generated_images], nothing is saved and the figure stays open
    with its 8 cells.  In general the call returns with the figure closed
    exactly when the batch has at most 8 images or a multiple of 8. *)
Theorem save_generated_images_leaks_between_rows :
  (∀ (batch_x : Batch) directory image_name w,
     9 ≤ shape0 batch_x ≤ 15 →
     num_rows_of (shape0 batch_x) 8 w = (Ok 1, w)
     ∧ ∃ fg, _save_generated_images batch_x directory image_name 8 w
             = (Raise (ValueError "num must be 1 <= num <= 8, not 9"),
                set_figs (λ fs, fs ++ [(new_fignum fs, fg)]) w)
             ∧ length (fig_axes fg) = 8%nat)
  ∧ (∀ (batch_x : Batch) directory image_name w,
       (∃ w', _save_generated_images batch_x directory image_name 8 w = (Ok tt, w')
              ∧ figs w' = figs w)
       ↔ (shape0 batch_x ≤ 8 ∨ shape0 batch_x mod 8 = 0)).
Proof.
  split.
  - intros batch_x directory image_name w Hb.
    assert (Hrows : rows_for (shape0 batch_x) = 1).
    { unfold rows_for. rewrite decide_True by lia.
      symmetry. apply Z.div_unique with (r := shape0 batch_x - 8); lia. }
    split; [by rewrite num_rows_of_8, Hrows|].
    eexists. split.
    + rewrite save_generated_images_overflow
        by (rewrite fits_grid_cells, Hrows; lia).
      rewrite Hrows. reflexivity.
    + cbn. reflexivity.
  - intros batch_x directory image_name w. split.
    + intros (w' & Hrun & _). destruct (decide (fits_grid (shape0 batch_x))) as [|Hno]; [done|].
      rewrite save_generated_images_overflow in Hrun by done. discriminate.
    + intros Hfit. exists (after_export batch_x directory image_name w). split.
      * by apply save_generated_images_fits.
      * unfold after_export. destruct image_name; [|done]. by case_bool_decide.
Qed.

Lemma save_generated_images_leaks_between_rows_witness :
  num_rows_of (shape0 (grey_batch 9)) 8 world0 = (Ok 1, world0)
  ∧ ∃ fg, _save_generated_images (grey_batch 9) "result" (Some "sample_images.png") 8 world0
          = (Raise (ValueError "num must be 1 <= num <= 8, not 9"),
             set_figs (λ fs, fs ++ [(new_fignum fs, fg)]) world0)
          ∧ length (fig_axes fg) = 8%nat.
Proof.
  apply (proj1 save_generated_images_leaks_between_rows).
  vm_compute. split; discriminate.
Defined.
(** ** The generator's loss in the adversarial phase *)

Section GanLossFacts.
Local Open Scope R_scope.

Lemma sigmoid_denominator_pos x : 0 < 1 + exp x.
Proof. pose proof (exp_pos x). lra. Qed.

(** The stable form the library computes is the cross-entropy of the
    sigmoid against label 1. *)
Lemma sigmoid_cross_entropy_label_1 x :
  Gan.sigmoid_cross_entropy_with_logits 1 x = Gan.cross_entropy 1 (Gan.sigmoid x).
Proof.
  unfold Gan.sigmoid_cross_entropy_with_logits, Gan.cross_entropy, Gan.sigmoid.
  pose proof (sigmoid_denominator_pos x) as Hx.
  pose proof (sigmoid_denominator_pos (- x)) as Hnx.
  replace (1 / (1 + exp (- x))) with (/ (1 + exp (- x))) by (field; lra).
  rewrite ln_Rinv by done.
  destruct (Rle_dec 0 x) as [Hpos|Hneg].
  - rewrite Rmax_left, Rabs_right by lra. lra.
  - rewrite Rmax_right, Rabs_left by lra. rewrite Ropp_involutive.
    assert (Hprod : 1 + exp (- x) = exp (- x) * (1 + exp x)).
    { rewrite Rmult_plus_distr_l, <- exp_plus.
      replace (- x + x) with 0 by lra. rewrite exp_0. lra. }
    rewrite Hprod, ln_mult, ln_exp by (done || apply exp_pos). lra.
Qed.

Lemma zip_ones_like (f : R → R → R) xs :
  zip_with f (Gan.ones_like xs) xs = f 1 <$> xs.
Proof. unfold Gan.ones_like. induction xs as [|x xs IH]; [done|]. cbn. by rewrite <- IH. Qed.

Lemma sigmoid_cross_entropy_ones logits :
  Gan.sigmoid_cross_entropy (Gan.ones_like logits) logits
  = Gan.mean_sigmoid_cross_entropy 1 logits.
Proof.
  unfold Gan.sigmoid_cross_entropy, Gan.mean_sigmoid_cross_entropy, Gan.reduce_mean.
  rewrite zip_ones_like.
  rewrite (list_fmap_ext (Gan.sigmoid_cross_entropy_with_logits 1)
             (λ x, Gan.cross_entropy 1 (Gan.sigmoid x)) logits)
    by (intros; apply sigmoid_cross_entropy_label_1).
  case_decide as Hlen; [|done].
  rewrite Hlen. apply length_zero_iff_nil in Hlen. rewrite Hlen. cbn. lra.
Qed.

Lemma abs_of_difference (a b : list R) :
  Rabs <$> zip_with Rminus a b = zip_with (λ x y, Rabs (x - y)) a b.
Proof.
  revert b. induction a as [|x a IH]; intros [|y b]; cbn; [done..|].
  by rewrite IH.
Qed.
End GanLossFacts.

(** C5: in [train_gan] the generator's total loss is its adversarial loss,
    the mean sigmoid cross-entropy of the discriminator's output on the
    generated images against label 1, plus 10 times the content loss, the
    mean absolute difference between the feature extractor's embeddings of
    the source images and of the generated images. *)
Theorem g_loss_is_adversarial_plus_10_content
    {T : Type} (g : T → T) (d_build_graph vgg : T → list R) (input_a : T) :
  (Gan.g_loss g d_build_graph vgg input_a
   = Gan.mean_sigmoid_cross_entropy 1 (d_build_graph (g input_a))
     + 10 * Gan.mean_absolute_difference (vgg input_a) (vgg (g input_a)))%R
  ∧ Gan.g_adversarial_loss g d_build_graph input_a
    = Gan.mean_sigmoid_cross_entropy 1 (d_build_graph (g input_a))
  ∧ Gan.content_loss g vgg input_a
    = Gan.mean_absolute_difference (vgg input_a) (vgg (g input_a)).
Proof.
  assert (Hadv : Gan.g_adversarial_loss g d_build_graph input_a
                 = Gan.mean_sigmoid_cross_entropy 1 (d_build_graph (g input_a))).
  { unfold Gan.g_adversarial_loss, Gan.reduce_mean_scalar.
    apply sigmoid_cross_entropy_ones. }
  assert (Hcontent : Gan.content_loss g vgg input_a
                     = Gan.mean_absolute_difference (vgg input_a) (vgg (g input_a))).
  { unfold Gan.content_loss, Gan.mean_absolute_difference.
    by rewrite abs_of_difference. }
  split; [|done]. unfold Gan.g_loss. by rewrite Hadv, Hcontent.
Qed.
(** ** The image pipeline *)

Lemma normalize_range (v : Q) :
  (0 <= v ∧ v <= 255 → -1 <= normalize v ∧ normalize v <= 1)%Q.
Proof.
  unfold normalize, Qdiv. change (/ (255 # 2))%Q with (2 # 255)%Q.
  intros [H0 H255]. split; Lqa.lra.
Qed.

Lemma clip_range (v : Q) : (0 <= clip 0 1 v ∧ clip 0 1 v <= 1)%Q.
Proof.
  unfold clip. split.
  - apply Q.min_glb; [Lqa.lra|apply Q.le_max_r].
  - apply Q.le_min_l.
Qed.

Lemma concat_fmap_each {A B} (f : A → B) (ll : list (list A)) :
  concat ((λ l : list A, f <$> l) <$> ll) = f <$> concat ll.
Proof.
  induction ll as [|l ll IH]; [done|].
  rewrite fmap_cons. cbn [concat]. by rewrite fmap_app, IH.
Qed.

Lemma pixels_image_map {A B} (f : A → B) (img : list (list (list A))) :
  pixels (image_map f img) = f <$> pixels img.
Proof.
  unfold pixels, image_map.
  by rewrite (concat_fmap_each (λ px : list A, f <$> px)), concat_fmap_each.
Qed.

Lemma has_shape_image_map {A B} (f : A → B) (img : list (list (list A))) h w c :
  has_shape img h w c → has_shape (image_map f img) h w c.
Proof.
  unfold has_shape, image_map. intros [Hh Hrows]. split.
  - by rewrite length_fmap.
  - apply Forall_fmap. eapply Forall_impl; [exact Hrows|].
    intros row [Hw Hpx]. cbn. split; [by rewrite length_fmap|].
    apply Forall_fmap. eapply Forall_impl; [exact Hpx|].
    intros px Hc. cbn. by rewrite length_fmap.
Qed.

Lemma in_range_normalize (img : Image) :
  in_range 0 255 img → in_range (-1) 1 (image_map normalize img).
Proof.
  unfold in_range. rewrite pixels_image_map. intros Hr.
  apply Forall_fmap. eapply Forall_impl; [exact Hr|].
  intros v Hv. cbn. by apply normalize_range.
Qed.

Lemma in_range_clip (img : Image) : in_range 0 1 (image_map (clip 0 1) img).
Proof.
  unfold in_range. rewrite pixels_image_map. apply Forall_fmap, Forall_true.
  intros v. cbn. apply clip_range.
Qed.

Section PipelineFacts.
Context `{Collaborators} `{!CollaboratorsSpec}.


Lemma image_processing_range self filename :
  in_range (-1) 1 (image_processing self filename).
Proof. apply in_range_normalize, resize_images_range. Qed.

Lemma image_processing_processed self filename :
  0 < input_size self → processed self (image_processing self filename).
Proof.
  intros Hs. unfold image_processing, processed.
  destruct (decode_jpeg_shape filename) as (h & w & Hh & Hw & Hshape). split.
  - apply has_shape_image_map. by eapply resize_images_shape.
  - apply image_processing_range.
Qed.

Lemma ds_repeat_elem (l : list Image) i img :
  ds_repeat (length l) (ds_shuffle 10000 l) i = Some img → img ∈ l.
Proof.
  unfold ds_repeat, ds_shuffle. case_decide; [done|]. intros Hi.
  apply list_elem_of_lookup_2 in Hi. by rewrite shuffle_perm in Hi.
Qed.

Lemma ds_repeat_total (l : list Image) i :
  l ≠ [] → is_Some (ds_repeat (length l) (ds_shuffle 10000 l) i).
Proof.
  intros Hl. unfold ds_repeat, ds_shuffle.
  assert (length l ≠ 0%nat) as Hn by (by destruct l).
  rewrite decide_False by done. apply lookup_lt_is_Some.
  rewrite shuffle_perm. by apply Nat.mod_upper_bound.
Qed.

Lemma dataset_of_batch_from_files self files batch_size k batch :
  dataset_of self files batch_size k = Some batch →
  length batch = Z.to_nat batch_size
  ∧ Forall (λ img, ∃ file, file ∈ files ∧ img = image_processing self file) batch.
Proof.
  unfold dataset_of, ds_batch, ds_map.
  rewrite <- (length_fmap (image_processing self) files).
  intros Hb. split.
  - apply length_mapM in Hb. by rewrite length_seq in Hb.
  - apply mapM_Some_1 in Hb. apply Forall_forall. intros img Himg.
    apply list_elem_of_lookup_1 in Himg as [j Hj].
    destruct (Forall2_lookup_r _ _ _ _ _ Hb Hj) as (i & _ & Hi).
    apply ds_repeat_elem in Hi. apply list_elem_of_fmap in Hi as (file & -> & ?).
    eauto.
Qed.

Lemma dataset_of_batch_range self files batch_size k batch :
  dataset_of self files batch_size k = Some batch →
  Forall (in_range (-1) 1) batch.
Proof.
  intros Hb. apply dataset_of_batch_from_files in Hb as [_ Hb].
  eapply Forall_impl; [exact Hb|]. intros img (file & _ & ->).
  apply image_processing_range.
Qed.

Lemma dataset_of_batch self files batch_size k batch :
  0 < input_size self →
  dataset_of self files batch_size k = Some batch →
  length batch = Z.to_nat batch_size ∧ Forall (processed self) batch.
Proof.
  intros Hs Hb. apply dataset_of_batch_from_files in Hb as [Hlen Hb].
  split; [done|]. eapply Forall_impl; [exact Hb|]. intros img (file & _ & ->).
  by apply image_processing_processed.
Qed.

Lemma dataset_of_total self files batch_size k :
  files ≠ [] → is_Some (dataset_of self files batch_size k).
Proof.
  intros Hf. unfold dataset_of, ds_batch, ds_map. rewrite <- (length_fmap (image_processing self) files).
  apply mapM_is_Some_2, Forall_forall. intros i _. cbn.
  apply ds_repeat_total. by destruct files.
Qed.

(** The two outcomes of [get_dataset]. *)
Lemma get_dataset_nonempty self dataset_name domain _type batch_size w :
  dataset_files dataset_name domain _type ≠ [] →
  get_dataset self dataset_name domain _type batch_size w
  = (Ok (dataset_of self (dataset_files dataset_name domain _type) batch_size),
     set_logs (λ l, l ++ [dataset_log dataset_name domain _type]) w).
Proof.
  intros Hfiles. unfold get_dataset, logger_info, modify, mbind, Run_bind.
  by rewrite decide_False by done.
Qed.

Lemma get_dataset_empty self dataset_name domain _type batch_size w :
  dataset_files dataset_name domain _type = [] →
  get_dataset self dataset_name domain _type batch_size w
  = (Raise read_file_error,
     set_logs (λ l, l ++ [dataset_log dataset_name domain _type]) w).
Proof.
  intros Hfiles. unfold get_dataset, logger_info, modify, mbind, Run_bind.
  by rewrite decide_True by done.
Qed.
End PipelineFacts.

(** C6: over a folder that holds at least one file, [get_dataset] returns
    a dataset that never runs out of batches; every batch holds exactly
    [batch_size] images, and every image of a batch is the decoded and
    resized image of one of the folder's files with every value [v] - which
    the resize leaves in [0, 255] - mapped to [v / 127.5 - 1]: value for
    value it is that function of the resized image, it has shape (input
    size, input size, 3), and all its values lie in [-1, 1]. *)
Theorem get_dataset_batches_normalized
    `{Collaborators} `{!CollaboratorsSpec} (self : Trainer)
    (dataset_name domain _type : string) (batch_size : Z) (w : World) :
  0 < input_size self →
  dataset_files dataset_name domain _type ≠ [] →
  ∃ ds w',
    get_dataset self dataset_name domain _type batch_size w = (Ok ds, w')
    ∧ (∀ k, is_Some (ds k))
    ∧ (∀ k batch, ds k = Some batch →
         length batch = Z.to_nat batch_size
         ∧ Forall (λ img,
             has_shape img (Z.to_nat (input_size self)) (Z.to_nat (input_size self)) 3
             ∧ in_range (-1) 1 img
             ∧ ∃ file,
                 file ∈ dataset_files dataset_name domain _type
                 ∧ in_range 0 255
                     (resize_images (decode_jpeg file)
                                    (input_size self) (input_size self))
                 ∧ pixels img
                   = (λ v, v / (255 # 2) - 1)%Q
                       <$> pixels (resize_images (decode_jpeg file)
                                     (input_size self) (input_size self))
                 ∧ img
                   = image_map (λ v, v / (255 # 2) - 1)%Q
                       (resize_images (decode_jpeg file)
                          (input_size self) (input_size self))) batch).
Proof.
  intros Hs Hfiles. eexists _, _. split; [by apply get_dataset_nonempty|].
  split; [intros k; by apply dataset_of_total|].
  intros k batch Hb. apply dataset_of_batch_from_files in Hb as [Hlen Hb].
  split; [done|]. eapply Forall_impl; [exact Hb|]. intros img (file & Hfile & ->).
  destruct (image_processing_processed self file Hs) as [Hshape Hrange].
  split; [done|]. split; [done|]. exists file. split; [done|].
  split; [apply resize_images_range|]. split; [|done].
  unfold image_processing. by rewrite pixels_image_map.
Qed.

(** ** The toy instance meets the collaborators' contract *)

Lemma byte_value_range (b : byte) : (0 <= byte_value b ∧ byte_value b <= 255)%Q.
Proof.
  unfold byte_value. pose proof (Byte.to_N_bounded b) as Hb.
  split.
  - change 0%Q with (inject_Z 0). rewrite <- Zle_Qle. lia.
  - change 255%Q with (inject_Z 255). rewrite <- Zle_Qle. lia.
Qed.

Lemma scaled_index_lt (i n s : nat) : (i < s → 0 < n → (i * n) `div` s < n)%nat.
Proof.
  intros Hi Hn. apply Nat.Div0.div_lt_upper_bound. nia.
Qed.

Lemma resize_nearest_shape (x : RawImage) h w c s :
  has_shape x h w c → (0 < h)%nat → (0 < w)%nat → 0 < s →
  has_shape (resize_nearest x s s) (Z.to_nat s) (Z.to_nat s) c.
Proof.
  intros [Hh Hrows] Hhpos Hwpos Hs. unfold has_shape, resize_nearest.
  unfold RawImage in *. split.
  - by rewrite length_fmap, length_seq.
  - apply Forall_fmap, Forall_forall. intros i Hi. unfold compose. cbv zeta.
    apply elem_of_seq in Hi.
    assert ((i * length x) `div` Z.to_nat s < length x)%nat as Hrow
      by (apply scaled_index_lt; lia).
    apply lookup_lt_is_Some in Hrow as [row Hrow]. rewrite Hrow. cbv [default from_option Datatypes.id].
    rewrite Forall_forall in Hrows.
    destruct (Hrows row) as [Hw Hpx]; [by eapply list_elem_of_lookup_2|].
    split; [by rewrite length_fmap, length_seq|].
    apply Forall_fmap, Forall_forall. intros j Hj. unfold compose.
    apply elem_of_seq in Hj.
    assert ((j * length row) `div` Z.to_nat s < length row)%nat as Hcol
      by (apply scaled_index_lt; lia).
    apply lookup_lt_is_Some in Hcol as [px Hcol]. rewrite Hcol. cbv [default from_option Datatypes.id].
    rewrite length_fmap. rewrite Forall_forall in Hpx.
    apply Hpx. by eapply list_elem_of_lookup_2.
Qed.

Lemma resize_nearest_range (x : RawImage) s : in_range 0 255 (resize_nearest x s s).
Proof.
  unfold in_range, pixels, resize_nearest.
  apply Forall_concat, Forall_concat, Forall_fmap, Forall_true. intros i. cbn.
  apply Forall_fmap, Forall_true. intros j. cbn.
  apply Forall_fmap, Forall_true. intros b. cbn. apply byte_value_range.
Qed.

Lemma toy_collaborators_spec : @CollaboratorsSpec toy_collaborators.
Proof.
  split.
  - intros file. exists 1%nat, 2%nat. cbn. unfold has_shape.
    repeat (split || lia || constructor).
  - intros x h w c s. apply resize_nearest_shape.
  - intros x s. apply resize_nearest_range.
  - intros buffer epoch l. apply reverse_Permutation.
  - intros vs x. cbn. by rewrite length_fmap.
Qed.

Lemma get_dataset_batches_normalized_witness :
  ∃ ds w',
    @get_dataset toy_collaborators toy_trainer "toy" "A" "train" 2 world0 = (Ok ds, w')
    ∧ (∀ k, is_Some (ds k))
    ∧ (∀ k batch, ds k = Some batch →
         length batch = Z.to_nat 2
         ∧ Forall (λ img,
             has_shape img 2 2 3
             ∧ in_range (-1) 1 img
             ∧ ∃ file,
                 file ∈ @dataset_files toy_collaborators "toy" "A" "train"
                 ∧ in_range 0 255
                     (@resize_images toy_collaborators
                        (@decode_jpeg toy_collaborators file) 2 2)
                 ∧ pixels img
                   = (λ v, v / (255 # 2) - 1)%Q
                       <$> pixels (@resize_images toy_collaborators
                                     (@decode_jpeg toy_collaborators file) 2 2)
                 ∧ img
                   = image_map (λ v, v / (255 # 2) - 1)%Q
                       (@resize_images toy_collaborators
                          (@decode_jpeg toy_collaborators file) 2 2)) batch).
Proof.
  apply (@get_dataset_batches_normalized toy_collaborators toy_collaborators_spec
           toy_trainer "toy" "A" "train" 2 world0).
  - reflexivity.
  - discriminate.
Defined.

(** ** Reasoning about outcomes *)

Lemma returns_ret {A} (a : A) (V : A → Prop) : V a → returns (mret a) V [].
Proof. intros Ha w. exists a, w. by rewrite app_nil_r. Qed.

Lemma returns_weaken {A} (m : Run A) (V V' : A → Prop) tr :
  returns m V tr → (∀ a, V a → V' a) → returns m V' tr.
Proof. intros Hm HV w. destruct (Hm w) as (a & w' & ? & ? & ?). exists a, w'. auto. Qed.

Lemma returns_bind {A B} (m : Run A) (k : A → Run B) V1 V2 tr1 tr2 :
  returns m V1 tr1 → (∀ a, V1 a → returns (k a) V2 tr2) →
  returns (m ≫= k) V2 (tr1 ++ tr2).
Proof.
  intros Hm Hk w. destruct (Hm w) as (a & w1 & Hrun & Ha & Htr & Htxt).
  destruct (Hk a Ha w1) as (b & w2 & Hrun2 & Hb & Htr2 & Htxt2).
  exists b, w2. erewrite bind_ok by done.
  rewrite Htr2, Htr, Htxt2, Htxt, app_assoc. done.
Qed.

Lemma raises_bind {A B} (m : Run A) (k : A → Run B) e tr :
  raises m e tr → raises (m ≫= k) e tr.
Proof.
  intros Hm w. destruct (Hm w) as (w1 & Hrun & Htr & Htxt).
  exists w1. by erewrite bind_raise.
Qed.

Lemma raises_after {A B} (m : Run A) (k : A → Run B) V e tr1 tr2 :
  returns m V tr1 → (∀ a, V a → raises (k a) e tr2) →
  raises (m ≫= k) e (tr1 ++ tr2).
Proof.
  intros Hm Hk w. destruct (Hm w) as (a & w1 & Hrun & Ha & Htr & Htxt).
  destruct (Hk a Ha w1) as (w2 & Hrun2 & Htr2 & Htxt2).
  exists w2. erewrite bind_ok by done.
  rewrite Htr2, Htr, Htxt2, Htxt, app_assoc. done.
Qed.

Lemma returns_for_each {A} (xs : list A) (body : A → Run unit) tr :
  (∀ x, x ∈ xs → returns (body x) (λ _, True) tr) →
  returns (for_each xs body) (λ _, True) (concat (replicate (length xs) tr)).
Proof.
  induction xs as [|x xs IH]; intros Hbody.
  - by apply returns_ret.
  - cbn [for_each length replicate concat].
    eapply returns_bind; [apply Hbody; left|].
    intros _ _. apply IH. intros y Hy. apply Hbody. by right.
Qed.

Lemma returns_mapM {A B} (f : A → Run B) (V : B → Prop) (xs : list A) :
  (∀ x, x ∈ xs → returns (f x) V []) →
  returns (mapM f xs) (λ ys, length ys = length xs ∧ Forall V ys) [].
Proof.
  induction xs as [|x xs IH]; intros Hf.
  - by apply returns_ret.
  - cbn [mapM]. change [] with (@nil event ++ ([] ++ [])).
    eapply returns_bind; [apply Hf; left|]. intros y Hy.
    eapply returns_bind; [apply IH; intros; apply Hf; by right|].
    intros ys [Hlen Hys]. apply returns_ret. cbn. split; [lia|by constructor].
Qed.

Lemma returns_logger_info msg : returns (logger_info msg) (λ _, True) [].
Proof. intros w. eexists tt, _. split; [reflexivity|]. cbn. by rewrite app_nil_r. Qed.

Lemma returns_get {A} (f : World → A) : returns (get f) (λ _, True) [].
Proof. intros w. eexists _, _. split; [reflexivity|]. cbn. by rewrite app_nil_r. Qed.

Lemma returns_lift {A} (a : A) : returns (lift (Ok a)) (eq a) [].
Proof. intros w. eexists _, _. split; [reflexivity|]. cbn. by rewrite app_nil_r. Qed.

Lemma raises_lift {A} e : raises (@lift A (Raise e)) e [].
Proof. intros w. eexists. split; [reflexivity|]. cbn. by rewrite app_nil_r. Qed.

Lemma returns_save_generated_images (x : Batch) (name : string) :
  fits_grid (shape0 x) →
  returns (save_generated_images x (Some name)) (λ _, True)
          [FigureSaved (os_path_join "result" name)].
Proof.
  intros Hfit w. exists tt, (after_export x "result" (Some name) w). split.
  - by apply save_generated_images_fits.
  - unfold after_export. by case_bool_decide.
Qed.

Lemma raises_save_generated_images (x : Batch) (name : option string) :
  ¬ fits_grid (shape0 x) →
  raises (save_generated_images x name)
         (subplot_error (rows_for (shape0 x)) 8 (rows_for (shape0 x) * 8 + 1)) [].
Proof.
  intros Hfit w. eexists. split.
  - by apply save_generated_images_overflow.
  - cbn. by rewrite app_nil_r.
Qed.

(** ** The phases of pretraining *)

Lemma length_concat_uniform {A} (ls : list (list A)) (c : nat) :
  Forall (λ l, length l = c) ls → length (concat ls) = (length ls * c)%nat.
Proof.
  induction 1 as [|l ls Hl _ IH]; [done|].
  cbn [concat length]. rewrite length_app, IH, Hl. lia.
Qed.

Lemma length_concat_same {A B} (ls : list (list A)) (ks : list (list B)) :
  length <$> ls = length <$> ks → length (concat ls) = length (concat ks).
Proof.
  revert ks. induction ls as [|l ls IH]; intros [|k ks] Heq; try done.
  rewrite !fmap_cons in Heq. injection Heq as Hl Hrest.
  cbn [concat]. rewrite !length_app, Hl. f_equal. by apply IH.
Qed.

Section PretrainingFacts.
Context `{Collaborators} `{!CollaboratorsSpec} (self : Trainer).

Lemma returns_next_batch (ds : nat → option Batch) :
  (∀ k, is_Some (ds k)) →
  returns (next_batch ds) (λ b, ∃ k, ds k = Some b) [].
Proof.
  intros Htotal w. unfold next_batch.
  destruct (Htotal (ds_pos w)) as [b Hb]. rewrite Hb.
  eexists b, _. split; [reflexivity|]. split; [by eauto|].
  cbn. by rewrite app_nil_r.
Qed.

Lemma returns_minimize lr powers loss var_list :
  returns (minimize lr powers loss var_list) (λ _, True) [TrainOp].
Proof. intros w. by eexists tt, _. Qed.

Lemma returns_run_train_op (ds : nat → option Batch) :
  (∀ k, is_Some (ds k)) →
  returns (run_train_op self ds) (λ _, True) [TrainOp].
Proof.
  intros Htotal. unfold run_train_op.
  change [TrainOp] with ([] ++ [] ++ [TrainOp] ++ []).
  eapply returns_bind; [by apply returns_next_batch|]. intros input_images _.
  eapply returns_bind; [apply returns_get|]. intros vs _.
  eapply returns_bind; [apply returns_minimize|]. intros _ _.
  by apply returns_ret.
Qed.

Lemma returns_g_save dir name :
  returns (g_save dir name) (λ _, True) [CheckpointSaved dir name].
Proof. intros w. by eexists tt, _. Qed.

Lemma returns_fake_batches (real_batches : list Batch) :
  returns (mapM (λ real_batch, get (λ w, generator (vars w) real_batch))
                real_batches)
          (λ fake_batches, length <$> fake_batches = length <$> real_batches) [].
Proof.
  induction real_batches as [|b bs IH].
  - by apply returns_ret.
  - cbn [mapM]. intros w. destruct (IH w) as (fs & w' & Hrun & Hlen & Htr & Htxt).
    unfold mbind at 1, Run_bind, get at 1. erewrite bind_ok by exact Hrun.
    eexists _, w'. split; [reflexivity|]. split; [|done].
    rewrite !fmap_cons, Hlen. f_equal. apply generator_batch.
Qed.

(** The message of a reporting step names a field [step] that the call
    does not pass. *)
Lemma report_message_fails batch_loss elapsed :
  str_format format_value "[Step {step}] batch_loss: {:.3f}, {} elapsed"
             [PyFloat batch_loss; PyTimedelta elapsed] []
  = Raise (KeyError "step").
Proof. reflexivity. Qed.

(** The record for the loss log fails on its own, too: a float and a
    string do not add. *)
Lemma write_loss_record_fails step batch_loss w :
  ∃ w', write_loss_record step batch_loss w
        = (Raise (TypeError "unsupported operand type(s) for +"), w')
        ∨ write_loss_record step batch_loss w
          = (Raise (FileNotFoundError "result/batch_losses.tsv"), w').
Proof.
  unfold write_loss_record, open_append, mbind, Run_bind.
  case_bool_decide; eexists; [left|right]; reflexivity.
Qed.

Lemma shape0_np_clip x lo hi : shape0 (np_clip x lo hi) = shape0 x.
Proof. unfold shape0, np_clip. by rewrite length_fmap. Qed.

Lemma raises_report start (real_batches : list Batch) step batch_loss :
  real_batches ≠ [] →
  fits_grid (images_of real_batches) →
  raises (report self start real_batches step batch_loss) (KeyError "step")
    [CheckpointSaved (save_dir self) (pretrain_generator_name self);
     FigureSaved ("result/generated_images_at_step_" +:+ pretty step +:+ ".png")].
Proof.
  intros Hne Hfit. unfold report.
  eapply (raises_after _ _ _ _ []); [apply returns_fake_batches|].
  intros fake_batches Hlen.
  eapply (raises_after _ _ _ _ [_] [_]); [apply returns_g_save|]. intros _ _.
  assert (np_concatenate fake_batches = Ok (concat fake_batches)) as ->.
  { destruct fake_batches; [by destruct real_batches|done]. }
  eapply (raises_after _ _ _ _ []); [apply returns_lift|]. intros x <-.
  eapply (raises_after _ _ _ _ [_] []).
  { apply returns_save_generated_images. rewrite shape0_np_clip.
    unfold shape0. by rewrite (length_concat_same _ real_batches). }
  intros _ _.
  eapply (raises_after _ _ _ _ []); [apply returns_get|]. intros now _.
  apply raises_bind. rewrite report_message_fails. apply raises_lift.
Qed.

Lemma is_reporting_step_value step w :
  step = 0 ∨ pretrain_reporting_steps self ≠ 0 →
  is_reporting_step self step w
  = (Ok (bool_decide (step ≠ 0 ∧ step mod pretrain_reporting_steps self = 0)), w).
Proof.
  intros Hr. unfold is_reporting_step, py_mod.
  destruct (decide (step = 0)) as [->|Hstep].
  - by rewrite bool_decide_false by lia.
  - rewrite decide_False by lia. unfold mbind, Run_bind, mret, Run_ret.
    do 2 f_equal. apply bool_decide_ext. lia.
Qed.

Lemma returns_collect_loss (batch_loss : Q) :
  returns (modify (set_batch_losses (λ l, l ++ [batch_loss]))) (λ _, True) [].
Proof. intros w. eexists tt, _. split; [reflexivity|]. cbn. by rewrite app_nil_r. Qed.

Lemma returns_train_step_quiet ds start real_batches step :
  (∀ k, is_Some (ds k)) →
  step = 0 ∨ (pretrain_reporting_steps self ≠ 0
              ∧ step mod pretrain_reporting_steps self ≠ 0) →
  returns (train_step self ds start real_batches step) (λ _, True) [TrainOp].
Proof.
  intros Htotal Hquiet. unfold train_step.
  change [TrainOp] with ([TrainOp] ++ [] ++ []).
  eapply returns_bind; [by apply returns_run_train_op|]. intros batch_loss _.
  eapply returns_bind; [apply returns_collect_loss|]. intros _ _.
  intros w. rewrite (bind_ok _ _ _ _ _ (is_reporting_step_value step w ltac:(lia))).
  rewrite bool_decide_false by lia. by apply returns_ret.
Qed.

Lemma raises_train_step_reporting ds start real_batches step :
  (∀ k, is_Some (ds k)) →
  real_batches ≠ [] → fits_grid (images_of real_batches) →
  step ≠ 0 → pretrain_reporting_steps self ≠ 0 →
  step mod pretrain_reporting_steps self = 0 →
  raises (train_step self ds start real_batches step) (KeyError "step")
    [TrainOp; CheckpointSaved (save_dir self) (pretrain_generator_name self);
     FigureSaved ("result/generated_images_at_step_" +:+ pretty step +:+ ".png")].
Proof.
  intros Htotal Hne Hfit Hstep Hr Hmod. unfold train_step.
  eapply (raises_after _ _ _ _ [_] [_; _]); [by apply returns_run_train_op|].
  intros batch_loss _.
  eapply (raises_after _ _ _ _ []); [apply returns_collect_loss|]. intros _ _.
  intros w. rewrite (bind_ok _ _ _ _ _ (is_reporting_step_value step w ltac:(lia))).
  rewrite bool_decide_true by lia. by apply raises_report.
Qed.

(** With a report due every [r] steps and more than [r] steps to run, the
    loop trains at steps 0 to [r], saves and exports at step [r], and ends
    there on the report's message. *)
Lemma raises_training_loop ds start real_batches :
  (∀ k, is_Some (ds k)) →
  real_batches ≠ [] → fits_grid (images_of real_batches) →
  0 < pretrain_reporting_steps self < pretrain_num_steps self →
  raises (training_loop self ds start real_batches) (KeyError "step")
    (replicate (Z.to_nat (pretrain_reporting_steps self)) TrainOp
     ++ [TrainOp; CheckpointSaved (save_dir self) (pretrain_generator_name self);
         FigureSaved ("result/generated_images_at_step_"
                      +:+ pretty (pretrain_reporting_steps self) +:+ ".png")]).
Proof.
  intros Htotal Hne Hfit Hr. unfold training_loop, range.
  set (r := pretrain_reporting_steps self) in *.
  set (n := pretrain_num_steps self) in *.
  replace n with (r + (n - r)) by lia. rewrite seqZ_app by lia.
  intros w.
  destruct (returns_for_each (seqZ 0 r) (train_step self ds start real_batches)
              [TrainOp]) with (w := w) as ([] & w1 & Hrun & _ & Htr & Htxt).
  { intros step Hstep. apply elem_of_seqZ in Hstep.
    apply returns_train_step_quiet; [done|].
    destruct (decide (step = 0)) as [|Hnz]; [by left|right].
    split; [lia|]. rewrite Z.mod_small; lia. }
  rewrite (for_each_app _ _ _ _ _ Hrun).
  rewrite Z.add_0_l, seqZ_cons by lia. cbn [for_each].
  destruct (raises_train_step_reporting ds start real_batches r) with (w := w1)
    as (w2 & Hrun2 & Htr2 & Htxt2); try done; try lia.
  { fold r. apply Z.mod_same. lia. }
  exists w2. erewrite bind_raise by done. split; [done|].
  rewrite Htr2, Htr, Htxt2, Htxt, length_seqZ. split; [|done].
  rewrite <- app_assoc. f_equal.
  clear. induction (Z.to_nat r) as [|k IH]; [done|]. cbn. by rewrite IH.
Qed.

Lemma returns_build_graph :
  source_files self ≠ [] →
  returns (build_graph self)
          (λ r, r.1 = dataset_of self (source_files self) (batch_size self)) [].
Proof.
  intros Hfiles w. unfold build_graph, get_dataset. unfold source_files in Hfiles.
  rewrite decide_False by done.
  destruct (pass_vgg self); eexists (_, _), _;
    (split; [reflexivity|]); cbn; by rewrite app_nil_r.
Qed.

Lemma returns_session_start :
  0 < batch_size self → returns (session_start self) (λ _, True) [].
Proof.
  intros Hb w. unfold session_start, initializer_run.
  rewrite decide_False by lia.
  eexists tt, _. split; [reflexivity|]. cbn. by rewrite app_nil_r.
Qed.

Lemma returns_restore_checkpoint :
  returns (restore_checkpoint self) (λ _, True) [].
Proof.
  intros w. unfold restore_checkpoint, try_except_ValueError, g_load,
    logger_info, modify, mbind, Run_bind.
  cbn [ckpts set_logs].
  destruct (ckpts w !! (save_dir self, pretrain_generator_name self));
    eexists tt, _; (split; [reflexivity|]); cbn; by rewrite app_nil_r.
Qed.

(** The batches drawn for the fixed sample. *)
Lemma returns_draw_real_batches (ds : nat → option Batch) :
  (∀ k, is_Some (ds k)) → batch_size self ≠ 0 →
  returns (draw_real_batches self ds)
    (λ real_batches,
       length real_batches = Z.to_nat (Z.quot (sample_size self) (batch_size self))
       ∧ Forall (λ b, ∃ k, ds k = Some b) real_batches) [].
Proof.
  intros Htotal Hb. unfold draw_real_batches, py_int_truediv.
  rewrite decide_False by done.
  change [] with (@nil event ++ [] ++ []).
  eapply returns_bind; [apply returns_logger_info|]. intros _ _.
  eapply (returns_bind _ _
            (λ n, n = Z.quot (sample_size self) (batch_size self)));
    [by apply returns_ret|]. intros n ->.
  eapply returns_weaken.
  - apply returns_mapM. intros _ _. by apply returns_next_batch.
  - intros real_batches [Hlen Hall]. split; [|done].
    rewrite Hlen. apply length_seqZ.
Qed.

Lemma returns_export_sample (real_batches : list Batch) :
  real_batches ≠ [] → fits_grid (images_of real_batches) →
  returns (export_sample real_batches) (λ _, True)
          [FigureSaved "result/sample_images.png"].
Proof.
  intros Hne Hfit. unfold export_sample.
  assert (np_concatenate real_batches = Ok (concat real_batches)) as ->
    by (by destruct real_batches).
  change [FigureSaved "result/sample_images.png"]
    with ([] ++ [FigureSaved (os_path_join "result" "sample_images.png")]).
  eapply returns_bind; [apply returns_lift|]. intros x <-.
  apply returns_save_generated_images. by rewrite shape0_np_clip.
Qed.

(** The sample holds [batch_size * floor(sample_size / batch_size)]
    images. *)
Lemma images_of_sample (real_batches : list Batch) :
  0 < batch_size self ≤ sample_size self →
  length real_batches = Z.to_nat (Z.quot (sample_size self) (batch_size self)) →
  Forall (λ b, ∃ k, dataset_of self (source_files self) (batch_size self) k = Some b)
         real_batches →
  real_batches ≠ []
  ∧ images_of real_batches
    = batch_size self * (sample_size self / batch_size self).
Proof.
  intros Hb Hlen Hall.
  rewrite Z.quot_div_nonneg in Hlen by lia.
  assert (0 < sample_size self / batch_size self) as Hpos
    by (apply Z.div_str_pos; lia).
  split.
  - intros ->. cbn in Hlen. lia.
  - unfold images_of.
    rewrite (length_concat_uniform _ (Z.to_nat (batch_size self))).
    + unfold Batch in *. rewrite Hlen. lia.
    + eapply Forall_impl; [exact Hall|]. intros b [k Hk].
      apply length_mapM in Hk. by rewrite length_seq in Hk.
Qed.

(** A run that reaches its first reporting step: the sample is exported,
    the loop trains at steps 0 to [r], saves and exports once at step [r],
    and the run ends there with [KeyError]; no text file is touched. *)
Lemma pretrain_generator_first_report :
  0 < batch_size self ≤ sample_size self →
  (source_files self) ≠ [] →
  fits_grid (batch_size self * (sample_size self / batch_size self)) →
  0 < pretrain_reporting_steps self < pretrain_num_steps self →
  raises (pretrain_generator self) (KeyError "step")
    ([FigureSaved "result/sample_images.png"]
     ++ replicate (Z.to_nat (pretrain_reporting_steps self)) TrainOp
     ++ [TrainOp; CheckpointSaved (save_dir self) (pretrain_generator_name self);
         FigureSaved ("result/generated_images_at_step_"
                      +:+ pretty (pretrain_reporting_steps self) +:+ ".png")]).
Proof.
  intros Hb Hfiles Hfit Hr. unfold pretrain_generator, sample_and_train.
  eapply (raises_after _ _ _ _ []); [by apply returns_build_graph|].
  intros [ds start] Hds. cbn in Hds. subst ds.
  assert (∀ k, is_Some (dataset_of self (source_files self) (batch_size self) k))
    as Htotal by (intros k; by apply dataset_of_total).
  eapply (raises_after _ _ _ _ []); [apply returns_session_start; lia|]. intros _ _.
  eapply (raises_after _ _ _ _ []); [apply returns_restore_checkpoint|]. intros _ _.
  eapply (raises_after _ _ _ _ []);
    [apply returns_draw_real_batches; [done|lia]|].
  intros real_batches [Hlen Hall].
  destruct (images_of_sample real_batches Hb Hlen Hall) as [Hne Himages].
  rewrite <- Himages in Hfit.
  eapply (raises_after _ _ _ _ [_]); [by apply returns_export_sample|]. intros _ _.
  by apply raises_training_loop.
Qed.
End PretrainingFacts.



(** ** The pretraining run *)

(** C2: with 4 pretraining steps and a report every 2 steps, a run that
    reaches its training loop saves the generator exactly once and exports
    exactly one diagnostic image of generated samples, both at step 2,
    after the training op ran for steps 0, 1 and 2; of the steps 0 to 3 only
    step 2 is a reporting step.  (The run ends in that report, on the
    [KeyError] of its log message.) *)
Theorem pretrain_reports_once_at_step_2
    `{Collaborators} `{!CollaboratorsSpec} (self : Trainer) (w : World) :
  pretrain_num_steps self = 4 →
  pretrain_reporting_steps self = 2 →
  0 < batch_size self ≤ sample_size self →
  source_files self ≠ [] →
  fits_grid (batch_size self * (sample_size self / batch_size self)) →
  (∃ w', pretrain_generator self w = (Raise (KeyError "step"), w')
         ∧ trace w' = trace w ++
             [FigureSaved "result/sample_images.png";
              TrainOp; TrainOp; TrainOp;
              CheckpointSaved (save_dir self) (pretrain_generator_name self);
              FigureSaved "result/generated_images_at_step_2.png"])
  ∧ (∀ step w0, step ∈ range (pretrain_num_steps self) →
       is_reporting_step self step w0 = (Ok (bool_decide (step = 2)), w0)).
Proof.
  intros Hn Hr Hb Hfiles Hfit. split.
  - destruct (pretrain_generator_first_report self Hb Hfiles Hfit ltac:(lia) w)
      as (w' & Hrun & Htr & _).
    exists w'. split; [done|]. by rewrite Htr, Hr.
  - intros step w0 Hstep. rewrite Hn in Hstep. apply elem_of_seqZ in Hstep.
    rewrite is_reporting_step_value by (right; lia). rewrite Hr.
    do 2 f_equal. apply bool_decide_ext.
    assert (step = 0 ∨ step = 1 ∨ step = 2 ∨ step = 3) as [->|[->|[->| ->]]] by lia;
      vm_compute; intuition discriminate.
Qed.

Lemma pretrain_reports_once_at_step_2_witness :
  (∃ w', @pretrain_generator toy_collaborators toy_trainer world0
         = (Raise (KeyError "step"), w')
         ∧ trace w' = trace world0 ++
             [FigureSaved "result/sample_images.png";
              TrainOp; TrainOp; TrainOp;
              CheckpointSaved "ckpts" "pretrain_generator";
              FigureSaved "result/generated_images_at_step_2.png"])
  ∧ (∀ step w0, step ∈ range 4 →
       is_reporting_step toy_trainer step w0 = (Ok (bool_decide (step = 2)), w0)).
Proof.
  apply (@pretrain_reports_once_at_step_2 toy_collaborators toy_collaborators_spec
           toy_trainer world0).
  - reflexivity.
  - reflexivity.
  - cbn. lia.
  - discriminate.
  - left. vm_compute. discriminate.
Defined.

(** C1, as the code behaves: in the end-to-end scenario (4 images, batch
    size 2, 4 steps, a report every 2 steps) the run ends at step 2 with
    [KeyError] on the log message, before the loss log is opened, so
    [result/batch_losses.tsv] does not exist afterwards; and the statement
    that writes the record raises whenever it is reached, for every step
    and loss. *)
Theorem loss_log_is_never_written :
  (∃ w', @pretrain_generator toy_collaborators toy_trainer world0
         = (Raise (KeyError "step"), w')
         ∧ text_files w' !! "result/batch_losses.tsv" = None)
  ∧ (∀ step batch_loss w, ∃ e w',
       write_loss_record step batch_loss w = (Raise e, w')
       ∧ default EmptyString (text_files w' !! "result/batch_losses.tsv")
         = default EmptyString (text_files w !! "result/batch_losses.tsv")).
Proof.
  split.
  - destruct (@pretrain_generator_first_report toy_collaborators
                toy_collaborators_spec toy_trainer) with (w := world0)
      as (w' & Hrun & _ & Htxt).
    + cbn. lia.
    + discriminate.
    + left. vm_compute. discriminate.
    + cbn. lia.
    + exists w'. split; [done|]. by rewrite Htxt.
  - intros step batch_loss w.
    unfold write_loss_record, open_append, mbind, Run_bind.
    case_bool_decide; eexists _, _; (split; [reflexivity|]); [|done].
    cbn [text_files set_text_files].
    destruct (text_files w !! "result/batch_losses.tsv") as [s|] eqn:E;
      [by rewrite E|]. by rewrite lookup_insert_eq.
Qed.

(** Over an empty source folder the run ends while the dataset is built,
    with only log records added. *)
Lemma pretrain_generator_no_files `{Collaborators} (self : Trainer) (w : World) :
  source_files self = [] →
  ∃ w', pretrain_generator self w = (Raise read_file_error, w')
        ∧ trace w' = trace w ∧ vars w' = vars w ∧ ds_pos w' = ds_pos w
        ∧ batch_losses w' = batch_losses w ∧ text_files w' = text_files w
        ∧ ckpts w' = ckpts w ∧ image_files w' = image_files w
        ∧ figs w' = figs w ∧ dirs w' = dirs w.
Proof.
  intros Hfiles. unfold source_files in Hfiles.
  unfold pretrain_generator, build_graph, get_dataset, logger_info, modify,
    mbind, Run_bind.
  rewrite decide_True by done. by eexists.
Qed.

(** C10: with a sample size below the batch size, [int(sample_size /
    batch_size)] selects no iteration of the sampling loop (it is 0 for a
    sample size that is not negative), so no batch is drawn, and the run
    raises out of [pretrain_generator] before the loop: the training op
    never runs, nothing is saved or exported.  Over a folder that holds
    files the exception is the [ValueError] of [np.concatenate] on the
    empty list, raised with the iterator still at its first batch (over an
    empty folder the run has ended before, while the dataset was built). *)
Theorem small_sample_stops_before_training
    `{Collaborators} (self : Trainer) (w : World) :
  0 < batch_size self →
  sample_size self < batch_size self →
  (0 ≤ sample_size self →
   py_int_truediv (sample_size self) (batch_size self) w = (Ok 0, w))
  ∧ range (Z.quot (sample_size self) (batch_size self)) = []
  ∧ ∃ e w', pretrain_generator self w = (Raise e, w')
            ∧ trace w' = trace w
            ∧ batch_losses w' = batch_losses w
            ∧ (source_files self ≠ [] →
               e = ValueError "need at least one array to concatenate"
               ∧ ds_pos w' = 0%nat).
Proof.
  intros Hb Hs.
  assert (Z.quot (sample_size self) (batch_size self) ≤ 0) as Hq.
  { destruct (decide (0 ≤ sample_size self)) as [Hpos|Hneg].
    - rewrite Z.quot_small; lia.
    - rewrite <- (Z.opp_involutive (sample_size self)), Z.quot_opp_l by lia.
      pose proof (Z.quot_pos (- sample_size self) (batch_size self)). lia. }
  assert (range (Z.quot (sample_size self) (batch_size self)) = []) as Hrange
    by (by apply seqZ_nil).
  split; [|split; [done|]].
  - intros Hpos. unfold py_int_truediv. rewrite decide_False by lia.
    by rewrite Z.quot_small by lia.
  - destruct (decide (source_files self = [])) as [Hnone|Hfiles].
    { destruct (pretrain_generator_no_files self w Hnone)
        as (w' & Hrun & Htr & _ & _ & Hlosses & _).
      by exists read_file_error, w'. }
    unfold source_files in Hfiles.
    unfold pretrain_generator, sample_and_train, build_graph, get_dataset,
      session_start, initializer_run, restore_checkpoint, draw_real_batches,
      py_int_truediv, export_sample, try_except_ValueError, g_load,
      logger_info, modify, get, mbind, Run_bind, mret, Run_ret.
    rewrite (decide_False (P := dataset_files _ _ _ = [])) by done.
    rewrite !decide_False by lia. rewrite Hrange.
    destruct (pass_vgg self);
      cbn [ckpts set_logs set_vars set_ds_pos];
      destruct (ckpts w !! (save_dir self, pretrain_generator_name self));
      eexists _, _; (split; [reflexivity|]); done.
Qed.

Lemma small_sample_stops_before_training_witness :
  (0 ≤ 1 → py_int_truediv 1 2 world0 = (Ok 0, world0))
  ∧ range (Z.quot 1 2) = []
  ∧ ∃ e w', @pretrain_generator toy_collaborators
              (mkTrainer "toy" "A" "B" 2 2 1 "runs" "ckpts" false (1 # 100000) 4 2
                         "pretrain_generator") world0
            = (Raise e, w')
            ∧ trace w' = trace world0
            ∧ batch_losses w' = batch_losses world0
            ∧ (@source_files toy_collaborators
                 (mkTrainer "toy" "A" "B" 2 2 1 "runs" "ckpts" false (1 # 100000)
                            4 2 "pretrain_generator") ≠ [] →
               e = ValueError "need at least one array to concatenate"
               ∧ ds_pos w' = 0%nat).
Proof.
  apply (@small_sample_stops_before_training toy_collaborators
           (mkTrainer "toy" "A" "B" 2 2 1 "runs" "ckpts" false (1 # 100000) 4 2
                      "pretrain_generator") world0).
  - cbn. lia.
  - cbn. lia.
Defined.

(** ** The fixed sample *)

Section SampleFacts.
Context `{Collaborators} `{!CollaboratorsSpec} (self : Trainer).

Lemma draw_batches_run {A} (ds : nat → option Batch) (xs : list A) w :
  (∀ k, is_Some (ds k)) →
  ∃ bs w', mapM (λ _, next_batch ds) xs w = (Ok bs, w')
           ∧ length bs = length xs
           ∧ Forall (λ b, ∃ k, ds k = Some b) bs
           ∧ w' = set_ds_pos (λ n, n + length xs)%nat w.
Proof.
  intros Htotal. revert w. induction xs as [|x xs IH]; intros w.
  - exists [], w. split; [done|]. split; [done|]. split; [done|].
    destruct w. unfold set_ds_pos. cbn [ds_pos length]. by rewrite Nat.add_0_r.
  - cbn [mapM].
    destruct (Htotal (ds_pos w)) as [b Hb].
    assert (next_batch ds w = (Ok b, set_ds_pos S w)) as Hnext
      by (unfold next_batch; by rewrite Hb).
    destruct (IH (set_ds_pos S w)) as (bs & w' & Hrun & Hlen & Hall & Hw).
    exists (b :: bs), w'. split.
    { erewrite bind_ok by exact Hnext. by erewrite bind_ok by exact Hrun. }
    split; [cbn; lia|]. split; [constructor; eauto|].
    rewrite Hw. unfold set_ds_pos. cbn. f_equal. lia.
Qed.

Lemma grid_figure_in_range (x : Batch) :
  Forall (in_range 0 1) x →
  Forall (λ a, ∃ img, ax_image a = Some img ∧ in_range 0 1 img)
         (fig_axes (grid_figure x)).
Proof.
  intros Hx. unfold grid_figure. cbn [fig_axes].
  apply Forall_fmap, Forall_true. intros i. cbn. eexists. split; [done|].
  destruct (x !! Z.to_nat i) as [img|] eqn:E; cbn.
  - rewrite Forall_forall in Hx. apply Hx. by eapply list_elem_of_lookup_2.
  - by constructor.
Qed.
End SampleFacts.

(** C4: for a batch size [B >= 1] and a sample size [S >= B], over a
    source folder that is not empty, the sampling loop of
    [pretrain_generator] draws exactly [floor(S/B)] batches from the
    iterator, before any training op; their concatenation holds exactly
    [B * floor(S/B)] images, every value of which lies in [-1, 1]; the array
    handed to the export is its clipped copy, every value of which lies in
    [0, 1], and so does every image of the baseline grid once it is
    saved. *)
Theorem sample_batches_count_and_range
    `{Collaborators} `{!CollaboratorsSpec} (self : Trainer) (w : World) :
  0 < batch_size self ≤ sample_size self →
  source_files self ≠ [] →
  ∃ real_batches w',
    draw_real_batches self (dataset_of self (source_files self) (batch_size self)) w
    = (Ok real_batches, w')
    ∧ Z.of_nat (length real_batches) = sample_size self / batch_size self
    ∧ ds_pos w' = (ds_pos w + Z.to_nat (sample_size self / batch_size self))%nat
    ∧ trace w' = trace w
    ∧ ∃ x, np_concatenate real_batches = Ok x
           ∧ Z.of_nat (length x)
             = batch_size self * (sample_size self / batch_size self)
           ∧ Forall (in_range (-1) 1) x
           ∧ Forall (in_range 0 1) (np_clip x 0 1)
           ∧ export_sample real_batches w'
             = save_generated_images (np_clip x 0 1) (Some "sample_images.png") w'
           ∧ (∀ w'', export_sample real_batches w' = (Ok tt, w'') →
                ∃ fg, image_files w'' !! "result/sample_images.png" = Some fg
                      ∧ Forall (λ a, ∃ img, ax_image a = Some img
                                            ∧ in_range 0 1 img) (fig_axes fg)).
Proof.
  intros Hb Hfiles.
  set (ds := dataset_of self (source_files self) (batch_size self)).
  assert (∀ k, is_Some (ds k)) as Htotal by (intros k; by apply dataset_of_total).
  assert (Z.quot (sample_size self) (batch_size self)
          = sample_size self / batch_size self) as Hq
    by (apply Z.quot_div_nonneg; lia).
  destruct (draw_batches_run ds
              (range (Z.quot (sample_size self) (batch_size self)))
              (set_logs (λ l, l ++ ["Sampling " +:+ pretty (sample_size self)
                 +:+ " images for tracking generator's performance..."]) w) Htotal)
    as (real_batches & w' & Hrun & Hlen & Hall & Hw).
  unfold range in Hlen. rewrite length_seqZ in Hlen.
  destruct (images_of_sample self real_batches Hb Hlen Hall) as [Hne Himages].
  exists real_batches, w'. split; [|split; [|split; [|split]]].
  - unfold draw_real_batches, py_int_truediv. rewrite decide_False by lia.
    unfold logger_info, modify, mbind at 1 2, Run_bind, mret, Run_ret. exact Hrun.
  - rewrite Hlen, Hq. apply Z2Nat.id, Z.div_pos; lia.
  - rewrite Hw. unfold range. by rewrite length_seqZ, Hq.
  - by rewrite Hw.
  - exists (concat real_batches).
    assert (np_concatenate real_batches = Ok (concat real_batches)) as Hcat
      by (by destruct real_batches).
    assert (Forall (in_range 0 1) (np_clip (concat real_batches) 0 1)) as Hclip.
    { unfold np_clip. apply Forall_fmap, Forall_true. intros img. apply in_range_clip. }
    split; [done|]. split; [exact Himages|]. split; [|split; [done|split]].
    + apply Forall_concat. eapply Forall_impl; [exact Hall|].
      intros b [k Hk]. by apply dataset_of_batch_range in Hk.
    + unfold export_sample. by rewrite Hcat.
    + intros w'' Hexport. unfold export_sample in Hexport. rewrite Hcat in Hexport.
      unfold lift, mbind, Run_bind in Hexport.
      destruct (decide (fits_grid (shape0 (np_clip (concat real_batches) 0 1))))
        as [Hfit|Hno].
      * unfold save_generated_images in Hexport.
        rewrite save_generated_images_fits in Hexport by done.
        injection Hexport as <-. exists (grid_figure (np_clip (concat real_batches) 0 1)).
        split; [|by apply grid_figure_in_range].
        unfold after_export. cbn. apply lookup_insert_eq.
      * unfold save_generated_images in Hexport.
        by rewrite save_generated_images_overflow in Hexport.
Qed.

Lemma sample_batches_count_and_range_witness :
  ∃ real_batches w',
    draw_real_batches toy_trainer
      (@dataset_of toy_collaborators toy_trainer
         (@source_files toy_collaborators toy_trainer) 2) world0
    = (Ok real_batches, w')
    ∧ Z.of_nat (length real_batches) = 4 / 2
    ∧ ds_pos w' = (ds_pos world0 + Z.to_nat (4 / 2))%nat
    ∧ trace w' = trace world0
    ∧ ∃ x, np_concatenate real_batches = Ok x
           ∧ Z.of_nat (length x) = 2 * (4 / 2)
           ∧ Forall (in_range (-1) 1) x
           ∧ Forall (in_range 0 1) (np_clip x 0 1)
           ∧ export_sample real_batches w'
             = save_generated_images (np_clip x 0 1) (Some "sample_images.png") w'
           ∧ (∀ w'', export_sample real_batches w' = (Ok tt, w'') →
                ∃ fg, image_files w'' !! "result/sample_images.png" = Some fg
                      ∧ Forall (λ a, ∃ img, ax_image a = Some img
                                            ∧ in_range 0 1 img) (fig_axes fg)).
Proof.
  apply (@sample_batches_count_and_range toy_collaborators toy_collaborators_spec
           toy_trainer world0).
  - cbn. lia.
  - discriminate.
Defined.

(** ** What a training step may change *)

Lemma keeps_same {A} keep (m : Run A) :
  (∀ w, vars (m w).2 = vars w) → keeps_vars_outside keep m.
Proof. intros Hm w v _. by rewrite Hm. Qed.

Lemma keeps_bind {A B} keep (m : Run A) (k : A → Run B) :
  keeps_vars_outside keep m → (∀ a, keeps_vars_outside keep (k a)) →
  keeps_vars_outside keep (m ≫= k).
Proof.
  intros Hm Hk w v Hv. specialize (Hm w v Hv).
  unfold mbind, Run_bind. destruct (m w) as [[a|e] w1]; cbn in *; [|done].
  by rewrite Hk.
Qed.

Lemma keeps_for_each {A} keep (xs : list A) (body : A → Run unit) :
  (∀ x, keeps_vars_outside keep (body x)) →
  keeps_vars_outside keep (for_each xs body).
Proof.
  intros Hbody. induction xs as [|x xs IH]; [by apply keeps_same|].
  cbn [for_each]. apply keeps_bind; auto.
Qed.

Lemma keeps_mapM {A B} keep (f : A → Run B) (xs : list A) :
  (∀ x, keeps_vars_outside keep (f x)) →
  keeps_vars_outside keep (mapM f xs).
Proof.
  intros Hf. induction xs as [|x xs IH]; [by apply keeps_same|].
  cbn [mapM]. apply keeps_bind; [done|]. intros y.
  apply keeps_bind; [done|]. intros ys. by apply keeps_same.
Qed.

Lemma keeps_save_generated_images keep (x : Batch) directory name :
  keeps_vars_outside keep (_save_generated_images x directory name 8).
Proof.
  apply keeps_same. intros w.
  destruct (decide (fits_grid (shape0 x))) as [Hfit|Hno].
  - rewrite save_generated_images_fits by done. unfold after_export.
    destruct name; [|done]. by case_bool_decide.
  - by rewrite save_generated_images_overflow.
Qed.

Lemma lookup_updates_other (f g h : string → list Q) (vs : Store) var_list v :
  v ∉ var_list →
  v ∉ (var_list ≫= λ u, [adam_m_slot u; adam_v_slot u]) →
  foldr (λ u acc, <[u := f u]>
                    (<[adam_m_slot u := g u]> (<[adam_v_slot u := h u]> acc)))
        vs var_list !! v = vs !! v.
Proof.
  induction var_list as [|u var_list IH]; intros Hv Hslots; [done|].
  apply not_elem_of_cons in Hv as [Hne Hv]. cbn [foldr].
  cbn in Hslots. rewrite !not_elem_of_cons in Hslots.
  destruct Hslots as (Hm & Hv' & Hslots).
  rewrite !lookup_insert_ne by done. by apply IH.
Qed.

Lemma not_elem_of_training_vars powers var_list v :
  v ∉ training_vars powers var_list ↔
  v ∉ var_list ∧ v ≠ powers.1 ∧ v ≠ powers.2
  ∧ v ∉ (var_list ≫= λ u, [adam_m_slot u; adam_v_slot u]).
Proof.
  unfold training_vars, optimizer_vars. cbn [app].
  rewrite not_elem_of_app, !not_elem_of_cons. tauto.
Qed.

Section FrameFacts.
Context `{Collaborators} (self : Trainer).

(** The optimizer writes the variables of its [var_list] and its own, and
    no other. *)
Lemma keeps_minimize lr powers loss var_list :
  keeps_vars_outside (training_vars powers var_list)
                     (minimize lr powers loss var_list).
Proof.
  intros w v Hv. apply not_elem_of_training_vars in Hv as (Hv & H1 & H2 & Hslots).
  cbn. rewrite !lookup_insert_ne by done. by apply lookup_updates_other.
Qed.

(** The optimizer advances its first beta power at every run. *)
Lemma minimize_beta1_power lr powers loss var_list w :
  vars (minimize lr powers loss var_list w).2 !! powers.1
  = Some (Qmult beta1 <$> default [] (vars w !! powers.1)).
Proof. cbn. by rewrite lookup_insert_eq. Qed.

Lemma keeps_next_batch keep ds : keeps_vars_outside keep (next_batch ds).
Proof. apply keeps_same. intros w. unfold next_batch. by destruct (ds (ds_pos w)). Qed.

Lemma keeps_run_train_op ds :
  keeps_vars_outside (training_vars pretrain_powers to_save_vars)
                     (run_train_op self ds).
Proof.
  unfold run_train_op. apply keeps_bind; [apply keeps_next_batch|].
  intros input_images. apply keeps_bind; [by apply keeps_same|]. intros vs.
  apply keeps_bind; [apply keeps_minimize|]. intros _. by apply keeps_same.
Qed.

Lemma keeps_lift {A} keep (r : result A) : keeps_vars_outside keep (lift r).
Proof. by apply keeps_same. Qed.

Lemma keeps_write_loss_record keep step batch_loss :
  keeps_vars_outside keep (write_loss_record step batch_loss).
Proof.
  apply keeps_same. intros w.
  unfold write_loss_record, open_append, mbind, Run_bind.
  by case_bool_decide.
Qed.

Lemma keeps_report keep start real_batches step batch_loss :
  keeps_vars_outside keep (report self start real_batches step batch_loss).
Proof.
  unfold report.
  apply keeps_bind; [apply keeps_mapM; intros; by apply keeps_same|]. intros fake_batches.
  apply keeps_bind; [by apply keeps_same|]. intros _.
  apply keeps_bind; [apply keeps_lift|]. intros x.
  apply keeps_bind; [apply keeps_save_generated_images|]. intros _.
  apply keeps_bind; [by apply keeps_same|]. intros now.
  apply keeps_bind; [apply keeps_lift|]. intros msg.
  apply keeps_bind; [by apply keeps_same|]. intros _.
  apply keeps_write_loss_record.
Qed.

Lemma keeps_is_reporting_step keep step :
  keeps_vars_outside keep (is_reporting_step self step).
Proof.
  apply keeps_same. intros w. unfold is_reporting_step, py_mod.
  repeat case_decide; done.
Qed.

Lemma keeps_train_step ds start real_batches step :
  keeps_vars_outside (training_vars pretrain_powers to_save_vars)
                     (train_step self ds start real_batches step).
Proof.
  unfold train_step. apply keeps_bind; [apply keeps_run_train_op|].
  intros batch_loss. apply keeps_bind; [by apply keeps_same|]. intros _.
  apply keeps_bind; [apply keeps_is_reporting_step|].
  intros [|]; [apply keeps_report|by apply keeps_same].
Qed.
End FrameFacts.

(** C7, as the code behaves: the optimizer is given the generator's list
    of variables to save, and what it runs changes only the variables of
    that list and the optimizer's own (its two beta powers and the two
    accumulators of each listed variable): no other variable changes in one
    run of the training op, in a whole step of the loop (report included)
    or in the whole training loop.  The feature extractor's variables,
    which are none of these, are among those left alone.  The first beta
    power, however, is multiplied by the decay rate at every run of the
    training op. *)
Theorem training_changes_only_generator_vars
    `{Collaborators} (self : Trainer) (ds : nat → option Batch) (start : Q)
    (real_batches : list Batch) (w : World) (v : string) :
  v ∉ to_save_vars →
  v ∉ optimizer_vars pretrain_powers to_save_vars →
  vars (run_train_op self ds w).2 !! v = vars w !! v
  ∧ (∀ step, vars (train_step self ds start real_batches step w).2 !! v
             = vars w !! v)
  ∧ vars (training_loop self ds start real_batches w).2 !! v = vars w !! v
  ∧ ((∀ u, u ∈ vgg_vars →
        u ∉ to_save_vars ∧ u ∉ optimizer_vars pretrain_powers to_save_vars) →
     ∀ u, u ∈ vgg_vars →
       vars (training_loop self ds start real_batches w).2 !! u = vars w !! u)
  ∧ (∀ batch, ds (ds_pos w) = Some batch →
       vars (run_train_op self ds w).2 !! "beta1_power"
       = Some (Qmult beta1 <$> default [] (vars w !! "beta1_power"))).
Proof.
  intros Hv Hv'.
  assert (v ∉ training_vars pretrain_powers to_save_vars) as Hout
    by (unfold training_vars; rewrite not_elem_of_app; done).
  assert (keeps_vars_outside (training_vars pretrain_powers to_save_vars)
            (training_loop self ds start real_batches)) as Hloop.
  { unfold training_loop. apply keeps_for_each.
    intros step. apply keeps_train_step. }
  split; [|split; [|split; [|split]]].
  - by apply keeps_run_train_op.
  - intros step. by apply keeps_train_step.
  - by apply Hloop.
  - intros Hvgg u Hu. apply Hloop. unfold training_vars.
    rewrite not_elem_of_app. by apply Hvgg.
  - intros batch Hbatch. unfold run_train_op, next_batch, get, mbind, Run_bind.
    rewrite Hbatch. cbn. by rewrite lookup_insert_eq.
Qed.

Lemma training_changes_only_generator_vars_witness :
  let ds := @dataset_of toy_collaborators toy_trainer
              (@source_files toy_collaborators toy_trainer) 2 in
  let w := set_vars (λ _, @initial_values toy_collaborators) world0 in
  vars (@run_train_op toy_collaborators toy_trainer ds w).2 !! "vgg/w"
  = vars w !! "vgg/w"
  ∧ (∀ step, vars (@train_step toy_collaborators toy_trainer ds 0%Q [] step w).2
               !! "vgg/w" = vars w !! "vgg/w")
  ∧ vars (@training_loop toy_collaborators toy_trainer ds 0%Q [] w).2 !! "vgg/w"
    = vars w !! "vgg/w"
  ∧ ((∀ u, u ∈ @vgg_vars toy_collaborators →
        u ∉ @to_save_vars toy_collaborators
        ∧ u ∉ optimizer_vars pretrain_powers (@to_save_vars toy_collaborators)) →
     ∀ u, u ∈ @vgg_vars toy_collaborators →
       vars (@training_loop toy_collaborators toy_trainer ds 0%Q [] w).2 !! u
       = vars w !! u)
  ∧ (∀ batch, ds (ds_pos w) = Some batch →
       vars (@run_train_op toy_collaborators toy_trainer ds w).2 !! "beta1_power"
       = Some (Qmult beta1 <$> default [] (vars w !! "beta1_power"))).
Proof.
  apply (@training_changes_only_generator_vars toy_collaborators toy_trainer).
  - apply (bool_decide_unpack _). vm_compute. exact I.
  - apply (bool_decide_unpack _). vm_compute. exact I.
Defined.

(** C7, as it is stated, fails: in the end-to-end scenario the first run
    of the training op changes [beta1_power], a variable outside the
    generator's list, from 0.9 to 0.81. *)
Lemma training_step_changes_optimizer_vars :
  let ds := @dataset_of toy_collaborators toy_trainer
              (@source_files toy_collaborators toy_trainer) 2 in
  let w := set_vars (λ _, @initial_values toy_collaborators) world0 in
  "beta1_power" ∉ @to_save_vars toy_collaborators
  ∧ vars w !! "beta1_power" = Some [(9 # 10)%Q]
  ∧ vars (@run_train_op toy_collaborators toy_trainer ds w).2 !! "beta1_power"
    = Some [(81 # 100)%Q]
  ∧ vars (@run_train_op toy_collaborators toy_trainer ds w).2 !! "beta1_power"
    ≠ vars w !! "beta1_power".
Proof.
  cbv zeta. split; [|split; [|split]].
  - apply (bool_decide_unpack _). vm_compute. exact I.
  - vm_compute. reflexivity.
  - vm_compute. reflexivity.
  - vm_compute. discriminate.
Qed.

(** * Further properties *)

(** ** The export for any row width *)

Lemma num_rows_of_pos k b w :
  0 < k → num_rows_of b k w = (Ok (rows_of k b), w).
Proof.
  intros Hk. unfold num_rows_of, rows_of, py_floordiv. case_decide; [|done].
  by rewrite decide_False by lia.
Qed.

Lemma rows_of_pos k b : 0 < k → 0 < rows_of k b.
Proof.
  intros Hk. unfold rows_of. case_decide; [|lia].
  apply Z.div_str_pos. lia.
Qed.

Lemma fits_row_cells k b : 0 < k → fits_row k b ↔ b ≤ rows_of k b * k.
Proof.
  intros Hk. unfold fits_row, rows_of. case_decide as Hkb.
  - pose proof (Z.div_mod b k ltac:(lia)) as Hdm.
    pose proof (Z.mod_pos_bound b k ltac:(lia)) as Hm.
    assert (1 ≤ b / k) as Hq by (apply Z.div_le_lower_bound; lia).
    set (q := b / k) in *. set (r := b mod k) in *.
    split.
    + intros [Hle|Hr]; [|nia]. assert (b = k) by lia. nia.
    + intros Hle. right. nia.
  - lia.
Qed.

(** The world after a batch that fits was exported under a name. *)
Lemma save_generated_images_row_fits k batch_x directory name w :
  0 < k → fits_row k (shape0 batch_x) →
  _save_generated_images batch_x directory (Some name) k w
  = (Ok tt,
     set_trace (λ tr, tr ++ [FigureSaved (os_path_join directory name)])
       (set_image_files (insert (os_path_join directory name) (grid_of k batch_x))
          (if bool_decide (path_exists directory w)
           then w else set_dirs (λ d, {[directory]} ∪ d) w))).
Proof.
  intros Hk Hfit. apply fits_row_cells in Hfit; [|done].
  pose proof (rows_of_pos k (shape0 batch_x) Hk) as Hrows.
  unfold _save_generated_images.
  erewrite bind_ok; [|by apply num_rows_of_pos].
  erewrite bind_ok; [|reflexivity].
  pose proof (new_fignum_fresh (figs w)) as Hfresh.
  set (n := new_fignum (figs w)) in *.
  erewrite bind_ok; last first.
  { unfold range.
    replace (shape0 batch_x) with (Z.of_nat (length batch_x)) at 1 2 by done.
    eapply (draw_cells_ok n _ k batch_x (figs w) (8%Q, 6%Q));
      eauto; unfold shape0 in *; lia. }
  cbn [app].
  unfold os_path_exists, get, os_makedirs, plt_savefig, plt_close, modify,
    mbind, Run_bind, mret, Run_ret, set_figs, set_dirs, set_image_files,
    set_trace, path_exists.
  world_fields.
  case_bool_decide; cbn [negb]; world_fields;
    rewrite last_snoc, close_last by done; destruct w; reflexivity.
Qed.

Lemma save_generated_images_row_unnamed k batch_x directory w :
  0 < k → fits_row k (shape0 batch_x) →
  _save_generated_images batch_x directory None k w = (Ok tt, w).
Proof.
  intros Hk Hfit. apply fits_row_cells in Hfit; [|done].
  pose proof (rows_of_pos k (shape0 batch_x) Hk) as Hrows.
  unfold _save_generated_images.
  erewrite bind_ok; [|by apply num_rows_of_pos].
  erewrite bind_ok; [|reflexivity].
  pose proof (new_fignum_fresh (figs w)) as Hfresh.
  set (n := new_fignum (figs w)) in *.
  erewrite bind_ok; last first.
  { unfold range.
    replace (shape0 batch_x) with (Z.of_nat (length batch_x)) at 1 2 by done.
    eapply (draw_cells_ok n _ k batch_x (figs w) (8%Q, 6%Q));
      eauto; unfold shape0 in *; lia. }
  unfold plt_close, modify, mbind, Run_bind, mret, Run_ret, set_figs.
  world_fields. rewrite close_last by done. by destruct w.
Qed.





Lemma name_char_not_slash c : is_name_char c = true → c ≠ "/"%char.
Proof. intros Hc ->. vm_compute in Hc. discriminate. Qed.

Lemma plain_name_no_slash_end s : name_chars s = true → ends_with_slash s = false.
Proof.
  induction s as [|c s IH]; [done|]. cbn [name_chars ends_with_slash].
  intros [Hc Hs]%andb_prop. destruct s as [|c' s'].
  - apply bool_decide_eq_false. by apply name_char_not_slash.
  - by apply IH.
Qed.

(** [os.path.join] of a plain directory name and a plain file name with the
    extension [.png]. *)
Lemma os_path_join_plain directory stem :
  plain_name directory → plain_name stem →
  os_path_join directory (stem +:+ ".png") = directory +:+ "/" +:+ stem +:+ ".png".
Proof.
  intros [Hd Hdc] [Hs Hsc]. unfold os_path_join.
  destruct stem as [|c stem]; [done|]. cbn [name_chars] in Hsc.
  apply andb_prop in Hsc as [Hc _].
  assert (starts_with_slash (String c stem +:+ ".png") = false) as ->.
  { cbn. apply bool_decide_eq_false. by apply name_char_not_slash. }
  rewrite bool_decide_eq_false_2 by done.
  by rewrite plain_name_no_slash_end.
Qed.

(** X2: for a plain directory name and a plain file name with the
    extension [.png], where the directory is there or nothing is at its
    path, and the file's path is not a directory: when the batch fills its
    grid, the file at [directory/name.png] is replaced by a figure of size
    8 x 6, whatever the batch size, with one cell per image in batch order:
    cell [i] sits at position [i + 1] of the grid, shows image [i] and has
    its axes off.  The directory is created only when it is not there; no
    other file, no open figure, no variable, checkpoint or log record
    changes. *)
Theorem export_saves_grid_in_batch_order
    (k : Z) (batch_x : Batch) (directory stem : string) (w : World) :
  0 < k →
  shape0 batch_x ≤ k ∨ shape0 batch_x mod k = 0 →
  plain_name directory →
  plain_name stem →
  directory ∈ dirs w ∨ ¬ path_exists directory w →
  directory +:+ "/" +:+ stem +:+ ".png" ∉ dirs w →
  ∃ w' fg,
    _save_generated_images batch_x directory (Some (stem +:+ ".png")) k w
    = (Ok tt, w')
    ∧ image_files w'
      = <[directory +:+ "/" +:+ stem +:+ ".png" := fg]> (image_files w)
    ∧ figsize fg = (8%Q, 6%Q)
    ∧ length (fig_axes fg) = length batch_x
    ∧ (∀ (i : nat) img, batch_x !! i = Some img →
         fig_axes fg !! i
         = Some (mkAxes (rows_of k (shape0 batch_x)) k (Z.of_nat i + 1)
                        (Some img) false))
    ∧ dirs w' = (if bool_decide (directory ∈ dirs w) then dirs w
                 else {[directory]} ∪ dirs w)
    ∧ trace w'
      = trace w ++ [FigureSaved (directory +:+ "/" +:+ stem +:+ ".png")]
    ∧ figs w' = figs w ∧ text_files w' = text_files w
    ∧ ckpts w' = ckpts w ∧ vars w' = vars w ∧ logs w' = logs w.
Proof.
  intros Hk Hfit Hdir Hstem Hthere _. eexists _, (grid_of k batch_x).
  split; [by apply save_generated_images_row_fits|].
  rewrite os_path_join_plain by done.
  assert (bool_decide (path_exists directory w) = bool_decide (directory ∈ dirs w))
    as Hex.
  { apply bool_decide_ext. unfold path_exists. split; [|by left].
    intros Hp. destruct Hthere as [|Hno]; [done|]. by destruct Hno. }
  world_fields. split; [by case_bool_decide|]. split; [done|].
  split; [|split].
  - unfold grid_of, range, shape0. cbn [fig_axes].
    rewrite length_fmap, length_seqZ. lia.
  - intros i img Hi. unfold grid_of, range. cbn [fig_axes].
    assert (Z.of_nat i < shape0 batch_x) as Hlt
      by (apply lookup_lt_Some in Hi; unfold shape0; lia).
    rewrite list_lookup_fmap, lookup_seqZ_lt by done.
    cbn [fmap option_fmap option_map]. unfold cell, Batch in *.
    rewrite Z.add_0_l, Nat2Z.id. f_equal. f_equal.
    destruct (batch_x !! i) eqn:E; by (inversion Hi || rewrite E in Hi).
  - rewrite <- Hex. repeat split; by case_bool_decide.
Qed.

Lemma export_saves_grid_in_batch_order_witness :
  ∃ w' fg,
    _save_generated_images (grey_batch 6) "result" (Some ("grid" +:+ ".png")) 3 world0
    = (Ok tt, w')
    ∧ image_files w'
      = <["result" +:+ "/" +:+ "grid" +:+ ".png" := fg]> (image_files world0)
    ∧ figsize fg = (8%Q, 6%Q)
    ∧ length (fig_axes fg) = length (grey_batch 6)
    ∧ (∀ (i : nat) img, grey_batch 6 !! i = Some img →
         fig_axes fg !! i
         = Some (mkAxes (rows_of 3 (shape0 (grey_batch 6))) 3 (Z.of_nat i + 1)
                        (Some img) false))
    ∧ dirs w' = (if bool_decide ("result" ∈ dirs world0) then dirs world0
                 else {["result"]} ∪ dirs world0)
    ∧ trace w'
      = trace world0 ++ [FigureSaved ("result" +:+ "/" +:+ "grid" +:+ ".png")]
    ∧ figs w' = figs world0 ∧ text_files w' = text_files world0
    ∧ ckpts w' = ckpts world0 ∧ vars w' = vars world0 ∧ logs w' = logs world0.
Proof.
  apply (export_saves_grid_in_batch_order 3 (grey_batch 6) "result" "grid" world0).
  - lia.
  - right. reflexivity.
  - split; [discriminate|reflexivity].
  - split; [discriminate|reflexivity].
  - right. unfold path_exists. cbn. intros [Hd|[[x Hx]|[x Hx]]].
    + by apply not_elem_of_empty in Hd.
    + discriminate.
    + discriminate.
  - cbn. apply not_elem_of_empty.
Defined.

(** X3: without a file name, a batch that fills its grid is drawn and
    discarded: the call returns and the world is exactly what it was (no
    file, no directory, no figure left open). *)
Theorem export_without_name_changes_nothing
    (k : Z) (batch_x : Batch) (directory : string) (w : World) :
  0 < k →
  shape0 batch_x ≤ k ∨ shape0 batch_x mod k = 0 →
  _save_generated_images batch_x directory None k w = (Ok tt, w).
Proof. intros Hk Hfit. by apply save_generated_images_row_unnamed. Qed.

Lemma export_without_name_changes_nothing_witness :
  _save_generated_images (grey_batch 16) "result" None 8 world0 = (Ok tt, world0).
Proof.
  apply (export_without_name_changes_nothing 8 (grey_batch 16) "result" world0).
  - lia.
  - right. reflexivity.
Defined.



(** ** More on the image pipeline *)

Section PipelineOrder.
Context `{Collaborators} `{!CollaboratorsSpec}.

Lemma ds_repeat_pass (l : list Image) (e j : nat) :
  (j < length l)%nat →
  ds_repeat (length l) (ds_shuffle 10000 l) (e * length l + j)
  = shuffle 10000 e l !! j.
Proof.
  intros Hj. unfold ds_repeat, ds_shuffle.
  rewrite decide_False by lia.
  rewrite Nat.div_add_l, Nat.div_small, Nat.add_0_r by lia.
  rewrite Nat.add_comm, Nat.Div0.mod_add, Nat.mod_small by lia. done.
Qed.

Lemma ds_repeat_whole_pass (l : list Image) (e : nat) :
  mapM (ds_repeat (length l) (ds_shuffle 10000 l)) (seq (e * length l) (length l))
  = Some (shuffle 10000 e l).
Proof.
  apply mapM_Some_2, Forall2_same_length_lookup_2.
  - by rewrite length_seq, shuffle_perm.
  - intros j i img Hi Himg. apply lookup_seq in Hi as [-> Hj].
    by rewrite ds_repeat_pass.
Qed.

End PipelineOrder.

(** X5: shuffling comes before repeating, so every pass over the folder
    serves each file exactly once: the elements of pass [e] of the repeated
    stream are a permutation of the processed files; in particular, with a
    batch size equal to the number of files every batch is a permutation of
    the whole folder. *)
Theorem every_pass_serves_each_file_once
    `{Collaborators} `{!CollaboratorsSpec} (self : Trainer) (files : list string) :
  files ≠ [] →
  (∀ e, ∃ pass,
     mapM (ds_repeat (length files)
             (ds_shuffle 10000 (ds_map (image_processing self) files)))
          (seq (e * length files) (length files)) = Some pass
     ∧ pass ≡ₚ image_processing self <$> files)
  ∧ (∀ k, ∃ batch,
       dataset_of self files (Z.of_nat (length files)) k = Some batch
       ∧ batch ≡ₚ image_processing self <$> files).
Proof.
  intros Hfiles.
  assert (Hpass : ∀ e, ∃ pass,
     mapM (ds_repeat (length files)
             (ds_shuffle 10000 (ds_map (image_processing self) files)))
          (seq (e * length files) (length files)) = Some pass
     ∧ pass ≡ₚ image_processing self <$> files).
  { intros e. exists (shuffle 10000 e (image_processing self <$> files)).
    split; [|apply shuffle_perm].
    pose proof (ds_repeat_whole_pass (image_processing self <$> files) e) as Hw.
    rewrite length_fmap in Hw. exact Hw. }
  split; [done|]. intros k. unfold dataset_of, ds_batch.
  rewrite Nat2Z.id. apply Hpass.
Qed.

Lemma every_pass_serves_each_file_once_witness :
  (∀ e, ∃ pass,
     mapM (ds_repeat (length ["1.jpg"; "2.jpg"; "3.jpg"])
             (@ds_shuffle toy_collaborators 10000
                (ds_map (@image_processing toy_collaborators toy_trainer)
                        ["1.jpg"; "2.jpg"; "3.jpg"])))
          (seq (e * length ["1.jpg"; "2.jpg"; "3.jpg"])
               (length ["1.jpg"; "2.jpg"; "3.jpg"])) = Some pass
     ∧ pass ≡ₚ @image_processing toy_collaborators toy_trainer
                 <$> ["1.jpg"; "2.jpg"; "3.jpg"])
  ∧ (∀ k, ∃ batch,
       @dataset_of toy_collaborators toy_trainer ["1.jpg"; "2.jpg"; "3.jpg"]
         (Z.of_nat (length ["1.jpg"; "2.jpg"; "3.jpg"])) k = Some batch
       ∧ batch ≡ₚ @image_processing toy_collaborators toy_trainer
                    <$> ["1.jpg"; "2.jpg"; "3.jpg"]).
Proof.
  apply (@every_pass_serves_each_file_once toy_collaborators toy_collaborators_spec
           toy_trainer ["1.jpg"; "2.jpg"; "3.jpg"]).
  discriminate.
Defined.

(** X6: a batch never holds anything but processed files of the folder:
    every image of every batch the dataset yields is [image_processing] of
    a file that [glob] listed, for any batch size and shuffle order. *)
Theorem batches_hold_only_folder_images
    `{Collaborators} `{!CollaboratorsSpec} (self : Trainer)
    (files : list string) (batch_size : Z) (k : nat) (batch : Batch) :
  dataset_of self files batch_size k = Some batch →
  Forall (λ img, ∃ file, file ∈ files ∧ img = image_processing self file) batch.
Proof. intros Hb. by apply dataset_of_batch_from_files in Hb as [_ Hb]. Qed.

Lemma batches_hold_only_folder_images_witness :
  Forall (λ img, ∃ file, file ∈ ["1.jpg"; "2.jpg"]
                         ∧ img = @image_processing toy_collaborators toy_trainer file)
         (@image_processing toy_collaborators toy_trainer
            <$> ["2.jpg"; "1.jpg"]).
Proof.
  apply (@batches_hold_only_folder_images toy_collaborators toy_collaborators_spec
           toy_trainer ["1.jpg"; "2.jpg"] 2 0%nat).
  reflexivity.
Defined.

(** ** Other ways a pretraining run can go *)

Lemma concat_replicate_singleton {A} (n : nat) (x : A) :
  concat (replicate n [x]) = replicate n x.
Proof. induction n as [|n IH]; [done|]. cbn. by rewrite IH. Qed.

Section PretrainingOutcomes.
Context `{Collaborators} `{!CollaboratorsSpec} (self : Trainer).

(** The steps before sampling return whenever the batch size is positive
    and the source folder holds a file. *)
Lemma returns_until_sampling :
  0 < batch_size self →
  source_files self ≠ [] →
  returns ('(ds, start) ← build_graph self;
           session_start self ;; restore_checkpoint self ;; mret (ds, start))
    (λ r, r.1 = dataset_of self (source_files self) (batch_size self)) [].
Proof.
  intros Hb Hfiles. change [] with (@nil event ++ [] ++ [] ++ []).
  eapply returns_bind; [by apply returns_build_graph|]. intros [ds start] Hds.
  eapply returns_bind; [by apply returns_session_start|]. intros _ _.
  eapply returns_bind; [apply returns_restore_checkpoint|]. intros _ _.
  by apply returns_ret.
Qed.

Lemma pretrain_generator_phases w :
  pretrain_generator self w
  = (r ← ('(ds, start) ← build_graph self;
          session_start self ;; restore_checkpoint self ;; mret (ds, start));
     sample_and_train self r.1 r.2) w.
Proof.
  unfold pretrain_generator, mbind, Run_bind.
  destruct (build_graph self w) as [[[ds start]|e] w1]; [|done].
  destruct (session_start self w1) as [[[]|e] w2]; [|done].
  by destruct (restore_checkpoint self w2) as [[[]|e] w3].
Qed.

(** A sample that does not fill its grid: the baseline export ends the
    run. *)
Lemma pretrain_generator_sample_overflow :
  0 < batch_size self ≤ sample_size self →
  source_files self ≠ [] →
  ¬ fits_grid (batch_size self * (sample_size self / batch_size self)) →
  ∃ e, raises (pretrain_generator self) e []
       ∧ e = subplot_error
               (rows_for (batch_size self * (sample_size self / batch_size self))) 8
               (rows_for (batch_size self * (sample_size self / batch_size self))
                * 8 + 1).
Proof.
  intros Hb Hfiles Hfit. eexists. split; [|reflexivity].
  intros w. rewrite pretrain_generator_phases. revert w.
  eapply (raises_after _ _ _ _ [] []); [apply returns_until_sampling; [lia|done]|].
  intros [ds start] Hds. cbn in Hds. subst ds. cbn [fst snd].
  assert (∀ k, is_Some (dataset_of self (source_files self) (batch_size self) k))
    as Htotal by (intros k; by apply dataset_of_total).
  unfold sample_and_train.
  eapply (raises_after _ _ _ _ [] []);
    [apply returns_draw_real_batches; [done|lia]|].
  intros real_batches [Hlen Hall].
  destruct (images_of_sample self real_batches Hb Hlen Hall) as [Hne Himages].
  apply raises_bind. unfold export_sample.
  assert (np_concatenate real_batches = Ok (concat real_batches)) as ->
    by (by destruct real_batches).
  eapply (raises_after _ _ _ _ [] []); [apply returns_lift|]. intros x <-.
  pose proof (raises_save_generated_images (np_clip (concat real_batches) 0 1)
                (Some "sample_images.png")) as Hraise.
  rewrite shape0_np_clip in Hraise.
  change (shape0 (concat real_batches)) with (images_of real_batches) in Hraise.
  rewrite Himages in Hraise. by apply Hraise.
Qed.

(** No reporting step among the steps to run: the loop completes. *)
Lemma returns_training_loop_quiet ds start real_batches :
  (∀ k, is_Some (ds k)) →
  0 < pretrain_reporting_steps self →
  pretrain_num_steps self ≤ pretrain_reporting_steps self →
  returns (training_loop self ds start real_batches) (λ _, True)
          (replicate (Z.to_nat (pretrain_num_steps self)) TrainOp).
Proof.
  intros Htotal Hr Hn. unfold training_loop, range.
  rewrite <- concat_replicate_singleton, <- (length_seqZ 0).
  apply returns_for_each. intros step Hstep. apply elem_of_seqZ in Hstep.
  apply returns_train_step_quiet; [done|].
  destruct (decide (step = 0)) as [|Hnz]; [by left|right].
  split; [lia|]. rewrite Z.mod_small; lia.
Qed.

Lemma pretrain_generator_completes :
  0 < batch_size self ≤ sample_size self →
  source_files self ≠ [] →
  fits_grid (batch_size self * (sample_size self / batch_size self)) →
  0 < pretrain_reporting_steps self →
  pretrain_num_steps self ≤ pretrain_reporting_steps self →
  returns (pretrain_generator self) (λ _, True)
    ([FigureSaved "result/sample_images.png"]
     ++ replicate (Z.to_nat (pretrain_num_steps self)) TrainOp).
Proof.
  intros Hb Hfiles Hfit Hr Hn w. rewrite pretrain_generator_phases. revert w.
  eapply (returns_bind _ _ _ _ []); [apply returns_until_sampling; [lia|done]|].
  intros [ds start] Hds. cbn in Hds. subst ds. cbn [fst snd].
  assert (∀ k, is_Some (dataset_of self (source_files self) (batch_size self) k))
    as Htotal by (intros k; by apply dataset_of_total).
  unfold sample_and_train.
  eapply (returns_bind _ _ _ _ []);
    [apply returns_draw_real_batches; [done|lia]|].
  intros real_batches [Hlen Hall].
  destruct (images_of_sample self real_batches Hb Hlen Hall) as [Hne Himages].
  rewrite <- Himages in Hfit.
  eapply (returns_bind _ _ _ _ [_]); [by apply returns_export_sample|].
  intros _ _. by apply returns_training_loop_quiet.
Qed.

(** A reporting interval of 0: step 0 is skipped by the [step and ...]
    test, step 1 divides by zero. *)
Lemma raises_training_loop_zero_interval ds start real_batches :
  (∀ k, is_Some (ds k)) →
  pretrain_reporting_steps self = 0 →
  2 ≤ pretrain_num_steps self →
  raises (training_loop self ds start real_batches) ZeroDivisionError
         [TrainOp; TrainOp].
Proof.
  intros Htotal Hr Hn. unfold training_loop, range.
  rewrite seqZ_cons by lia. cbn [for_each].
  eapply (raises_after _ _ _ _ [_] [_]).
  { apply returns_train_step_quiet; [done|by left]. }
  intros _ _. rewrite seqZ_cons by lia. cbn [for_each].
  apply raises_bind. unfold train_step.
  eapply (raises_after _ _ _ _ [_] []); [by apply returns_run_train_op|].
  intros batch_loss _.
  eapply (raises_after _ _ _ _ [] []); [apply returns_collect_loss|]. intros _ _.
  apply raises_bind. unfold is_reporting_step, py_mod.
  rewrite decide_False by done. rewrite Hr, decide_True by done.
  apply raises_bind. intros w. eexists. split; [reflexivity|]. by rewrite app_nil_r.
Qed.

Lemma pretrain_generator_zero_interval :
  0 < batch_size self ≤ sample_size self →
  source_files self ≠ [] →
  fits_grid (batch_size self * (sample_size self / batch_size self)) →
  pretrain_reporting_steps self = 0 →
  2 ≤ pretrain_num_steps self →
  raises (pretrain_generator self) ZeroDivisionError
    [FigureSaved "result/sample_images.png"; TrainOp; TrainOp].
Proof.
  intros Hb Hfiles Hfit Hr Hn w. rewrite pretrain_generator_phases. revert w.
  eapply (raises_after _ _ _ _ []); [apply returns_until_sampling; [lia|done]|].
  intros [ds start] Hds. cbn in Hds. subst ds. cbn [fst snd].
  assert (∀ k, is_Some (dataset_of self (source_files self) (batch_size self) k))
    as Htotal by (intros k; by apply dataset_of_total).
  unfold sample_and_train.
  eapply (raises_after _ _ _ _ []);
    [apply returns_draw_real_batches; [done|lia]|].
  intros real_batches [Hlen Hall].
  destruct (images_of_sample self real_batches Hb Hlen Hall) as [Hne Himages].
  rewrite <- Himages in Hfit.
  eapply (raises_after _ _ _ _ [_] [_; _]); [by apply returns_export_sample|].
  intros _ _. by apply raises_training_loop_zero_interval.
Qed.
End PretrainingOutcomes.

(** ** A missing checkpoint *)

(** C3, as the code behaves: when no checkpoint named
    [pretrain_generator_name] is present (over a folder that holds files,
    with a positive batch size), loading fails with [ValueError]; the lines
    that restore the checkpoint catch it, log that none was found and
    return normally without touching anything else, and the run goes on to
    sampling and training over the source dataset with every variable at
    its freshly initialised value.  The run as a whole then returns
    normally when its sample can be drawn and exported and none of its
    steps is a reporting step. *)
Theorem missing_checkpoint_is_not_fatal
    `{Collaborators} `{!CollaboratorsSpec} (self : Trainer) (w : World) :
  ckpts w !! (save_dir self, pretrain_generator_name self) = None →
  0 < batch_size self →
  source_files self ≠ [] →
  (∃ msg, g_load (save_dir self) (pretrain_generator_name self) w
          = (Raise (ValueError msg), w))
  ∧ restore_checkpoint self w
    = (Ok tt,
       set_logs (λ l, l ++ ["Loading previous checkpoints...";
                            pretrain_generator_name self
                            +:+ " checkpoints not found, start from scratch..."]) w)
  ∧ (∃ start w1,
       pretrain_generator self w
       = sample_and_train self
           (dataset_of self (source_files self) (batch_size self)) start w1
       ∧ vars w1 = initial_values
       ∧ last (logs w1)
         = Some (pretrain_generator_name self
                 +:+ " checkpoints not found, start from scratch...")
       ∧ trace w1 = trace w ∧ ckpts w1 = ckpts w ∧ ds_pos w1 = 0%nat)
  ∧ (batch_size self ≤ sample_size self →
     fits_grid (batch_size self * (sample_size self / batch_size self)) →
     0 < pretrain_reporting_steps self →
     pretrain_num_steps self ≤ pretrain_reporting_steps self →
     ∃ w', pretrain_generator self w = (Ok tt, w')
           ∧ trace w' = trace w ++
               [FigureSaved "result/sample_images.png"]
               ++ replicate (Z.to_nat (pretrain_num_steps self)) TrainOp).
Proof.
  intros Hmissing Hb Hfiles. split; [|split; [|split]].
  - unfold g_load. rewrite Hmissing. by eexists.
  - unfold restore_checkpoint, try_except_ValueError, g_load, logger_info,
      modify, mbind, Run_bind.
    cbn [ckpts set_logs]. rewrite Hmissing.
    unfold set_logs. cbn. by rewrite <- app_assoc.
  - pose proof Hfiles as Hsome. unfold source_files in Hsome.
    unfold pretrain_generator, build_graph, get_dataset, session_start,
      initializer_run, restore_checkpoint, try_except_ValueError, g_load,
      logger_info, modify, get, mbind, Run_bind, mret, Run_ret.
    rewrite (decide_False (P := dataset_files _ _ _ = [])) by done.
    rewrite decide_False by lia.
    destruct (pass_vgg self);
      cbn [ckpts set_logs set_vars set_ds_pos]; rewrite Hmissing;
      eexists _, _; (split; [reflexivity|]); cbn;
      (split; [reflexivity|]); by rewrite last_snoc.
  - intros Hs Hfit Hr Hn.
    destruct (pretrain_generator_completes self ltac:(lia) Hfiles Hfit Hr Hn w)
      as ([] & w' & Hrun & _ & Htr & _).
    by exists w'.
Qed.

Lemma missing_checkpoint_is_not_fatal_witness :
  (∃ msg, @g_load toy_collaborators "ckpts" "pretrain_generator" world0
          = (Raise (ValueError msg), world0))
  ∧ @restore_checkpoint toy_collaborators (toy_config 2 4 3 3) world0
    = (Ok tt,
       set_logs (λ l, l ++ ["Loading previous checkpoints...";
                            "pretrain_generator"
                            +:+ " checkpoints not found, start from scratch..."]) world0)
  ∧ (∃ start w1,
       @pretrain_generator toy_collaborators (toy_config 2 4 3 3) world0
       = @sample_and_train toy_collaborators (toy_config 2 4 3 3)
           (@dataset_of toy_collaborators (toy_config 2 4 3 3)
              (@source_files toy_collaborators (toy_config 2 4 3 3)) 2) start w1
       ∧ vars w1 = @initial_values toy_collaborators
       ∧ last (logs w1)
         = Some ("pretrain_generator"
                 +:+ " checkpoints not found, start from scratch...")
       ∧ trace w1 = trace world0 ∧ ckpts w1 = ckpts world0 ∧ ds_pos w1 = 0%nat)
  ∧ (2 ≤ 4 →
     fits_grid (2 * (4 / 2)) →
     0 < 3 →
     3 ≤ 3 →
     ∃ w', @pretrain_generator toy_collaborators (toy_config 2 4 3 3) world0
           = (Ok tt, w')
           ∧ trace w' = trace world0 ++
               [FigureSaved "result/sample_images.png"]
               ++ replicate (Z.to_nat 3) TrainOp).
Proof.
  apply (@missing_checkpoint_is_not_fatal toy_collaborators toy_collaborators_spec
           (toy_config 2 4 3 3) world0).
  - reflexivity.
  - cbn. lia.
  - discriminate.
Defined.

(** C3, as it is stated, fails: a run over the four toy images with no
    checkpoint present, whose sample size 1 is below its batch size 2,
    catches the failed load and then raises [ValueError] from
    [np.concatenate] out of [pretrain_generator]. *)
Lemma missing_checkpoint_run_can_raise :
  ckpts world0 !! ("ckpts", "pretrain_generator") = None
  ∧ (@restore_checkpoint toy_collaborators (toy_config 2 1 4 2) world0).1 = Ok tt
  ∧ (@pretrain_generator toy_collaborators (toy_config 2 1 4 2) world0).1
    = Raise (ValueError "need at least one array to concatenate").
Proof. split; [reflexivity|]. split; vm_compute; reflexivity. Qed.


Lemma toy_empty_collaborators_spec : @CollaboratorsSpec toy_empty_collaborators.
Proof.
  split.
  - apply (@decode_jpeg_shape _ toy_collaborators_spec).
  - apply (@resize_images_shape _ toy_collaborators_spec).
  - apply (@resize_images_range _ toy_collaborators_spec).
  - apply (@shuffle_perm _ toy_collaborators_spec).
  - apply (@generator_batch _ toy_collaborators_spec).
Qed.

(** X7: over a source folder without files [get_dataset] logs that 0
    images are available and then raises [TypeError] while it builds the
    pipeline (the empty list of files is a float32 tensor, which
    [tf.read_file] rejects).  The exception leaves [pretrain_generator]
    before the session starts: no variable is initialised, no batch
    fetched, nothing trained, exported or saved. *)
Theorem pretrain_on_empty_folder_stops_while_building
    `{Collaborators} (self : Trainer) (w : World) :
  source_files self = [] →
  (∃ msg,
     get_dataset self (dataset_name self) (source_domain self) "train"
                 (batch_size self) w
     = (Raise (TypeError msg),
        set_logs (λ l, l ++ ["0 domain" +:+ source_domain self
                             +:+ " images available in train"
                             +:+ source_domain self +:+ " folder."]) w))
  ∧ ∃ msg w', pretrain_generator self w = (Raise (TypeError msg), w')
              ∧ last (logs w')
                = Some ("0 domain" +:+ source_domain self
                        +:+ " images available in train"
                        +:+ source_domain self +:+ " folder.")
              ∧ trace w' = trace w ∧ vars w' = vars w ∧ ds_pos w' = ds_pos w
              ∧ text_files w' = text_files w ∧ ckpts w' = ckpts w
              ∧ image_files w' = image_files w ∧ figs w' = figs w
              ∧ dirs w' = dirs w.
Proof.
  intros Hfiles. pose proof Hfiles as Hnone. unfold source_files in Hnone.
  assert (dataset_log (dataset_name self) (source_domain self) "train"
          = "0 domain" +:+ source_domain self +:+ " images available in train"
            +:+ source_domain self +:+ " folder.") as Hlog
    by (unfold dataset_log; by rewrite Hnone).
  split.
  - eexists. rewrite get_dataset_empty by done. by rewrite Hlog.
  - unfold pretrain_generator, build_graph, logger_info, modify, mbind, Run_bind.
    rewrite get_dataset_empty by done. rewrite Hlog.
    eexists _, _. split; [reflexivity|]. cbn. by rewrite last_snoc.
Qed.

Lemma pretrain_on_empty_folder_stops_while_building_witness :
  (∃ msg,
     @get_dataset toy_empty_collaborators toy_trainer "toy" "A" "train" 2 world0
     = (Raise (TypeError msg),
        set_logs (λ l, l ++ ["0 domain" +:+ "A" +:+ " images available in train"
                             +:+ "A" +:+ " folder."]) world0))
  ∧ ∃ msg w', @pretrain_generator toy_empty_collaborators toy_trainer world0
              = (Raise (TypeError msg), w')
              ∧ last (logs w')
                = Some ("0 domain" +:+ "A" +:+ " images available in train"
                        +:+ "A" +:+ " folder.")
              ∧ trace w' = trace world0 ∧ vars w' = vars world0
              ∧ ds_pos w' = ds_pos world0
              ∧ text_files w' = text_files world0 ∧ ckpts w' = ckpts world0
              ∧ image_files w' = image_files world0 ∧ figs w' = figs world0
              ∧ dirs w' = dirs world0.
Proof.
  apply (@pretrain_on_empty_folder_stops_while_building toy_empty_collaborators
           toy_trainer world0).
  reflexivity.
Defined.

(** X8: for any number of steps [n] and reporting interval [r] with
    [0 < r < n], a pretraining run that reaches its loop trains at steps 0
    to [r], saves the generator and exports the generated grid once, at
    step [r], and ends there with [KeyError] on the report's message:
    steps [r + 1] to [n - 1] never run and no text file is written. *)
Theorem pretrain_stops_at_first_report
    `{Collaborators} `{!CollaboratorsSpec} (self : Trainer) (w : World) :
  0 < batch_size self ≤ sample_size self →
  source_files self ≠ [] →
  fits_grid (batch_size self * (sample_size self / batch_size self)) →
  0 < pretrain_reporting_steps self < pretrain_num_steps self →
  ∃ w', pretrain_generator self w = (Raise (KeyError "step"), w')
        ∧ trace w' = trace w ++
            [FigureSaved "result/sample_images.png"]
            ++ replicate (Z.to_nat (pretrain_reporting_steps self)) TrainOp
            ++ [TrainOp;
                CheckpointSaved (save_dir self) (pretrain_generator_name self);
                FigureSaved ("result/generated_images_at_step_"
                             +:+ pretty (pretrain_reporting_steps self) +:+ ".png")]
        ∧ text_files w' = text_files w.
Proof.
  intros Hb Hfiles Hfit Hr.
  exact (pretrain_generator_first_report self Hb Hfiles Hfit Hr w).
Qed.

Lemma pretrain_stops_at_first_report_witness :
  ∃ w', @pretrain_generator toy_collaborators (toy_config 1 32 60000 100) world0
        = (Raise (KeyError "step"), w')
        ∧ trace w' = trace world0 ++
            [FigureSaved "result/sample_images.png"]
            ++ replicate (Z.to_nat 100) TrainOp
            ++ [TrainOp; CheckpointSaved "ckpts" "pretrain_generator";
                FigureSaved ("result/generated_images_at_step_"
                             +:+ pretty 100 +:+ ".png")]
        ∧ text_files w' = text_files world0.
Proof.
  apply (@pretrain_stops_at_first_report toy_collaborators toy_collaborators_spec
           (toy_config 1 32 60000 100) world0).
  - cbn. lia.
  - discriminate.
  - right. reflexivity.
  - cbn. lia.
Defined.

(** X9: when the number of steps does not exceed a positive reporting
    interval, a pretraining run that reaches its loop completes normally:
    after the baseline export the training op runs once per step, and no
    checkpoint is saved, no generated grid exported and no text file
    written - the trained generator is not persisted. *)
Theorem pretrain_without_report_saves_nothing
    `{Collaborators} `{!CollaboratorsSpec} (self : Trainer) (w : World) :
  0 < batch_size self ≤ sample_size self →
  source_files self ≠ [] →
  fits_grid (batch_size self * (sample_size self / batch_size self)) →
  0 < pretrain_reporting_steps self →
  pretrain_num_steps self ≤ pretrain_reporting_steps self →
  ∃ w', pretrain_generator self w = (Ok tt, w')
        ∧ trace w' = trace w ++
            [FigureSaved "result/sample_images.png"]
            ++ replicate (Z.to_nat (pretrain_num_steps self)) TrainOp
        ∧ text_files w' = text_files w.
Proof.
  intros Hb Hfiles Hfit Hr Hn.
  destruct (pretrain_generator_completes self Hb Hfiles Hfit Hr Hn w)
    as ([] & w' & Hrun & _ & Htr & Htxt).
  by exists w'.
Qed.

Lemma pretrain_without_report_saves_nothing_witness :
  ∃ w', @pretrain_generator toy_collaborators (toy_config 2 4 3 3) world0
        = (Ok tt, w')
        ∧ trace w' = trace world0 ++
            [FigureSaved "result/sample_images.png"]
            ++ replicate (Z.to_nat 3) TrainOp
        ∧ text_files w' = text_files world0.
Proof.
  apply (@pretrain_without_report_saves_nothing toy_collaborators
           toy_collaborators_spec (toy_config 2 4 3 3) world0).
  - cbn. lia.
  - discriminate.
  - left. vm_compute. discriminate.
  - cbn. lia.
  - cbn. lia.
Defined.

(** X10: with a reporting interval of 0 and at least two steps, step 0
    passes (the test [step and ...] does not evaluate the remainder), and
    step 1 raises [ZeroDivisionError] after its training op: two training
    ops ran, nothing was saved. *)
Theorem pretrain_with_zero_interval_divides_by_zero
    `{Collaborators} `{!CollaboratorsSpec} (self : Trainer) (w : World) :
  0 < batch_size self ≤ sample_size self →
  source_files self ≠ [] →
  fits_grid (batch_size self * (sample_size self / batch_size self)) →
  pretrain_reporting_steps self = 0 →
  2 ≤ pretrain_num_steps self →
  ∃ w', pretrain_generator self w = (Raise ZeroDivisionError, w')
        ∧ trace w' = trace w ++
            [FigureSaved "result/sample_images.png"; TrainOp; TrainOp]
        ∧ text_files w' = text_files w.
Proof.
  intros Hb Hfiles Hfit Hr Hn.
  exact (pretrain_generator_zero_interval self Hb Hfiles Hfit Hr Hn w).
Qed.

Lemma pretrain_with_zero_interval_divides_by_zero_witness :
  ∃ w', @pretrain_generator toy_collaborators (toy_config 2 4 5 0) world0
        = (Raise ZeroDivisionError, w')
        ∧ trace w' = trace world0 ++
            [FigureSaved "result/sample_images.png"; TrainOp; TrainOp]
        ∧ text_files w' = text_files world0.
Proof.
  apply (@pretrain_with_zero_interval_divides_by_zero toy_collaborators
           toy_collaborators_spec (toy_config 2 4 5 0) world0).
  - cbn. lia.
  - discriminate.
  - left. vm_compute. discriminate.
  - reflexivity.
  - cbn. lia.
Defined.

(** X11: when the sample, [batch_size * floor(sample_size / batch_size)]
    images, is more than 8 and not a multiple of 8, the baseline export
    raises [ValueError] out of [pretrain_generator] before the loop: no
    training op runs, nothing is saved or exported. *)
Theorem pretrain_sample_must_fill_grid
    `{Collaborators} `{!CollaboratorsSpec} (self : Trainer) (w : World) :
  0 < batch_size self ≤ sample_size self →
  source_files self ≠ [] →
  ¬ fits_grid (batch_size self * (sample_size self / batch_size self)) →
  ∃ msg w', pretrain_generator self w = (Raise (ValueError msg), w')
            ∧ trace w' = trace w ∧ text_files w' = text_files w.
Proof.
  intros Hb Hfiles Hfit.
  destruct (pretrain_generator_sample_overflow self Hb Hfiles Hfit)
    as (e & Hraise & ->).
  destruct (Hraise w) as (w' & Hrun & Htr & Htxt).
  eexists _, w'. split; [exact Hrun|]. by rewrite app_nil_r in Htr.
Qed.

Lemma pretrain_sample_must_fill_grid_witness :
  ∃ msg w', @pretrain_generator toy_collaborators (toy_config 3 10 4 2) world0
            = (Raise (ValueError msg), w')
            ∧ trace w' = trace world0 ∧ text_files w' = text_files world0.
Proof.
  apply (@pretrain_sample_must_fill_grid toy_collaborators toy_collaborators_spec
           (toy_config 3 10 4 2) world0).
  - cbn. lia.
  - discriminate.
  - vm_compute. intros [Hle|Hmod]; [by apply Hle|discriminate].
Defined.


(** ** What no pretraining run does *)

Lemma preserves_ret {A X} (f : World → X) (a : A) : preserves f (mret a).
Proof. by intros w. Qed.

Lemma preserves_bind {A B X} (f : World → X) (m : Run A) (k : A → Run B) :
  preserves f m → (∀ a, preserves f (k a)) → preserves f (m ≫= k).
Proof.
  intros Hm Hk w. specialize (Hm w). unfold mbind, Run_bind.
  destruct (m w) as [[a|e] w1]; cbn in *; [|done]. by rewrite Hk.
Qed.

Lemma preserves_for_each {A X} (f : World → X) (xs : list A) (body : A → Run unit) :
  (∀ x, preserves f (body x)) → preserves f (for_each xs body).
Proof.
  intros Hbody. induction xs as [|x xs IH]; [by apply preserves_ret|].
  cbn [for_each]. by apply preserves_bind.
Qed.

Lemma preserves_mapM {A B X} (f : World → X) (g : A → Run B) (xs : list A) :
  (∀ x, preserves f (g x)) → preserves f (mapM g xs).
Proof.
  intros Hg. induction xs as [|x xs IH]; [by apply preserves_ret|].
  cbn [mapM]. apply preserves_bind; [done|]. intros y.
  apply preserves_bind; [done|]. intros ys. apply preserves_ret.
Qed.

Lemma preserves_try_except {A X} (f : World → X) (body handler : Run A) :
  preserves f body → preserves f handler →
  preserves f (try_except_ValueError body handler).
Proof.
  intros Hb Hh w. specialize (Hb w). unfold try_except_ValueError.
  destruct (body w) as [[a|[]] w1]; cbn in *; try done. by rewrite Hh.
Qed.

Lemma checkpoint_saves_other (e : event) (w : World) :
  is_checkpoint_save e = false →
  checkpoint_saves (set_trace (λ tr, tr ++ [e]) w) = checkpoint_saves w.
Proof.
  intros He. unfold checkpoint_saves, set_trace. world_fields.
  rewrite filter_app, filter_cons_False by (by rewrite He).
  by rewrite filter_nil, app_nil_r.
Qed.

Lemma checkpoint_saves_save dir name (w : World) :
  checkpoint_saves (set_trace (λ tr, tr ++ [CheckpointSaved dir name]) w)
  = S (checkpoint_saves w).
Proof.
  unfold checkpoint_saves, set_trace. world_fields.
  rewrite filter_app, filter_cons_True by done.
  rewrite filter_nil, length_app. cbn. lia.
Qed.

Lemma preserves_save_generated_images (x : Batch) (name : option string) :
  preserves footprint (save_generated_images x name).
Proof.
  intros w. unfold save_generated_images, footprint.
  destruct (decide (fits_grid (shape0 x))) as [Hfit|Hno].
  - rewrite save_generated_images_fits by done. unfold after_export.
    destruct name as [name|]; [|done]. cbn [snd].
    rewrite checkpoint_saves_other by done. world_fields.
    by case_bool_decide.
  - by rewrite save_generated_images_overflow.
Qed.

Section NeverFacts.
Context `{Collaborators} (self : Trainer).

Lemma preserves_logger_info msg : preserves footprint (logger_info msg).
Proof. by intros w. Qed.

Lemma preserves_next_batch ds : preserves footprint (next_batch ds).
Proof. intros w. unfold next_batch. by destruct (ds (ds_pos w)). Qed.

Lemma preserves_build_graph : preserves footprint (build_graph self).
Proof.
  intros w. unfold build_graph, get_dataset.
  by destruct (decide (dataset_files _ _ _ = [])), (pass_vgg self).
Qed.

Lemma preserves_session_start : preserves footprint (session_start self).
Proof.
  intros w. unfold session_start, initializer_run.
  by destruct (decide (batch_size self ≤ 0)).
Qed.

Lemma preserves_restore_checkpoint : preserves footprint (restore_checkpoint self).
Proof.
  unfold restore_checkpoint.
  apply preserves_bind; [apply preserves_logger_info|]. intros _.
  apply preserves_try_except; [|apply preserves_logger_info].
  apply preserves_bind; [|intros; apply preserves_logger_info].
  intros w. unfold g_load.
  by destruct (ckpts w !! (save_dir self, pretrain_generator_name self)).
Qed.

Lemma preserves_draw_real_batches ds :
  preserves footprint (draw_real_batches self ds).
Proof.
  unfold draw_real_batches.
  apply preserves_bind; [apply preserves_logger_info|]. intros _.
  apply preserves_bind.
  - intros w. unfold py_int_truediv. by case_decide.
  - intros n. apply preserves_mapM. intros _. apply preserves_next_batch.
Qed.

Lemma preserves_export_sample real_batches :
  preserves footprint (export_sample real_batches).
Proof.
  unfold export_sample. apply preserves_bind; [by intros w|].
  intros x. apply preserves_save_generated_images.
Qed.

Lemma preserves_run_train_op ds : preserves footprint (run_train_op self ds).
Proof.
  unfold run_train_op. apply preserves_bind; [apply preserves_next_batch|].
  intros input_images. apply preserves_bind; [by intros w|]. intros vs.
  apply preserves_bind; [|intros; apply preserves_ret].
  intros w. unfold minimize, modify, footprint. cbn [snd].
  by rewrite checkpoint_saves_other.
Qed.

Lemma preserves_is_reporting_step step :
  preserves footprint (is_reporting_step self step).
Proof.
  intros w. unfold is_reporting_step, py_mod. by repeat case_decide.
Qed.

(** After the checkpoint was saved, the rest of a report changes nothing
    of the footprint and ends in an exception: the message cannot be
    formatted, so the record for the loss log is never reached. *)
Lemma report_tail_preserves (x : Batch) start step batch_loss :
  preserves footprint
    (save_generated_images (np_clip x 0 1)
       (Some ("generated_images_at_step_" +:+ pretty step +:+ ".png")) ;;
     now ← get utcnow;
     msg ← lift (str_format format_value
              "[Step {step}] batch_loss: {:.3f}, {} elapsed"
              [PyFloat batch_loss; PyTimedelta (now - start)] []);
     logger_info msg ;;
     write_loss_record step batch_loss).
Proof.
  apply preserves_bind; [apply preserves_save_generated_images|]. intros _.
  apply preserves_bind; [by intros w|]. intros now.
  rewrite report_message_fails. by intros w.
Qed.

Lemma report_tail_raises (x : Batch) start step batch_loss :
  always_raises
    (save_generated_images (np_clip x 0 1)
       (Some ("generated_images_at_step_" +:+ pretty step +:+ ".png")) ;;
     now ← get utcnow;
     msg ← lift (str_format format_value
              "[Step {step}] batch_loss: {:.3f}, {} elapsed"
              [PyFloat batch_loss; PyTimedelta (now - start)] []);
     logger_info msg ;;
     write_loss_record step batch_loss).
Proof.
  intros w. unfold mbind at 1, Run_bind.
  destruct (save_generated_images _ _ w) as [[[]|e] w1]; [|by eexists].
  unfold mbind at 1, Run_bind, get. rewrite report_message_fails. by eexists.
Qed.

Lemma mapM_get_run {A B} (f : A → World → B) (xs : list A) w :
  mapM (λ x, get (f x)) xs w = (Ok ((λ x, f x w) <$> xs), w).
Proof.
  induction xs as [|x xs IH]; [done|]. cbn [mapM].
  unfold mbind at 1, Run_bind, get at 1.
  by erewrite bind_ok by exact IH.
Qed.

Lemma report_saves_once_then_fails start real_batches step batch_loss :
  saves_once_then_fails (report self start real_batches step batch_loss).
Proof.
  intros w. right. unfold report.
  erewrite bind_ok by apply mapM_get_run.
  erewrite bind_ok by reflexivity.
  set (w1 := set_trace _ _).
  assert (text_files w1 = text_files w) as Htxt by done.
  assert (checkpoint_saves w1 = S (checkpoint_saves w)) as Hsaves.
  { unfold w1. rewrite checkpoint_saves_save. done. }
  destruct (np_concatenate _) as [x|e].
  2:{ erewrite bind_raise by reflexivity. by eauto. }
  erewrite bind_ok by reflexivity.
  pose proof (report_tail_preserves x start step batch_loss w1) as Hp.
  pose proof (report_tail_raises x start step batch_loss w1) as Hr.
  unfold footprint in Hp. injection Hp as Ht Hs _.
  split; [done|]. split; congruence.
Qed.

Lemma saves_once_of_preserves {A} (m : Run A) :
  preserves footprint m → saves_once_then_fails m.
Proof. intros Hm w. left. apply Hm. Qed.

Lemma saves_once_bind {A B} (m : Run A) (k : A → Run B) :
  preserves footprint m → (∀ a, saves_once_then_fails (k a)) →
  saves_once_then_fails (m ≫= k).
Proof.
  intros Hm Hk w. specialize (Hm w). unfold mbind, Run_bind.
  destruct (m w) as [[a|e] w1]; cbn in *; [|by left].
  destruct (Hk a w1) as [Hsame|(Hr & Ht & Hs)].
  - left. congruence.
  - right. unfold footprint in Hm. injection Hm as Ht1 Hs1 _.
    split; [done|]. split; congruence.
Qed.

Lemma saves_once_for_each {A} (xs : list A) (body : A → Run unit) :
  (∀ x, saves_once_then_fails (body x)) →
  saves_once_then_fails (for_each xs body).
Proof.
  intros Hbody. induction xs as [|x xs IH]; [by left|].
  cbn [for_each]. intros w. unfold mbind, Run_bind.
  destruct (Hbody x w) as [Hsame|([e He] & Ht & Hs)];
    destruct (body x w) as [[[]|e'] w1]; cbn in *; try discriminate.
  - destruct (IH w1) as [Hsame2|(Hr & Ht & Hs)].
    + left. congruence.
    + right. unfold footprint in Hsame. injection Hsame as Ht1 Hs1 _.
      split; [done|]. split; congruence.
  - by left.
  - right. eauto.
Qed.

Lemma train_step_saves_once ds start real_batches step :
  saves_once_then_fails (train_step self ds start real_batches step).
Proof.
  unfold train_step. apply saves_once_bind; [apply preserves_run_train_op|].
  intros batch_loss. apply saves_once_bind; [by intros w|]. intros _.
  apply saves_once_bind; [apply preserves_is_reporting_step|].
  intros [|]; [apply report_saves_once_then_fails|].
  apply saves_once_of_preserves, preserves_ret.
Qed.

Lemma pretrain_generator_saves_once :
  saves_once_then_fails (pretrain_generator self).
Proof.
  unfold pretrain_generator.
  apply saves_once_bind; [apply preserves_build_graph|]. intros [ds start].
  apply saves_once_bind; [apply preserves_session_start|]. intros _.
  apply saves_once_bind; [apply preserves_restore_checkpoint|]. intros _.
  unfold sample_and_train.
  apply saves_once_bind; [apply preserves_draw_real_batches|]. intros real_batches.
  apply saves_once_bind; [apply preserves_export_sample|]. intros _.
  unfold training_loop. apply saves_once_for_each. intros step.
  apply train_step_saves_once.
Qed.
End NeverFacts.

(** X12: whatever the configuration, the collaborators and the world it
    starts from, a run of [pretrain_generator] never writes a text file (the
    loss log included), and it saves the generator at most once; a run that
    saved ended with an exception, and a run that returns normally left the
    checkpoint store exactly as it found it. *)
Theorem pretrain_never_logs_losses_and_saves_at_most_once
    `{Collaborators} (self : Trainer) (w : World) :
  text_files (pretrain_generator self w).2 = text_files w
  ∧ (checkpoint_saves (pretrain_generator self w).2 = checkpoint_saves w
     ∨ checkpoint_saves (pretrain_generator self w).2 = S (checkpoint_saves w)
       ∧ ∃ e, (pretrain_generator self w).1 = Raise e)
  ∧ ((pretrain_generator self w).1 = Ok tt →
     ckpts (pretrain_generator self w).2 = ckpts w
     ∧ checkpoint_saves (pretrain_generator self w).2 = checkpoint_saves w).
Proof.
  destruct (pretrain_generator_saves_once self w) as [Hsame|(Hr & Ht & Hs)].
  - unfold footprint in Hsame. injection Hsame as Ht Hs Hc. auto.
  - split; [done|]. split; [by right|].
    intros Hok. destruct Hr as [e He]. congruence.
Qed.


Lemma pretrain_never_logs_losses_and_saves_at_most_once_witness :
  ckpts (@pretrain_generator toy_collaborators (toy_config 2 4 3 3) world0).2
  = ckpts world0
  ∧ checkpoint_saves
      (@pretrain_generator toy_collaborators (toy_config 2 4 3 3) world0).2
    = checkpoint_saves world0.
Proof.
  apply (proj2 (proj2 (@pretrain_never_logs_losses_and_saves_at_most_once
                         toy_collaborators (toy_config 2 4 3 3) world0))).
  vm_compute. reflexivity.
Defined.

(** ** The content loss of pretraining *)

Lemma reduce_sum_abs_nonneg (l : list Q) : (0 <= reduce_sum (tf_abs l))%Q.
Proof.
  induction l as [|x l IH]; [done|].
  unfold tf_abs in *. rewrite fmap_cons. cbn [reduce_sum foldr].
  pose proof (Qabs_nonneg x). fold (reduce_sum (Qabs <$> l)). Lqa.lra.
Qed.

Lemma reduce_mean_abs_nonneg (l : list Q) : (0 <= reduce_mean (tf_abs l))%Q.
Proof.
  unfold reduce_mean, Qdiv. apply Qmult_le_0_compat.
  - apply reduce_sum_abs_nonneg.
  - apply Qinv_le_0_compat. change 0%Q with (inject_Z 0).
    rewrite <- Zle_Qle. lia.
Qed.

Lemma reduce_sum_abs_sub_self (l : list Q) :
  (reduce_sum (tf_abs (tf_sub l l)) == 0)%Q.
Proof.
  induction l as [|x l IH]; [done|].
  unfold tf_abs, tf_sub in *. cbn [zip_with]. rewrite fmap_cons.
  cbn [reduce_sum foldr]. fold (reduce_sum (Qabs <$> zip_with Qminus l l)).
  rewrite IH. assert (x - x == 0)%Q as -> by Lqa.lra. done.
Qed.

Lemma reduce_mean_abs_sub_self (l : list Q) :
  (reduce_mean (tf_abs (tf_sub l l)) == 0)%Q.
Proof.
  unfold reduce_mean, Qdiv. rewrite reduce_sum_abs_sub_self. Lqa.lra.
Qed.

(** X13: the content loss of pretraining, through the feature extractor
    or on raw pixels, is never negative, and it is 0 on a batch the
    generator returns unchanged. *)
Theorem content_loss_nonnegative_and_zero_on_identity
    `{Collaborators} (self : Trainer) (vs : Store) (input_images : Batch) :
  (0 <= content_loss self vs input_images)%Q
  ∧ (generator vs input_images = input_images →
     (content_loss self vs input_images == 0)%Q).
Proof.
  unfold content_loss. split.
  - destruct (pass_vgg self); apply reduce_mean_abs_nonneg.
  - intros ->. destruct (pass_vgg self); apply reduce_mean_abs_sub_self.
Qed.

Lemma content_loss_nonnegative_and_zero_on_identity_witness :
  (@content_loss toy_collaborators toy_trainer ∅ (grey_batch 2) == 0)%Q.
Proof.
  apply (proj2 (@content_loss_nonnegative_and_zero_on_identity
                  toy_collaborators toy_trainer ∅ (grey_batch 2))).
  vm_compute. reflexivity.
Defined.

(** ** Construction and entry point *)

(** X14: a trainer cannot be constructed without a logger: the fallback
    hands [logging.info], a function, to [setLevel], which raises
    [TypeError] before either warning is logged.  With a logger,
    construction changes nothing, keeps the configuration and wraps progress
    with [tqdm] only when asked to and when the import succeeded.  So [main]
    without a logger raises before pretraining starts, and with one it is
    the pretraining run. *)
Theorem trainer_needs_a_logger
    `{Collaborators} (rt : Runtime) (cfg : Trainer) (show_progress : bool)
    (w : World) :
  Trainer_init rt cfg show_progress None w
  = (Raise (TypeError "Level not an integer or a valid string"), w)
  ∧ main rt cfg show_progress None w
    = (Raise (TypeError "Level not an integer or a valid string"), w)
  ∧ (∀ l, ∃ t, Trainer_init rt cfg show_progress (Some l) w = (Ok t, w)
               ∧ config t = cfg ∧ logger t = l
               ∧ (tqdm t = TqdmBar ↔ show_progress = true ∧ __no_tqdm__ rt = false)
               ∧ main rt cfg show_progress (Some l) w = pretrain_generator cfg w).
Proof.
  split; [done|]. split; [done|]. intros l. eexists. split; [reflexivity|].
  cbn. split; [done|]. split; [done|]. split; [|done].
  destruct show_progress, (__no_tqdm__ rt); cbn; intuition discriminate.
Qed.

(** ** Adversarial training *)

Lemma returns_for_fold {A S} (xs : list A) (body : A → S → Run S)
    (next : S → S) (tr : A → list event) (s : S) :
  (∀ x s, x ∈ xs → returns (body x s) (eq (next s)) (tr x)) →
  returns (for_fold xs body s) (eq (Nat.iter (length xs) next s))
          (concat (tr <$> xs)).
Proof.
  revert s. induction xs as [|x xs IH]; intros s Hbody.
  - by apply returns_ret.
  - cbn [for_fold length fmap list_fmap concat].
    eapply returns_bind; [apply Hbody; left|]. intros s' <-.
    rewrite Nat.iter_succ_r. apply IH. intros y s' Hy. apply Hbody. by right.
Qed.

Lemma returns_fetch_at (ds : nat → option Batch) (pos : nat) :
  is_Some (ds pos) → returns (lift (fetch_at ds pos)) (λ _, True) [].
Proof.
  intros [b Hb]. unfold fetch_at. rewrite Hb.
  eapply returns_weaken; [apply returns_lift|done].
Qed.

Section AdversarialFacts.
Context `{GanCollaborators} `{!CollaboratorsSpec} (self : Trainer).

Lemma returns_run_d_train_op ds_a ds_b ds_b_smooth (pos : nat * nat) :
  (∀ k, is_Some (ds_a k)) → (∀ k, is_Some (ds_b k)) →
  (∀ k, is_Some (ds_b_smooth k)) →
  returns (run_d_train_op ds_a ds_b ds_b_smooth pos)
          (λ r, r.2 = (S pos.1, S pos.2)) [TrainOp].
Proof.
  intros Ha Hb Hs. unfold run_d_train_op.
  change [TrainOp] with ([] ++ [] ++ [] ++ [] ++ [TrainOp] ++ []).
  eapply returns_bind; [by apply returns_next_batch|]. intros input_a _.
  eapply returns_bind; [by apply returns_fetch_at|]. intros input_b _.
  eapply returns_bind; [by apply returns_fetch_at|]. intros input_b_smooth _.
  eapply returns_bind; [apply returns_get|]. intros vs _.
  eapply returns_bind; [apply returns_minimize|]. intros _ _.
  by apply returns_ret.
Qed.

Lemma returns_run_g_train_op ds_a :
  (∀ k, is_Some (ds_a k)) →
  returns (run_g_train_op ds_a) (λ _, True) [TrainOp].
Proof.
  intros Ha. unfold run_g_train_op.
  change [TrainOp] with ([] ++ [] ++ [TrainOp] ++ []).
  eapply returns_bind; [by apply returns_next_batch|]. intros input_a _.
  eapply returns_bind; [apply returns_get|]. intros vs _.
  eapply returns_bind; [apply returns_minimize|]. intros _ _.
  by apply returns_ret.
Qed.

(** The message of a report in the adversarial phase has six fields and
    is given six values. *)
Lemma gan_report_message step d g c a elapsed :
  ∃ msg, str_format format_value
           "Finish step {} with d_batch_loss: {:.2f}, g_batch_loss: {:.2f}, g_content_loss: {:.2f}, g_adv_loss: {:.2f}, time elapsed: {}"
           [PyInt step; PyFloat d; PyFloat g; PyFloat c; PyFloat a;
            PyTimedelta elapsed] [] = Ok msg.
Proof. eexists. vm_compute. reflexivity. Qed.

Lemma returns_gan_report start (real_batches : list Batch) step d g c a :
  real_batches ≠ [] → fits_grid (images_of real_batches) →
  returns (gan_report self start real_batches step d g c a) (λ _, True)
    [CheckpointSaved (save_dir self) "generater_adv_training";
     FigureSaved ("result/gan_images_at_step_" +:+ pretty step +:+ ".png")].
Proof.
  intros Hne Hfit. unfold gan_report.
  eapply (returns_bind _ _ _ _ []); [apply returns_fake_batches|].
  intros fake_batches Hlen.
  eapply (returns_bind _ _ _ _ [_] [_]); [apply returns_g_save|]. intros _ _.
  assert (np_concatenate fake_batches = Ok (concat fake_batches)) as ->.
  { destruct fake_batches; [by destruct real_batches|done]. }
  eapply (returns_bind _ _ _ _ []); [apply returns_lift|]. intros x <-.
  eapply (returns_bind _ _ _ _ [_] []).
  { apply returns_save_generated_images. rewrite shape0_np_clip.
    unfold shape0. by rewrite (length_concat_same _ real_batches). }
  intros _ _.
  eapply (returns_bind _ _ _ _ [] []); [apply returns_get|]. intros now _.
  destruct (gan_report_message step d g c a (now - start)%Q) as [msg ->].
  eapply (returns_bind _ _ _ _ [] []); [apply returns_lift|]. intros ? <-.
  apply returns_logger_info.
Qed.

Lemma returns_gan_step ds_a ds_b ds_b_smooth start real_batches r step pos :
  (∀ k, is_Some (ds_a k)) → (∀ k, is_Some (ds_b k)) →
  (∀ k, is_Some (ds_b_smooth k)) →
  real_batches ≠ [] → fits_grid (images_of real_batches) →
  r ≠ 0 →
  returns (gan_step self ds_a ds_b ds_b_smooth start real_batches r step pos)
          (eq (S pos.1, S pos.2))
          (gan_step_trace (save_dir self) r step).
Proof.
  intros Ha Hb Hs Hne Hfit Hr. unfold gan_step, gan_step_trace.
  change [TrainOp; TrainOp] with ([TrainOp] ++ [TrainOp]).
  rewrite <- app_assoc.
  eapply returns_bind; [by apply returns_run_d_train_op|].
  intros [d_batch_loss pos'] Hpos. cbn in Hpos. subst pos'.
  eapply returns_bind; [by apply returns_run_g_train_op|].
  intros [[g_batch_loss g_content_loss] g_adv_loss] _.
  destruct (decide (step = 0)) as [->|Hstep].
  - rewrite bool_decide_false by lia.
    change [] with (@nil event ++ [] ++ []).
    eapply (returns_bind _ _ (eq false)); [by apply returns_ret|].
    intros reporting <-.
    eapply (returns_bind _ _ (λ _, True)); [by apply returns_ret|]. intros _ _.
    by apply returns_ret.
  - unfold py_mod. rewrite decide_False by done.
    case_bool_decide as Hrep.
    + eapply (returns_bind _ _ (eq true) _ [] _).
      { intros w. eexists true, w. split.
        - unfold mbind, Run_bind, mret, Run_ret. by rewrite bool_decide_true by lia.
        - by rewrite app_nil_r. }
      intros reporting <-.
      rewrite <- (app_nil_r [CheckpointSaved _ _; _]).
      eapply returns_bind; [by apply returns_gan_report|]. intros _ _.
      by apply returns_ret.
    + change [] with (@nil event ++ [] ++ []).
      eapply (returns_bind _ _ (eq false)).
      { intros w. eexists false, w. split.
        - unfold mbind, Run_bind, mret, Run_ret. by rewrite bool_decide_false by lia.
        - by rewrite app_nil_r. }
      intros reporting <-.
      eapply (returns_bind _ _ (λ _, True)); [by apply returns_ret|]. intros _ _.
      by apply returns_ret.
Qed.

Lemma returns_gan_loop ds_a ds_b ds_b_smooth start real_batches n r pos :
  (∀ k, is_Some (ds_a k)) → (∀ k, is_Some (ds_b k)) →
  (∀ k, is_Some (ds_b_smooth k)) →
  real_batches ≠ [] → fits_grid (images_of real_batches) →
  r ≠ 0 →
  returns (gan_loop self ds_a ds_b ds_b_smooth start real_batches n r pos)
          (eq (Nat.iter (Z.to_nat n) (λ p, (S p.1, S p.2)) pos))
          (concat (gan_step_trace (save_dir self) r <$> range n)).
Proof.
  intros Ha Hb Hs Hne Hfit Hr. unfold gan_loop.
  rewrite <- (length_seqZ 0 n). apply returns_for_fold.
  intros step p _. by apply returns_gan_step.
Qed.
End AdversarialFacts.

Section AdversarialRuns.
Context `{GanCollaborators} `{!CollaboratorsSpec} (self : Trainer).

(** The three folders adversarial training reads. *)
Lemma dataset_of_total_for (files : list string) :
  files ≠ [] → ∀ k, is_Some (dataset_of self files (batch_size self) k).
Proof. intros Hf k. by apply dataset_of_total. Qed.

Lemma returns_gan_sample_and_train ds_a ds_b ds_b_smooth start :
  (∀ k, is_Some (ds_a k)) → (∀ k, is_Some (ds_b k)) →
  (∀ k, is_Some (ds_b_smooth k)) →
  (∀ b k, ds_a k = Some b → length b = Z.to_nat (batch_size self)) →
  0 < batch_size self ≤ 32 →
  fits_grid (batch_size self * (32 / batch_size self)) →
  returns (gan_sample_and_train self ds_a ds_b ds_b_smooth start) (λ _, True)
    ([FigureSaved "result/sampled_images.png"]
     ++ concat (gan_step_trace (save_dir self) 100 <$> range 5000)).
Proof.
  intros Ha Hb Hs Hlen Hbs Hfit. unfold gan_sample_and_train, py_int_truediv.
  rewrite decide_False by lia.
  eapply (returns_bind _ _ _ _ []); [apply returns_logger_info|]. intros _ _.
  eapply (returns_bind _ _ (eq (Z.quot 32 (batch_size self))) _ []);
    [by apply returns_ret|]. intros n <-.
  eapply (returns_bind _ _ _ _ []).
  { apply returns_mapM. intros _ _. by apply returns_next_batch. }
  intros real_batches [Hcount Hall].
  unfold range in Hcount. rewrite length_seqZ in Hcount.
  rewrite Z.quot_div_nonneg in Hcount by lia.
  assert (0 < 32 / batch_size self) as Hpos by (apply Z.div_str_pos; lia).
  assert (real_batches ≠ []) as Hne by (intros ->; cbn in Hcount; lia).
  assert (images_of real_batches = batch_size self * (32 / batch_size self))
    as Himages.
  { unfold images_of.
    rewrite (length_concat_uniform _ (Z.to_nat (batch_size self))).
    - unfold Batch in *. rewrite Hcount. lia.
    - eapply Forall_impl; [exact Hall|]. intros b [k Hk]. by eapply Hlen. }
  rewrite <- Himages in Hfit.
  assert (np_concatenate real_batches = Ok (concat real_batches)) as ->
    by (by destruct real_batches).
  eapply (returns_bind _ _ _ _ []); [apply returns_lift|]. intros x <-.
  eapply (returns_bind _ _ _ _ [_]).
  { apply (returns_save_generated_images _ "sampled_images.png").
    by rewrite shape0_np_clip. }
  intros _ _. rewrite <- (app_nil_r (concat _)).
  eapply returns_bind; [by apply returns_gan_loop|]. intros _ _.
  by apply returns_ret.
Qed.

(** What precedes the load of the pretrained generator. *)
Lemma train_gan_until_load w :
  0 < batch_size self →
  gan_folders_nonempty self →
  ∃ start w1,
    train_gan self w
    = (g_load (save_dir self) "pretrain_generator_with_vgg" ;;
       gan_sample_and_train self
         (dataset_of self (dataset_files (dataset_name self) (source_domain self)
                             "train") (batch_size self))
         (dataset_of self (dataset_files (dataset_name self) (target_domain self)
                             "train") (batch_size self))
         (dataset_of self (dataset_files (dataset_name self)
                             (target_domain self +:+ "_smooth") "train")
                          (batch_size self))
         start) w1
    ∧ trace w1 = trace w ∧ text_files w1 = text_files w ∧ ds_pos w1 = 0%nat
    ∧ ckpts w1 = ckpts w ∧ vars w1 = gan_initial_values.
Proof.
  intros Hb (Ha & Hb' & Hs).
  unfold train_gan, get_dataset, initializer_run, logger_info, modify,
    get, mbind, Run_bind, mret, Run_ret.
  rewrite (decide_False (P := dataset_files _ (source_domain self) _ = []))
    by done.
  rewrite (decide_False (P := dataset_files _ (target_domain self) _ = []))
    by done.
  rewrite (decide_False (P := dataset_files _ (target_domain self +:+ _) _ = []))
    by done.
  rewrite decide_False by lia.
  by eexists _, _.
Qed.

(** What precedes the sample, when the pretrained checkpoint is there. *)
Lemma train_gan_after_load saved w :
  0 < batch_size self →
  gan_folders_nonempty self →
  ckpts w !! (save_dir self, "pretrain_generator_with_vgg") = Some saved →
  ∃ start w1,
    train_gan self w
    = gan_sample_and_train self
        (dataset_of self (dataset_files (dataset_name self) (source_domain self)
                            "train") (batch_size self))
        (dataset_of self (dataset_files (dataset_name self) (target_domain self)
                            "train") (batch_size self))
        (dataset_of self (dataset_files (dataset_name self)
                            (target_domain self +:+ "_smooth") "train")
                         (batch_size self))
        start w1
    ∧ trace w1 = trace w ∧ text_files w1 = text_files w ∧ ds_pos w1 = 0%nat
    ∧ (∀ v, v ∈ to_save_vars → is_Some (saved !! v) → vars w1 !! v = saved !! v)
    ∧ (∀ v, v ∉ to_save_vars → vars w1 !! v = gan_initial_values !! v).
Proof.
  intros Hb Hfiles Hck.
  destruct (train_gan_until_load w Hb Hfiles)
    as (start & w0 & Hrun & Htr & Htxt & Hpos & Hckpts & Hvars).
  rewrite Hrun. unfold mbind, Run_bind, g_load. rewrite Hckpts, Hck.
  eexists start, _. split; [reflexivity|]. unfold set_vars. world_fields.
  rewrite Hvars.
  split; [done|]. split; [done|]. split; [done|]. split.
  - intros v Hv [x Hx]. rewrite Hx. apply lookup_union_Some_l.
    apply map_lookup_filter_Some. done.
  - intros v Hv. etrans; [apply lookup_union_r|reflexivity].
    apply map_lookup_filter_None. right. intros x _. done.
Qed.

(** When the pretrained checkpoint is not there, the load ends the run. *)
Lemma train_gan_load_fails w :
  0 < batch_size self →
  gan_folders_nonempty self →
  ckpts w !! (save_dir self, "pretrain_generator_with_vgg") = None →
  ∃ msg w', train_gan self w = (Raise (ValueError msg), w')
            ∧ trace w' = trace w ∧ ckpts w' = ckpts w
            ∧ ds_pos w' = 0%nat ∧ text_files w' = text_files w.
Proof.
  intros Hb Hfiles Hnone.
  destruct (train_gan_until_load w Hb Hfiles)
    as (start & w0 & Hrun & Htr & Htxt & Hpos & Hckpts & Hvars).
  rewrite Hrun. unfold mbind, Run_bind, g_load. rewrite Hckpts, Hnone.
  by eexists _, w0.
Qed.

(** When one of the three folders is empty, the run ends while the data
    sets are built, with only log records added. *)
Lemma train_gan_no_files w :
  ¬ gan_folders_nonempty self →
  ∃ w', train_gan self w = (Raise read_file_error, w')
        ∧ trace w' = trace w ∧ ckpts w' = ckpts w
        ∧ text_files w' = text_files w ∧ vars w' = vars w
        ∧ ds_pos w' = ds_pos w.
Proof.
  intros Hnot.
  unfold train_gan, get_dataset, logger_info, modify, mbind, Run_bind.
  destruct (decide (dataset_files (dataset_name self) (source_domain self)
                      "train" = [])) as [|Ha]; [by eexists|].
  destruct (decide (dataset_files (dataset_name self) (target_domain self)
                      "train" = [])) as [|Hb]; [by eexists|].
  destruct (decide (dataset_files (dataset_name self)
                      (target_domain self +:+ "_smooth") "train" = []))
    as [|Hs]; [by eexists|].
  by destruct Hnot.
Qed.

Lemma gan_folders_dec : gan_folders_nonempty self ∨ ¬ gan_folders_nonempty self.
Proof.
  unfold gan_folders_nonempty.
  destruct (decide (dataset_files (dataset_name self) (source_domain self)
                      "train" = [])); [right; tauto|].
  destruct (decide (dataset_files (dataset_name self) (target_domain self)
                      "train" = [])); [right; tauto|].
  destruct (decide (dataset_files (dataset_name self)
                      (target_domain self +:+ "_smooth") "train" = []));
    [right; tauto|by left].
Qed.
End AdversarialRuns.


Lemma gan_trace_counts (save_dir : string) :
  length (filter (λ e, is_checkpoint_save e = true)
            (concat (gan_step_trace save_dir 100 <$> range 5000))) = 49%nat
  ∧ train_ops (concat (gan_step_trace save_dir 100 <$> range 5000)) = 10000%nat.
Proof. split; vm_compute; reflexivity. Qed.

Lemma gan_reporting_steps :
  filter (λ step, step ≠ 0 ∧ step mod 100 = 0) (range 5000)
  = (λ i, 100 * i) <$> seqZ 1 49.
Proof. vm_compute. reflexivity. Qed.

(** X15: with the pretrained checkpoint in place, a batch size of at most
    32 whose sample fills the grid, and three folders that are not empty,
    adversarial training runs to the end: after the baseline export every
    one of the 5000 steps runs the discriminator's and the generator's
    training op, and the steps 100, 200, ..., 4900 each save the generator
    under [generater_adv_training] and export a grid - 49 saves and 10000
    training ops in all; no text file is written. *)
Theorem adversarial_training_runs_to_the_end
    `{GanCollaborators} `{!CollaboratorsSpec} (self : Trainer) (saved : Store)
    (w : World) :
  0 < batch_size self ≤ 32 →
  fits_grid (batch_size self * (32 / batch_size self)) →
  dataset_files (dataset_name self) (source_domain self) "train" ≠ [] →
  dataset_files (dataset_name self) (target_domain self) "train" ≠ [] →
  dataset_files (dataset_name self) (target_domain self +:+ "_smooth") "train" ≠ [] →
  ckpts w !! (save_dir self, "pretrain_generator_with_vgg") = Some saved →
  ∃ w', train_gan self w = (Ok tt, w')
        ∧ trace w' = trace w ++ [FigureSaved "result/sampled_images.png"]
                     ++ concat (gan_step_trace (save_dir self) 100 <$> range 5000)
        ∧ checkpoint_saves w' = (checkpoint_saves w + 49)%nat
        ∧ train_ops (trace w') = (train_ops (trace w) + 10000)%nat
        ∧ filter (λ step, step ≠ 0 ∧ step mod 100 = 0) (range 5000)
          = (λ i, 100 * i) <$> seqZ 1 49
        ∧ text_files w' = text_files w.
Proof.
  intros Hb Hfit Ha Hb' Hs Hck.
  destruct (train_gan_after_load self saved w ltac:(lia)
              (conj Ha (conj Hb' Hs)) Hck)
    as (start & w1 & Hrun & Htr1 & Htxt1 & _).
  destruct (returns_gan_sample_and_train self _ _ _ start
              (dataset_of_total_for self _ Ha) (dataset_of_total_for self _ Hb')
              (dataset_of_total_for self _ Hs)) with (w := w1)
    as ([] & w' & Hrun' & _ & Htr & Htxt); [|done|done|].
  { intros b k Hk. by apply dataset_of_batch_from_files in Hk as [Hlen _]. }
  exists w'. rewrite Hrun, Hrun'. split; [done|].
  rewrite Htr, Htr1, Htxt, Htxt1.
  destruct (gan_trace_counts (save_dir self)) as [Hsaves Hops].
  split; [done|]. split; [|split; [|split; [apply gan_reporting_steps|done]]].
  - unfold checkpoint_saves. rewrite Htr, Htr1.
    rewrite !filter_app, !length_app, Hsaves.
    rewrite filter_cons_False by (cbn; discriminate). cbn. lia.
  - unfold train_ops in *.
    rewrite !filter_app, !length_app, Hops.
    rewrite filter_cons_False by (cbn; discriminate). cbn. lia.
Qed.

Lemma adversarial_training_runs_to_the_end_witness :
  ∃ w', @train_gan toy_collaborators toy_gan_collaborators toy_trainer
          world_pretrained = (Ok tt, w')
        ∧ trace w' = trace world_pretrained
                     ++ [FigureSaved "result/sampled_images.png"]
                     ++ concat (gan_step_trace "ckpts" 100 <$> range 5000)
        ∧ checkpoint_saves w' = (checkpoint_saves world_pretrained + 49)%nat
        ∧ train_ops (trace w') = (train_ops (trace world_pretrained) + 10000)%nat
        ∧ filter (λ step, step ≠ 0 ∧ step mod 100 = 0) (range 5000)
          = (λ i, 100 * i) <$> seqZ 1 49
        ∧ text_files w' = text_files world_pretrained.
Proof.
  apply (@adversarial_training_runs_to_the_end toy_collaborators
           toy_gan_collaborators toy_collaborators_spec toy_trainer
           {["generator/w" := [(3 # 4)%Q]]} world_pretrained).
  - cbn. lia.
  - right. reflexivity.
  - discriminate.
  - discriminate.
  - discriminate.
  - reflexivity.
Defined.

(** X16: adversarial training loads the checkpoint named
    [pretrain_generator_with_vgg], whatever [pretrain_generator_name] is,
    and without a handler: when that checkpoint is absent [train_gan]
    raises before any batch is drawn, trained on, saved or exported - also
    when a checkpoint saved under another name, such as the pretraining
    default, is there.  Over three folders that hold files the exception is
    the [ValueError] of the load, raised after the iterators were
    initialised (with an empty folder the run has ended before, while the
    data sets were built). *)
Theorem adversarial_training_needs_its_own_checkpoint_name
    `{GanCollaborators} (self : Trainer) (w : World) :
  0 < batch_size self →
  ckpts w !! (save_dir self, "pretrain_generator_with_vgg") = None →
  (∃ e w', train_gan self w = (Raise e, w')
           ∧ trace w' = trace w ∧ ckpts w' = ckpts w
           ∧ text_files w' = text_files w
           ∧ (gan_folders_nonempty self →
              (∃ msg, e = ValueError msg) ∧ ds_pos w' = 0%nat))
  ∧ (∀ other, pretrain_generator_name self ≠ "pretrain_generator_with_vgg" →
       ∃ e w',
         train_gan self
           (set_ckpts (insert (save_dir self, pretrain_generator_name self) other) w)
         = (Raise e, w')
         ∧ (gan_folders_nonempty self → ∃ msg, e = ValueError msg)).
Proof.
  intros Hb Hmissing.
  assert (Hrun : ∀ w0,
    ckpts w0 !! (save_dir self, "pretrain_generator_with_vgg") = None →
    ∃ e w', train_gan self w0 = (Raise e, w')
            ∧ trace w' = trace w0 ∧ ckpts w' = ckpts w0
            ∧ text_files w' = text_files w0
            ∧ (gan_folders_nonempty self →
               (∃ msg, e = ValueError msg) ∧ ds_pos w' = 0%nat)).
  { intros w0 Hnone. destruct (gan_folders_dec self) as [Hfiles|Hnot].
    - destruct (train_gan_load_fails self w0 Hb Hfiles Hnone)
        as (msg & w' & Hr & Htr & Hck & Hpos & Htxt).
      exists (ValueError msg), w'. repeat split; try done. by exists msg.
    - destruct (train_gan_no_files self w0 Hnot)
        as (w' & Hr & Htr & Hck & Htxt & _).
      exists read_file_error, w'. repeat split; done. }
  split; [by apply Hrun|]. intros other Hname.
  destruct (Hrun (set_ckpts (insert (save_dir self, pretrain_generator_name self)
                               other) w)) as (e & w' & Hr & _ & _ & _ & He).
  - cbn [ckpts set_ckpts]. rewrite lookup_insert_ne; [done|]. congruence.
  - exists e, w'. split; [done|]. intros Hfiles. by apply He.
Qed.

Lemma adversarial_training_needs_its_own_checkpoint_name_witness :
  (∃ e w', @train_gan toy_collaborators toy_gan_collaborators toy_trainer world0
           = (Raise e, w')
           ∧ trace w' = trace world0 ∧ ckpts w' = ckpts world0
           ∧ text_files w' = text_files world0
           ∧ (@gan_folders_nonempty toy_collaborators toy_trainer →
              (∃ msg, e = ValueError msg) ∧ ds_pos w' = 0%nat))
  ∧ (∀ other, "pretrain_generator" ≠ "pretrain_generator_with_vgg" →
       ∃ e w',
         @train_gan toy_collaborators toy_gan_collaborators toy_trainer
           (set_ckpts (insert ("ckpts", "pretrain_generator") other) world0)
         = (Raise e, w')
         ∧ (@gan_folders_nonempty toy_collaborators toy_trainer →
            ∃ msg, e = ValueError msg)).
Proof.
  apply (@adversarial_training_needs_its_own_checkpoint_name toy_collaborators
           toy_gan_collaborators toy_trainer world0).
  - cbn. lia.
  - reflexivity.
Defined.

(** X17: the sample of adversarial training is 32 images, not the
    configured [sample_size]: with a batch size above 32 no batch is drawn
    and the run raises before the loop, whatever [sample_size] is.  Over
    three folders that hold files the exception is the [ValueError] of
    [np.concatenate] on the empty list (with an empty folder the run has
    ended before, while the data sets were built). *)
Theorem adversarial_training_needs_batch_size_up_to_32
    `{GanCollaborators} (self : Trainer) (saved : Store) (w : World) :
  32 < batch_size self →
  ckpts w !! (save_dir self, "pretrain_generator_with_vgg") = Some saved →
  ∃ e w', train_gan self w = (Raise e, w')
          ∧ trace w' = trace w
          ∧ (gan_folders_nonempty self →
             e = ValueError "need at least one array to concatenate"
             ∧ ds_pos w' = 0%nat).
Proof.
  intros Hb Hck. destruct (gan_folders_dec self) as [Hfiles|Hnot].
  - destruct (train_gan_after_load self saved w ltac:(lia) Hfiles Hck)
      as (start & w1 & Hrun & Htr & _ & Hpos & _).
    rewrite Hrun.
    unfold gan_sample_and_train, py_int_truediv, logger_info, modify, lift,
      mbind, Run_bind, mret, Run_ret.
    rewrite decide_False by lia. rewrite Z.quot_small by lia. cbn [range seqZ].
    eexists _, _. split; [reflexivity|]. done.
  - destruct (train_gan_no_files self w Hnot) as (w' & Hr & Htr & _).
    by exists read_file_error, w'.
Qed.

Lemma adversarial_training_needs_batch_size_up_to_32_witness :
  ∃ e w', @train_gan toy_collaborators toy_gan_collaborators
            (toy_config 33 64 4 2) world_pretrained
          = (Raise e, w')
          ∧ trace w' = trace world_pretrained
          ∧ (@gan_folders_nonempty toy_collaborators (toy_config 33 64 4 2) →
             e = ValueError "need at least one array to concatenate"
             ∧ ds_pos w' = 0%nat).
Proof.
  apply (@adversarial_training_needs_batch_size_up_to_32 toy_collaborators
           toy_gan_collaborators (toy_config 33 64 4 2)
           {["generator/w" := [(3 # 4)%Q]]} world_pretrained).
  - cbn. lia.
  - reflexivity.
Defined.

Section AdversarialFrame.
Context `{GanCollaborators} (self : Trainer).

Lemma keeps_weaken {A} keep keep' (m : Run A) :
  (∀ v, v ∈ keep → v ∈ keep') →
  keeps_vars_outside keep m → keeps_vars_outside keep' m.
Proof. intros Hsub Hm w v Hv. apply Hm. intros Hin. by apply Hv, Hsub. Qed.

Lemma keeps_for_fold {A S} keep (xs : list A) (body : A → S → Run S) s :
  (∀ x s, keeps_vars_outside keep (body x s)) →
  keeps_vars_outside keep (for_fold xs body s).
Proof.
  intros Hbody. revert s. induction xs as [|x xs IH]; intros s;
    [by apply keeps_same|].
  cbn [for_fold]. apply keeps_bind; auto.
Qed.

Lemma keeps_run_d_train_op ds_a ds_b ds_b_smooth pos :
  keeps_vars_outside (training_vars d_powers d_to_save_vars)
                     (run_d_train_op ds_a ds_b ds_b_smooth pos).
Proof.
  unfold run_d_train_op. apply keeps_bind; [apply keeps_next_batch|].
  intros input_a. apply keeps_bind; [apply keeps_lift|]. intros input_b.
  apply keeps_bind; [apply keeps_lift|]. intros input_b_smooth.
  apply keeps_bind; [by apply keeps_same|]. intros vs.
  apply keeps_bind; [apply keeps_minimize|]. intros _. by apply keeps_same.
Qed.

Lemma keeps_run_g_train_op ds_a :
  keeps_vars_outside (training_vars g_powers to_save_vars) (run_g_train_op ds_a).
Proof.
  unfold run_g_train_op. apply keeps_bind; [apply keeps_next_batch|].
  intros input_a. apply keeps_bind; [by apply keeps_same|]. intros vs.
  apply keeps_bind; [apply keeps_minimize|]. intros _. by apply keeps_same.
Qed.

Lemma keeps_gan_report keep start real_batches step d g c a :
  keeps_vars_outside keep (gan_report self start real_batches step d g c a).
Proof.
  unfold gan_report.
  apply keeps_bind; [apply keeps_mapM; intros; by apply keeps_same|].
  intros fake_batches.
  apply keeps_bind; [by apply keeps_same|]. intros _.
  apply keeps_bind; [apply keeps_lift|]. intros x.
  apply keeps_bind; [apply keeps_save_generated_images|]. intros _.
  apply keeps_bind; [by apply keeps_same|]. intros now.
  apply keeps_bind; [apply keeps_lift|]. intros msg.
  by apply keeps_same.
Qed.

Lemma keeps_gan_step ds_a ds_b ds_b_smooth start real_batches r step pos :
  keeps_vars_outside (training_vars g_powers to_save_vars
                      ++ training_vars d_powers d_to_save_vars)
    (gan_step self ds_a ds_b ds_b_smooth start real_batches r step pos).
Proof.
  unfold gan_step. apply keeps_bind.
  { eapply keeps_weaken; [|apply keeps_run_d_train_op].
    intros v Hv. apply elem_of_app. by right. }
  intros [d_batch_loss pos']. apply keeps_bind.
  { eapply keeps_weaken; [|apply keeps_run_g_train_op].
    intros v Hv. apply elem_of_app. by left. }
  intros [[g_batch_loss g_content_loss] g_adv_loss]. apply keeps_bind.
  { apply keeps_same. intros w. unfold py_mod. repeat case_decide; done. }
  intros reporting. apply keeps_bind; [|intros; by apply keeps_same].
  destruct reporting; [apply keeps_gan_report|by apply keeps_same].
Qed.

Lemma keeps_gan_sample_and_train ds_a ds_b ds_b_smooth start :
  keeps_vars_outside (training_vars g_powers to_save_vars
                      ++ training_vars d_powers d_to_save_vars)
    (gan_sample_and_train self ds_a ds_b ds_b_smooth start).
Proof.
  unfold gan_sample_and_train.
  apply keeps_bind; [by apply keeps_same|]. intros _.
  apply keeps_bind.
  { apply keeps_same. intros w. unfold py_int_truediv. by case_decide. }
  intros n. apply keeps_bind; [apply keeps_mapM; intros; apply keeps_next_batch|].
  intros real_batches. apply keeps_bind; [apply keeps_lift|]. intros x.
  apply keeps_bind; [apply keeps_save_generated_images|]. intros _.
  apply keeps_bind; [|intros; by apply keeps_same].
  unfold gan_loop. apply keeps_for_fold. intros step pos. apply keeps_gan_step.
Qed.
End AdversarialFrame.

(** X18: one step of the adversarial loop draws two source batches: the
    discriminator's update evaluates its loss on the batch the source
    iterator stands at together with one target and one smoothed-target
    batch, and the generator's update evaluates its losses on the next
    source batch, with the variables the discriminator's update left.  The
    source iterator is two batches further after the two updates, the other
    two iterators one batch each. *)
Theorem adversarial_step_draws_two_source_batches
    `{GanCollaborators} (ds_a ds_b ds_b_smooth : nat → option Batch)
    (pos : nat * nat) (w : World) (a0 a1 b s : Batch) :
  ds_a (ds_pos w) = Some a0 → ds_a (S (ds_pos w)) = Some a1 →
  ds_b pos.1 = Some b → ds_b_smooth pos.2 = Some s →
  ∃ w1 w2,
    run_d_train_op ds_a ds_b ds_b_smooth pos w
    = (Ok (gan_d_loss (vars w) a0 b s, (S pos.1, S pos.2)), w1)
    ∧ run_g_train_op ds_a w1
      = (Ok (gan_g_loss (vars w1) a1, gan_content_loss (vars w1) a1,
             gan_g_adversarial_loss (vars w1) a1), w2)
    ∧ ds_pos w2 = S (S (ds_pos w))
    ∧ trace w2 = trace w ++ [TrainOp; TrainOp].
Proof.
  intros Ha0 Ha1 Hb Hs.
  unfold run_d_train_op, run_g_train_op, next_batch, fetch_at, lift, minimize,
    modify, get, mbind, Run_bind, mret, Run_ret.
  rewrite Ha0, Hb, Hs. cbn.
  eexists _, _. split; [reflexivity|]. cbn. rewrite Ha1. cbn.
  split; [reflexivity|]. split; [done|]. cbn. by rewrite <- app_assoc.
Qed.

Lemma adversarial_step_draws_two_source_batches_witness :
  let ds := λ k : nat, Some (grey_batch (2 + k)) in
  ∃ w1 w2,
    @run_d_train_op toy_collaborators toy_gan_collaborators ds ds ds
      (0%nat, 0%nat) world0
    = (Ok (@gan_d_loss toy_collaborators toy_gan_collaborators (vars world0)
             (grey_batch 2) (grey_batch 2) (grey_batch 2), (1%nat, 1%nat)), w1)
    ∧ @run_g_train_op toy_collaborators toy_gan_collaborators ds w1
      = (Ok (@gan_g_loss toy_collaborators toy_gan_collaborators (vars w1)
               (grey_batch 3),
             @gan_content_loss toy_collaborators (vars w1) (grey_batch 3),
             @gan_g_adversarial_loss toy_collaborators toy_gan_collaborators
               (vars w1) (grey_batch 3)), w2)
    ∧ ds_pos w2 = S (S (ds_pos world0))
    ∧ trace w2 = trace world0 ++ [TrainOp; TrainOp].
Proof.
  intros ds.
  apply (@adversarial_step_draws_two_source_batches toy_collaborators
           toy_gan_collaborators ds ds ds (0%nat, 0%nat) world0
           (grey_batch 2) (grey_batch 3) (grey_batch 2) (grey_batch 2));
    reflexivity.
Defined.

(** X19: each optimizer of the adversarial phase writes the variables of
    the list it was given - its own network's - and the optimizer's own
    variables (two beta powers, two accumulators per listed variable), and
    nothing else: the discriminator's update changes no variable outside
    the discriminator's, the generator's update none outside the
    generator's, and a variable in neither set - such as those of the
    feature extractor - is the same after the sampling and all steps of the
    loop, reports included, as before. *)
Theorem adversarial_updates_keep_to_their_var_lists
    `{GanCollaborators} (self : Trainer)
    (ds_a ds_b ds_b_smooth : nat → option Batch) (start : Q) (pos : nat * nat)
    (w : World) (u v : string) :
  u ∉ training_vars d_powers d_to_save_vars →
  v ∉ training_vars g_powers to_save_vars →
  vars (run_d_train_op ds_a ds_b ds_b_smooth pos w).2 !! u = vars w !! u
  ∧ vars (run_g_train_op ds_a w).2 !! v = vars w !! v
  ∧ (v ∉ training_vars d_powers d_to_save_vars →
     vars (gan_sample_and_train self ds_a ds_b ds_b_smooth start w).2 !! v
     = vars w !! v).
Proof.
  intros Hu Hv. split; [|split].
  - by apply keeps_run_d_train_op.
  - by apply keeps_run_g_train_op.
  - intros Hv'. apply keeps_gan_sample_and_train.
    rewrite elem_of_app. by intros [?|?].
Qed.

Lemma adversarial_updates_keep_to_their_var_lists_witness :
  let ds := @dataset_of toy_collaborators toy_trainer
              (@source_files toy_collaborators toy_trainer) 2 in
  let w := set_vars (λ _, @gan_initial_values toy_collaborators
                            toy_gan_collaborators) world0 in
  vars (@run_d_train_op toy_collaborators toy_gan_collaborators ds ds ds
          (0%nat, 0%nat) w).2 !! "generator/w" = vars w !! "generator/w"
  ∧ vars (@run_g_train_op toy_collaborators toy_gan_collaborators ds w).2
      !! "vgg/w" = vars w !! "vgg/w"
  ∧ ("vgg/w" ∉ training_vars d_powers
                 (@d_to_save_vars toy_collaborators toy_gan_collaborators) →
     vars (@gan_sample_and_train toy_collaborators toy_gan_collaborators
             toy_trainer ds ds ds 0%Q w).2 !! "vgg/w" = vars w !! "vgg/w").
Proof.
  apply (@adversarial_updates_keep_to_their_var_lists toy_collaborators
           toy_gan_collaborators toy_trainer).
  - apply (bool_decide_unpack _). vm_compute. exact I.
  - apply (bool_decide_unpack _). vm_compute. exact I.
Defined.

Section GanLossSigns.
Local Open Scope R_scope.

Lemma sigmoid_cross_entropy_with_logits_nonneg (z x : R) :
  z = 0 ∨ z = 1 → 0 <= Gan.sigmoid_cross_entropy_with_logits z x.
Proof.
  intros Hz. unfold Gan.sigmoid_cross_entropy_with_logits.
  assert (0 <= ln (1 + exp (- Rabs x))) as Hln.
  { rewrite <- ln_1. pose proof (exp_pos (- Rabs x)).
    apply Rlt_le, ln_increasing; lra. }
  pose proof (Rmax_l x 0). pose proof (Rmax_r x 0).
  destruct Hz as [-> | ->]; lra.
Qed.

Lemma zip_zeros_like (f : R → R → R) xs :
  zip_with f (Gan.zeros_like xs) xs = f 0 <$> xs.
Proof.
  unfold Gan.zeros_like. induction xs as [|x xs IH]; [done|].
  cbn. by rewrite <- IH.
Qed.

Lemma reduce_sum_nonneg (xs : list R) :
  Forall (λ x, 0 <= x) xs → 0 <= Gan.reduce_sum xs.
Proof.
  intros Hxs. induction Hxs as [|x xs Hx Hxs IH]; [cbn; lra|].
  change (0 <= x + Gan.reduce_sum xs). lra.
Qed.

Lemma mean_of_nonneg_losses (f : R → R) (xs : list R) :
  (∀ x, 0 <= f x) →
  0 <= (if decide (length (f <$> xs) = 0%nat) then 0
        else Gan.reduce_sum (f <$> xs) / INR (length (f <$> xs))).
Proof.
  intros Hf. case_decide as Hlen; [lra|].
  apply Rmult_le_pos.
  - apply reduce_sum_nonneg, Forall_fmap, Forall_forall. intros x _. apply Hf.
  - apply Rlt_le, Rinv_0_lt_compat, lt_0_INR. lia.
Qed.

Lemma sigmoid_cross_entropy_ones_nonneg (logits : list R) :
  0 <= Gan.sigmoid_cross_entropy (Gan.ones_like logits) logits.
Proof.
  unfold Gan.sigmoid_cross_entropy. rewrite zip_ones_like.
  apply (mean_of_nonneg_losses (Gan.sigmoid_cross_entropy_with_logits 1)).
  intros x. apply sigmoid_cross_entropy_with_logits_nonneg. by right.
Qed.

Lemma sigmoid_cross_entropy_zeros_nonneg (logits : list R) :
  0 <= Gan.sigmoid_cross_entropy (Gan.zeros_like logits) logits.
Proof.
  unfold Gan.sigmoid_cross_entropy. rewrite zip_zeros_like.
  apply (mean_of_nonneg_losses (Gan.sigmoid_cross_entropy_with_logits 0)).
  intros x. apply sigmoid_cross_entropy_with_logits_nonneg. by left.
Qed.

(** X20: taken over the reals, the discriminator's loss of [train_gan],
    each of the three cross-entropies it sums, and the generator's
    adversarial loss are never negative, whatever the networks put out and
    also when the discriminator puts out no logit at all. *)
Theorem adversarial_losses_are_nonnegative {T : Type} (g : T → T)
    (d_build_graph : T → list R) (input_a input_b input_b_smooth : T) :
  0 <= Gan.d_loss g d_build_graph input_a input_b input_b_smooth
  ∧ 0 <= Gan.g_adversarial_loss g d_build_graph input_a
  ∧ Gan.sigmoid_cross_entropy (Gan.ones_like (d_build_graph input_b))
                              (d_build_graph input_b)
    <= Gan.d_loss g d_build_graph input_a input_b input_b_smooth.
Proof.
  unfold Gan.d_loss, Gan.g_adversarial_loss, Gan.reduce_mean_scalar.
  pose proof (sigmoid_cross_entropy_ones_nonneg (d_build_graph input_b)).
  pose proof (sigmoid_cross_entropy_zeros_nonneg (d_build_graph (g input_a))).
  pose proof (sigmoid_cross_entropy_zeros_nonneg (d_build_graph input_b_smooth)).
  pose proof (sigmoid_cross_entropy_ones_nonneg (d_build_graph (g input_a))).
  split; [lra|]. split; [done|]. lra.
Qed.
End GanLossSigns.
